(** * Global Sales & Risk Analytics: a shallow embedding of backend/server.py

    The analytics endpoints of [backend/server.py] are embedded as pure
    functions over an explicit database value and an explicit clock.

    Conventions of the embedding:
    - Python [float] arithmetic is read as exact arithmetic over [Q]; equality
      of computed amounts is therefore [Qeq] ([==]).
    - Exceptions are values of the [result] type; [/] raises
      [ZeroDivisionError] on a zero divisor, as Python does, and adding the
      forecast horizon to the clock raises [OverflowError] past year 9999.
    - A Python [dict] is an association list in insertion order.
    - Random draws ([random.uniform]) and the clock ([datetime.now]) are
      explicit arguments.
    - The persistence layer is a record of two lists; [find] is a filter. *)

From Stdlib Require Import ZArith QArith Qround Qabs Lia Lqa.
From Stdlib Require Import List String Ascii Bool.
From Stdlib Require Import Sorted Permutation.
From Stdlib Require Decimal DecimalString.
From Stdlib Require Import Setoid Morphisms.
Import ListNotations.

Set Implicit Arguments.
Local Open Scope Z_scope.
Local Open Scope Q_scope.
Local Open Scope string_scope.

(* ================================================================= *)
(** ** Exceptions *)

Inductive exn : Type :=
| ZeroDivisionError
| ValueError
| IndexError
| KeyError
| OverflowError.

Inductive result (A : Type) : Type :=
| Ok (a : A)
| Raise (e : exn).

Arguments Ok {A} a.
Arguments Raise {A} e.

Definition bind {A B : Type} (m : result A) (k : A -> result B) : result B :=
  match m with
  | Ok a => k a
  | Raise e => Raise e
  end.

Notation "x <- m ;; k" := (bind m (fun x => k))
  (at level 61, m at next level, right associativity).

Fixpoint mapM {A B : Type} (f : A -> result B) (l : list A) : result (list B) :=
  match l with
  | [] => Ok []
  | a :: l' =>
      b <- f a ;;
      bs <- mapM f l' ;;
      Ok (b :: bs)
  end.

(* ================================================================= *)
(** ** Numbers *)

(** Python's true division [a / b]. *)
Definition py_div (a b : Q) : result Q :=
  if Qeq_bool b 0 then Raise ZeroDivisionError else Ok (a / b).

(** [max(a, b)] and [min(a, b)]: Python returns the first argument unless the
    second is strictly larger (resp. smaller). *)
Definition py_max (a b : Q) : Q :=
  match Qcompare b a with Gt => b | _ => a end.

Definition py_min (a b : Q) : Q :=
  match Qcompare b a with Lt => b | _ => a end.

(** [sum(...)] over a generator of floats, starting from 0. *)
Definition py_sum (l : list Q) : Q := fold_left Qplus l 0.

(** Rounding to the nearest integer, ties to the even one. *)
Definition round_half_even (x : Q) : Z :=
  let f := Qfloor x in
  match Qcompare (x - inject_Z f) (1 # 2) with
  | Lt => f
  | Gt => (f + 1)%Z
  | Eq => if Z.even f then f else (f + 1)%Z
  end.

Fixpoint pow10 (n : nat) : Z :=
  match n with
  | O => 1%Z
  | S n' => (10 * pow10 n')%Z
  end.

(** [round(x, ndigits)] with [ndigits >= 0]. *)
Definition py_round (x : Q) (ndigits : nat) : Q :=
  inject_Z (round_half_even (x * inject_Z (pow10 ndigits)))
  / inject_Z (pow10 ndigits).

(* ================================================================= *)
(** ** Sorting

    CPython's [sorted]/[list.sort] is a stable sort on the key; with
    [reverse=True] the list is reversed, sorted stably and reversed again.
    Any stable sort computes the same list; insertion sort stands for it. *)

Section Sorting.
Variables (A K : Type).
Variable leb : K -> K -> bool.
Variable key : A -> K.

Fixpoint insert_by (x : A) (l : list A) : list A :=
  match l with
  | [] => [x]
  | y :: l' =>
      if leb (key x) (key y) then x :: y :: l' else y :: insert_by x l'
  end.

Fixpoint stable_sort (l : list A) : list A :=
  match l with
  | [] => []
  | x :: l' => insert_by x (stable_sort l')
  end.

Definition py_sorted (reverse : bool) (l : list A) : list A :=
  if reverse then rev (stable_sort (rev l)) else stable_sort l.
End Sorting.

(* ================================================================= *)
(** ** Dictionaries with string keys, in insertion order *)

Module Dict.
Definition t (V : Type) : Type := list (string * V).

Fixpoint get {V : Type} (k : string) (d : t V) : option V :=
  match d with
  | [] => None
  | (k', v) :: d' => if String.eqb k k' then Some v else get k d'
  end.

Definition mem {V : Type} (k : string) (d : t V) : bool :=
  match get k d with Some _ => true | None => false end.

(** [d[k] = v]: overwrite in place, or append a new key at the end. *)
Fixpoint set {V : Type} (k : string) (v : V) (d : t V) : t V :=
  match d with
  | [] => [(k, v)]
  | (k', v') :: d' =>
      if String.eqb k k' then (k', v) :: d' else (k', v') :: set k v d'
  end.

Definition keys {V : Type} (d : t V) : list string := map fst d.
Definition values {V : Type} (d : t V) : list V := map snd d.
Definition items {V : Type} (d : t V) : list (string * V) := d.
End Dict.

(** Membership in a list of strings ([x in xs]). *)
Definition str_in (x : string) (xs : list string) : bool :=
  existsb (String.eqb x) xs.

(** [list(set(xs))] up to the unspecified iteration order of a set: the
    distinct elements, here in order of first occurrence. *)
Fixpoint distinct (xs : list string) : list string :=
  match xs with
  | [] => []
  | x :: xs' => x :: filter (fun y => negb (String.eqb x y)) (distinct xs')
  end.

(* ================================================================= *)
(** ** Dates and times

    A [datetime] is a point on the proleptic Gregorian time line, counted in
    microseconds from 0001-01-01T00:00:00 (the first instant of ordinal day
    1).  The calendar fields are recovered with the algorithm of CPython's
    [datetime._ord2ymd].  A [timedelta] is a number of microseconds.

    CPython's [datetime] covers the years 1 to 9999 and [d + t] raises
    [OverflowError] when the result leaves them.  [add] and [sub] are the
    arithmetic without that check; they serve where the code shifts the
    clock or an order date by a number of days that the code itself bounds
    (at most 730).  [add_checked] is [d + t] with the check; it serves where
    the offset is chosen by the caller, the horizon of the forecast. *)

Module DT.
Local Open Scope Z_scope.

Record datetime : Type := { stamp : Z }.
Definition timedelta : Type := Z.

Definition us_per_day : Z := 86400000000.

Definition is_leap (y : Z) : bool :=
  (y mod 4 =? 0) && (negb (y mod 100 =? 0) || (y mod 400 =? 0)).

Definition days_before_year (y : Z) : Z :=
  let y1 := y - 1 in
  y1 * 365 + y1 / 4 - y1 / 100 + y1 / 400.

(** [_DAYS_IN_MONTH], for a common year. *)
Definition days_in_month_tbl (m : Z) : Z :=
  match m with
  | 1 => 31 | 2 => 28 | 3 => 31 | 4 => 30 | 5 => 31 | 6 => 30
  | 7 => 31 | 8 => 31 | 9 => 30 | 10 => 31 | 11 => 30 | 12 => 31
  | _ => 0
  end.

(** [_DAYS_BEFORE_MONTH], for a common year. *)
Definition days_before_month_tbl (m : Z) : Z :=
  match m with
  | 1 => 0 | 2 => 31 | 3 => 59 | 4 => 90 | 5 => 120 | 6 => 151
  | 7 => 181 | 8 => 212 | 9 => 243 | 10 => 273 | 11 => 304 | 12 => 334
  | _ => 0
  end.

Definition days_before_month (y m : Z) : Z :=
  days_before_month_tbl m + (if (2 <? m) && is_leap y then 1 else 0).

Definition ymd2ord (y m d : Z) : Z :=
  days_before_year y + days_before_month y m + d.

Definition ord2ymd (ordinal : Z) : Z * Z * Z :=
  let n := ordinal - 1 in
  let n400 := n / 146097 in
  let n := n mod 146097 in
  let n100 := n / 36524 in
  let n := n mod 36524 in
  let n4 := n / 1461 in
  let n := n mod 1461 in
  let n1 := n / 365 in
  let n := n mod 365 in
  let y := n400 * 400 + 1 + n100 * 100 + n4 * 4 + n1 in
  if (n1 =? 4) || (n100 =? 4) then (y - 1, 12, 31)
  else
    let leapyear := (n1 =? 3) && (negb (n4 =? 24) || (n100 =? 3)) in
    let m := Z.shiftr (n + 50) 5 in
    let preceding :=
      days_before_month_tbl m + (if (2 <? m) && leapyear then 1 else 0) in
    if n <? preceding then
      let m' := m - 1 in
      let preceding' :=
        preceding
        - (days_in_month_tbl m' + (if (m' =? 2) && leapyear then 1 else 0)) in
      (y, m', n - preceding' + 1)
    else (y, m, n - preceding + 1).

(** [datetime(y, m, d, hh, mm, ss, us)]. *)
Definition make (y m d hh mm ss us : Z) : datetime :=
  {| stamp :=
      ((((ymd2ord y m d - 1) * 24 + hh) * 60 + mm) * 60 + ss) * 1000000 + us |}.

Definition toordinal (d : datetime) : Z := stamp d / us_per_day + 1.

Definition year (d : datetime) : Z :=
  let '(y, _, _) := ord2ymd (toordinal d) in y.

Definition month (d : datetime) : Z :=
  let '(_, m, _) := ord2ymd (toordinal d) in m.

(** [timedelta(days=n)]. *)
Definition td_days (n : Z) : timedelta := n * us_per_day.

(** [a - b] on datetimes, [d + t] and [d - t] with a timedelta. *)
Definition diff (a b : datetime) : timedelta := stamp a - stamp b.
Definition add (d : datetime) (t : timedelta) : datetime :=
  {| stamp := stamp d + t |}.
Definition sub (d : datetime) (t : timedelta) : datetime :=
  {| stamp := stamp d - t |}.

(** [_MAXORDINAL], the ordinal of 9999-12-31. *)
Definition max_ordinal : Z := 3652059.

(** A point of the time line that is a [datetime]: [0 < days <= _MAXORDINAL]
    on its ordinal day. *)
Definition in_range (d : datetime) : bool :=
  (0 <? toordinal d) && (toordinal d <=? max_ordinal).

(** [d + t] as [datetime.__add__] computes it: the sum when its day lies
    in range, [OverflowError("date value out of range")] otherwise.  (A
    [timedelta] of more than 999999999 days cannot be built, also with
    [OverflowError]; added to a datetime it would leave the range anyway.) *)
Definition add_checked (d : datetime) (t : timedelta) : result datetime :=
  let r := add d t in
  if in_range r then Ok r else Raise OverflowError.

(** [t.days]: whole days, rounded towards minus infinity. *)
Definition days (t : timedelta) : Z := t / us_per_day.

Definition geb (a b : datetime) : bool := stamp b <=? stamp a.
Definition ltb (a b : datetime) : bool := stamp a <? stamp b.

(** [max(ds)]; [ValueError] on the empty list. *)
Definition max_list (ds : list datetime) : result datetime :=
  match ds with
  | [] => Raise ValueError
  | d :: ds' =>
      Ok (fold_left (fun m x => if stamp m <? stamp x then x else m) ds' d)
  end.
End DT.

(** [str(n)] for an integer. *)
Definition str_of_Z (n : Z) : string :=
  DecimalString.NilZero.string_of_int (Z.to_int n).

(** Left padding with zeros up to a width ([%02d], [%04d]). *)
Fixpoint zeros (n : nat) : string :=
  match n with
  | O => EmptyString
  | S n' => String "0"%char (zeros n')
  end.

Definition zfill (width : nat) (s : string) : string :=
  zeros (width - String.length s) ++ s.

(** [d.strftime("%Y-%m")], with [%Y] padded to four digits as documented. *)
Definition strftime_Ym (d : DT.datetime) : string :=
  zfill 4 (str_of_Z (DT.year d)) ++ "-" ++ zfill 2 (str_of_Z (DT.month d)).


(* ================================================================= *)
(** ** Data model (the pydantic models of server.py) *)

Module SalesRecord.
Record t : Type := mk {
  id : string;
  region : string;
  country : string;
  customer_id : string;
  customer_name : string;
  product_category : string;
  product_name : string;
  sales_rep : string;
  order_date : DT.datetime;
  revenue : Q;
  quantity : Z;
  deal_size : Q;
  currency : string;
  payment_status : string;
  payment_due_date : DT.datetime;
  days_overdue : Z
}.
End SalesRecord.

Module CustomerProfile.
Record t : Type := mk {
  id : string;
  customer_id : string;
  customer_name : string;
  region : string;
  country : string;
  industry : string;
  company_size : string;
  total_revenue : Q;
  avg_deal_size : Q;
  payment_history_score : Q;
  risk_score : Q;
  risk_category : string;
  last_order_date : option DT.datetime;
  days_since_last_order : Z
}.
End CustomerProfile.

(** An entry of [top_customers]: [{"name": ..., "revenue": ...}]. *)
Module TopCustomer.
Record t : Type := mk { name : string; revenue : Q }.
End TopCustomer.

Module RegionalSummary.
Record t : Type := mk {
  region : string;
  total_revenue : Q;
  total_orders : Z;
  avg_deal_size : Q;
  risk_exposure : Q;
  top_customers : list TopCustomer.t;
  countries : list string
}.
End RegionalSummary.

(** An entry of [top_regions]: [{"region": ..., "revenue": ...}]. *)
Module TopRegion.
Record t : Type := mk { region : string; revenue : Q }.
End TopRegion.

Module KPIMetrics.
Record t : Type := mk {
  total_revenue : Q;
  total_orders : Z;
  avg_deal_size : Q;
  revenue_growth : Q;
  high_risk_customers : Z;
  overdue_payments : Q;
  top_regions : list TopRegion.t
}.
End KPIMetrics.

(** [confidence_interval]: [{"lower": ..., "upper": ...}]. *)
Module ConfidenceInterval.
Record t : Type := mk { lower : Q; upper : Q }.
End ConfidenceInterval.

Module ForecastData.
Record t : Type := mk {
  period : string;
  actual_revenue : option Q;
  forecasted_revenue : option Q;
  confidence_interval : option ConfidenceInterval.t
}.
End ForecastData.

(** An entry of the sales-trends answer. *)
Module TrendPoint.
Record t : Type := mk { period : string; revenue : Q; orders : Z }.
End TrendPoint.

(** The two collections of the document store. *)
Record Database : Type := {
  sales_records : list SalesRecord.t;
  customer_profiles : list CustomerProfile.t
}.

Definition Qlt_bool (a b : Q) : bool := negb (Qle_bool b a).

(** The idiom [if k not in d: d[k] = init] followed by [d[k] = f(d[k])]. *)
Fixpoint dict_upd {V : Type} (k : string) (init : V) (f : V -> V)
    (d : Dict.t V) : Dict.t V :=
  match d with
  | [] => [(k, f init)]
  | (k', v) :: d' =>
      if String.eqb k k' then (k', f v) :: d'
      else (k', v) :: dict_upd k init f d'
  end.

(* ================================================================= *)
(** ** Profile derivation and risk scoring ([generate_mock_data])

    Only the part of [generate_mock_data] that derives customer profiles is
    embedded: the accumulation of the per-customer entry while records are
    emitted, and the loop that scores every entry.  The random fields of an
    emitted record are inputs. *)

(** The per-customer entry of the local dict [customer_profiles]. *)
Module ProfileAcc.
Record t : Type := mk {
  customer_id : string;
  customer_name : string;
  region : string;
  country : string;
  industry : string;
  company_size : string;
  orders : list SalesRecord.t;
  total_revenue : Q;
  overdue_count : Z
}.
End ProfileAcc.

(** One pass of the emitting loop over [customer_profiles]: [sales_record] is
    the record just built, [revenue] its unrounded revenue, [industry] and
    [company_size] the draws used when the customer is new. *)
Definition add_order (customer_profiles : Dict.t ProfileAcc.t)
    (sales_record : SalesRecord.t) (revenue : Q)
    (industry company_size : string) : Dict.t ProfileAcc.t :=
  let cid := SalesRecord.customer_id sales_record in
  dict_upd cid
    (ProfileAcc.mk cid (SalesRecord.customer_name sales_record)
       (SalesRecord.region sales_record) (SalesRecord.country sales_record)
       industry company_size [] 0 0)
    (fun p =>
       ProfileAcc.mk (ProfileAcc.customer_id p) (ProfileAcc.customer_name p)
         (ProfileAcc.region p) (ProfileAcc.country p)
         (ProfileAcc.industry p) (ProfileAcc.company_size p)
         (ProfileAcc.orders p ++ [sales_record])
         (ProfileAcc.total_revenue p + revenue)
         (if String.eqb (SalesRecord.payment_status sales_record) "Overdue"
          then (ProfileAcc.overdue_count p + 1)%Z
          else ProfileAcc.overdue_count p))
    customer_profiles.

(** The local variables of one pass of the scoring loop. *)
Module Scores.
Record t : Type := mk {
  order_count : Z;
  avg_deal_size : Q;
  overdue_ratio : Q;
  payment_history_score : Q;
  last_order_date : DT.datetime;
  days_since_last_order : Z;
  recency_factor : Q;
  payment_factor : Q;
  volatility_factor : Q;
  risk_score : Q;
  risk_category : string
}.
End Scores.

Definition categorize (risk_score : Q) : string :=
  if Qlt_bool risk_score 30 then "Low"
  else if Qlt_bool risk_score 60 then "Medium"
  else "High".

(** The body of the scoring loop up to the categorisation; [now] is the clock
    and [volatility] the draw of [random.uniform(0, 30)]. *)
Definition score_profile (now : DT.datetime) (volatility : Q)
    (profile : ProfileAcc.t) : result Scores.t :=
  let orders := ProfileAcc.orders profile in
  let total_revenue := ProfileAcc.total_revenue profile in
  let order_count := Z.of_nat (List.length orders) in
  avg_deal_size <-
    (if (0 <? order_count)%Z
     then py_div total_revenue (inject_Z order_count) else Ok 0) ;;
  overdue_ratio <-
    (if (0 <? order_count)%Z
     then py_div (inject_Z (ProfileAcc.overdue_count profile))
                 (inject_Z order_count)
     else Ok 0) ;;
  let payment_history_score := py_max 0 (100 - overdue_ratio * 100) in
  let order_dates := map SalesRecord.order_date orders in
  last_order_date <- DT.max_list order_dates ;;
  let days_since_last_order := DT.days (DT.diff now last_order_date) in
  recency_factor_base <- py_div (inject_Z days_since_last_order) 365 ;;
  let recency_factor := py_min recency_factor_base 1 * 30 in
  let payment_factor := (100 - payment_history_score) * 0.4 in
  let volatility_factor := volatility in
  let risk_score := recency_factor + payment_factor + volatility_factor in
  Ok (Scores.mk order_count avg_deal_size overdue_ratio payment_history_score
        last_order_date days_since_last_order recency_factor payment_factor
        volatility_factor risk_score (categorize risk_score)).

(** The [CustomerProfile] document built from the scores; [uuid] is the
    generated identifier. *)
Definition build_profile (now : DT.datetime) (volatility : Q) (uuid : string)
    (profile : ProfileAcc.t) : result CustomerProfile.t :=
  s <- score_profile now volatility profile ;;
  Ok (CustomerProfile.mk uuid
        (ProfileAcc.customer_id profile) (ProfileAcc.customer_name profile)
        (ProfileAcc.region profile) (ProfileAcc.country profile)
        (ProfileAcc.industry profile) (ProfileAcc.company_size profile)
        (py_round (ProfileAcc.total_revenue profile) 2)
        (py_round (Scores.avg_deal_size s) 2)
        (py_round (Scores.payment_history_score s) 1)
        (py_round (Scores.risk_score s) 1)
        (Scores.risk_category s)
        (Some (Scores.last_order_date s))
        (Scores.days_since_last_order s)).

(* ================================================================= *)
(** ** [get_kpis] *)

Definition revenue_sum (rs : list SalesRecord.t) : Q :=
  py_sum (map SalesRecord.revenue rs).

(** [find({"order_date": {"$gte": current_period_start}})]. *)
Definition current_sales (db : Database) (current_date : DT.datetime)
  : list SalesRecord.t :=
  let current_period_start := DT.sub current_date (DT.td_days 30) in
  filter (fun r => DT.geb (SalesRecord.order_date r) current_period_start)
    (sales_records db).

(** [find({"order_date": {"$gte": previous_period_start,
                          "$lt": previous_period_end}})]. *)
Definition previous_sales (db : Database) (current_date : DT.datetime)
  : list SalesRecord.t :=
  let previous_period_start := DT.sub current_date (DT.td_days 60) in
  let previous_period_end := DT.sub current_date (DT.td_days 30) in
  filter (fun r =>
            DT.geb (SalesRecord.order_date r) previous_period_start
            && DT.ltb (SalesRecord.order_date r) previous_period_end)
    (sales_records db).

(** The local [revenue_growth], before the rounding of the answer. *)
Definition revenue_growth_of (current_revenue previous_revenue : Q) : result Q :=
  if Qlt_bool 0 previous_revenue
  then q <- py_div (current_revenue - previous_revenue) previous_revenue ;;
       Ok (q * 100)
  else Ok 0.

Definition region_revenue_of (sales : list SalesRecord.t) : Dict.t Q :=
  fold_left
    (fun region_revenue record =>
       dict_upd (SalesRecord.region record) 0
         (fun v => v + SalesRecord.revenue record) region_revenue)
    sales [].

Definition get_kpis (db : Database) (current_date : DT.datetime)
  : result KPIMetrics.t :=
  let current_sales := current_sales db current_date in
  let previous_sales := previous_sales db current_date in
  let current_revenue := revenue_sum current_sales in
  let previous_revenue := revenue_sum previous_sales in
  revenue_growth <- revenue_growth_of current_revenue previous_revenue ;;
  let total_orders := Z.of_nat (List.length current_sales) in
  avg_deal_size <-
    (if (0 <? total_orders)%Z
     then py_div current_revenue (inject_Z total_orders) else Ok 0) ;;
  let high_risk_customers :=
    Z.of_nat
      (List.length
         (filter (fun c => String.eqb (CustomerProfile.risk_category c) "High")
            (customer_profiles db))) in
  let overdue_records :=
    filter (fun r => String.eqb (SalesRecord.payment_status r) "Overdue")
      (sales_records db) in
  let overdue_payments := revenue_sum overdue_records in
  let region_revenue := region_revenue_of current_sales in
  let top_regions :=
    map (fun kv => TopRegion.mk (fst kv) (snd kv))
      (py_sorted Qle_bool (@snd string Q) true (Dict.items region_revenue)) in
  Ok (KPIMetrics.mk (py_round current_revenue 2) total_orders
        (py_round avg_deal_size 2) (py_round revenue_growth 1)
        high_risk_customers (py_round overdue_payments 2) top_regions).

(* ================================================================= *)
(** ** [get_regional_summary] *)

Definition regions : list string := ["APAC"; "EMEA"; "Americas"].

(** The local dict [customer_revenue], keyed by customer id. *)
Definition customer_revenue_of (sales_data : list SalesRecord.t)
  : Dict.t TopCustomer.t :=
  fold_left
    (fun customer_revenue record =>
       dict_upd (SalesRecord.customer_id record)
         (TopCustomer.mk (SalesRecord.customer_name record) 0)
         (fun e =>
            TopCustomer.mk (TopCustomer.name e)
              (TopCustomer.revenue e + SalesRecord.revenue record))
         customer_revenue)
    sales_data [].

Definition top_customers_of (sales_data : list SalesRecord.t)
  : list TopCustomer.t :=
  map (fun data => TopCustomer.mk (TopCustomer.name data) (TopCustomer.revenue data))
    (firstn 5
       (py_sorted Qle_bool TopCustomer.revenue true
          (Dict.values (customer_revenue_of sales_data)))).

Definition region_sales (db : Database) (region : string) : list SalesRecord.t :=
  filter (fun r => String.eqb (SalesRecord.region r) region) (sales_records db).

(** One pass of the loop over [regions]: [None] stands for [continue]. *)
Definition regional_summary_of (db : Database) (region : string)
  : result (option RegionalSummary.t) :=
  let sales_data := region_sales db region in
  let customer_data :=
    filter (fun c => String.eqb (CustomerProfile.region c) region)
      (customer_profiles db) in
  match sales_data with
  | [] => Ok None
  | _ :: _ =>
      let total_revenue := revenue_sum sales_data in
      let total_orders := Z.of_nat (List.length sales_data) in
      avg_deal_size <-
        (if (0 <? total_orders)%Z
         then py_div total_revenue (inject_Z total_orders) else Ok 0) ;;
      let high_risk_customer_ids :=
        map CustomerProfile.customer_id
          (filter (fun c => String.eqb (CustomerProfile.risk_category c) "High")
             customer_data) in
      let risk_exposure :=
        revenue_sum
          (filter (fun r => str_in (SalesRecord.customer_id r)
                                   high_risk_customer_ids)
             sales_data) in
      let top_customers := top_customers_of sales_data in
      let countries := distinct (map SalesRecord.country sales_data) in
      Ok (Some (RegionalSummary.mk region (py_round total_revenue 2)
                  total_orders (py_round avg_deal_size 2)
                  (py_round risk_exposure 2) top_customers countries))
  end.

Fixpoint regional_summary_loop (db : Database) (rs : list string)
    (regional_summaries : list RegionalSummary.t)
  : result (list RegionalSummary.t) :=
  match rs with
  | [] => Ok regional_summaries
  | region :: rs' =>
      s <- regional_summary_of db region ;;
      regional_summary_loop db rs'
        (match s with
         | Some summary => regional_summaries ++ [summary]
         | None => regional_summaries
         end)
  end.

Definition get_regional_summary (db : Database)
  : result (list RegionalSummary.t) :=
  regional_summary_loop db regions [].

(* ================================================================= *)
(** ** [get_sales_trends] *)

(** [if region: query["region"] = region], then [find(query)]: [None] and the
    empty string leave the query empty. *)
Definition find_sales (region : option string) (db : Database)
  : list SalesRecord.t :=
  match region with
  | Some r =>
      if String.eqb r "" then sales_records db
      else filter (fun x => String.eqb (SalesRecord.region x) r) (sales_records db)
  | None => sales_records db
  end.

Definition period_key (period : string) (order_date : DT.datetime) : string :=
  if String.eqb period "monthly" then strftime_Ym order_date
  else if String.eqb period "quarterly" then
    let quarter := ((DT.month order_date - 1) / 3 + 1)%Z in
    str_of_Z (DT.year order_date) ++ "-Q" ++ str_of_Z quarter
  else (* yearly *)
    str_of_Z (DT.year order_date).

(** The local dict [trends]: period key to (revenue, orders). *)
Definition trends_of (period : string) (sales_data : list SalesRecord.t)
  : Dict.t (Q * Z) :=
  fold_left
    (fun trends record =>
       dict_upd (period_key period (SalesRecord.order_date record)) (0, 0%Z)
         (fun data => (fst data + SalesRecord.revenue record, (snd data + 1)%Z))
         trends)
    sales_data [].

Definition get_sales_trends (period : string) (region : option string)
    (db : Database) : list TrendPoint.t :=
  let sales_data := find_sales region db in
  match sales_data with
  | [] => []
  | _ :: _ =>
      let trends := trends_of period sales_data in
      let trend_list :=
        map (fun kv => TrendPoint.mk (fst kv) (fst (snd kv)) (snd (snd kv)))
          (Dict.items trends) in
      py_sorted String.leb TrendPoint.period false trend_list
  end.

(* ================================================================= *)
(** ** [get_sales_forecast] *)

(** [np.arange(n)]. *)
Definition arange (n : nat) : list Q :=
  map (fun i => inject_Z (Z.of_nat i)) (seq 0 n).

Definition dot (xs ys : list Q) : Q :=
  py_sum (map (fun p => fst p * snd p) (combine xs ys)).

(** [np.polyfit(x, y, 1)]: the least-squares line, as (slope, intercept).
    NumPy solves the least-squares problem numerically; its exact solution
    is the closed form below (the abscissas are distinct when there are at
    least two points). *)
Definition polyfit1 (x y : list Q) : Q * Q :=
  let n := inject_Z (Z.of_nat (List.length x)) in
  let sx := py_sum x in
  let sy := py_sum y in
  let sxx := dot x x in
  let sxy := dot x y in
  let slope := (n * sxy - sx * sy) / (n * sxx - sx * sx) in
  let intercept := (sy - slope * sx) / n in
  (slope, intercept).

(** [l.index(x)]. *)
Fixpoint list_index (x : string) (l : list string) : result nat :=
  match l with
  | [] => Raise ValueError
  | y :: l' =>
      if String.eqb y x then Ok O
      else i <- list_index x l' ;; Ok (S i)
  end.

(** [l[i]] for a non-negative index. *)
Definition list_get {A : Type} (l : list A) (i : nat) : result A :=
  match nth_error l i with
  | Some a => Ok a
  | None => Raise IndexError
  end.

(** [d[k]]. *)
Definition dict_get {V : Type} (d : Dict.t V) (k : string) : result V :=
  match Dict.get k d with
  | Some v => Ok v
  | None => Raise KeyError
  end.

(** [l[-n:]]. *)
Definition last_n {A : Type} (n : nat) (l : list A) : list A :=
  skipn (List.length l - n) l.

(** [range(a, b)]. *)
Definition py_range (a b : Z) : list Z :=
  map (fun k => (a + Z.of_nat k)%Z) (seq 0 (Z.to_nat (b - a))).

(** [find({"order_date": {"$gte": start_date}})]. *)
Definition forecast_sales (db : Database) (current_date : DT.datetime)
  : list SalesRecord.t :=
  let start_date := DT.sub current_date (DT.td_days 365) in
  filter (fun r => DT.geb (SalesRecord.order_date r) start_date)
    (sales_records db).

(** The local dict [monthly_data]. *)
Definition monthly_data_of (sales_data : list SalesRecord.t) : Dict.t Q :=
  fold_left
    (fun monthly_data record =>
       dict_upd (strftime_Ym (SalesRecord.order_date record)) 0
         (fun v => v + SalesRecord.revenue record) monthly_data)
    sales_data [].

Definition sorted_months_of (monthly_data : Dict.t Q) : list string :=
  py_sorted String.leb (fun k : string => k) false (Dict.keys monthly_data).

Definition revenues_of (monthly_data : Dict.t Q) : result (list Q) :=
  mapM (dict_get monthly_data) (sorted_months_of monthly_data).

(** The local [forecasted_value] of the [i]-th future month. *)
Definition forecasted_value (trend_slope trend_intercept : Q)
    (last_index i : Z) : Q :=
  trend_slope * inject_Z (last_index + i) + trend_intercept.

(** The [ForecastData] appended by one pass of the loop that adds
    forecasted data, once the date of the forecast month is known. *)
Definition forecast_entry (forecast_date : DT.datetime)
    (trend_slope trend_intercept : Q) (last_index i : Z) : ForecastData.t :=
  let forecast_month := strftime_Ym forecast_date in
  let forecasted_value :=
    forecasted_value trend_slope trend_intercept last_index i in
  let confidence_lower := forecasted_value * 0.8 in
  let confidence_upper := forecasted_value * 1.2 in
  ForecastData.mk forecast_month None (Some (py_round forecasted_value 2))
    (Some (ConfidenceInterval.mk (py_round confidence_lower 2)
             (py_round confidence_upper 2))).

(** One pass of the loop that adds forecasted data:
    [current_date + timedelta(days=30 * i)] raises [OverflowError] when the
    date leaves the range of [datetime]. *)
Definition forecast_point (current_date : DT.datetime)
    (trend_slope trend_intercept : Q) (last_index i : Z)
  : result ForecastData.t :=
  forecast_date <- DT.add_checked current_date (DT.td_days (30 * i)) ;;
  Ok (forecast_entry forecast_date trend_slope trend_intercept last_index i).

(** One pass of the loop that adds historical data. *)
Definition historical_point (sorted_months : list string) (revenues : list Q)
    (month : string) : result ForecastData.t :=
  i <- list_index month sorted_months ;;
  v <- list_get revenues i ;;
  Ok (ForecastData.mk month (Some v) None None).

Definition get_sales_forecast (months : Z) (db : Database)
    (current_date : DT.datetime) : result (list ForecastData.t) :=
  let sales_data := forecast_sales db current_date in
  match sales_data with
  | [] => Ok []
  | _ :: _ =>
      let monthly_data := monthly_data_of sales_data in
      let sorted_months := sorted_months_of monthly_data in
      revenues <- revenues_of monthly_data ;;
      if (List.length revenues <? 3)%nat then Ok []
      else
        let x := arange (List.length revenues) in
        let coeffs := polyfit1 x revenues in
        let trend_slope := fst coeffs in
        let trend_intercept := snd coeffs in
        historical <-
          mapM (historical_point sorted_months revenues)
            (last_n 6 sorted_months) ;;
        let last_index := (Z.of_nat (List.length revenues) - 1)%Z in
        forecast <-
          mapM (forecast_point current_date trend_slope trend_intercept
                  last_index)
            (py_range 1 (months + 1)) ;;
        Ok (historical ++ forecast)%list
  end.

(* ================================================================= *)
(** ** Specification-side notions and sample data *)

(** The order on elements induced by a key and a comparison of keys. *)
Definition key_le {A K : Type} (leb : K -> K -> bool) (key : A -> K)
    (a b : A) : Prop :=
  leb (key a) (key b) = true.

(** Amounts that are a whole number of hundredths. *)
Definition is_cents (q : Q) : Prop := exists k : Z, q == inject_Z k / 100.

Definition nonneg_revenues (rs : list SalesRecord.t) : Prop :=
  Forall (fun r => 0 <= SalesRecord.revenue r) rs.

(** A customer whose two orders are both overdue and two years old. *)
Definition stale_order (uuid : string) : SalesRecord.t :=
  SalesRecord.mk uuid "EMEA" "Germany" "CUST_EMEA_1000" "Global Corp"
    "Software" "CRM Suite" "John Smith" (DT.make 2024 1 15 9 0 0 0)
    120000 10 12000 "EUR" "Overdue" (DT.make 2024 3 1 9 0 0 0) 600.

Definition stale_profile (overdue_count : Z) : ProfileAcc.t :=
  ProfileAcc.mk "CUST_EMEA_1000" "Global Corp" "EMEA" "Germany" "Finance"
    "Enterprise" [stale_order "a"; stale_order "b"] 240000 overdue_count.

Definition sample_now : DT.datetime := DT.make 2026 11 4 12 0 0 0.

(** A small ledger used in the examples below. *)
Definition sale (uuid region country customer_id customer_name : string)
    (order_date : DT.datetime) (revenue : Q) (payment_status : string)
  : SalesRecord.t :=
  SalesRecord.mk uuid region country customer_id customer_name "Software"
    "CRM Suite" "Emma Taylor" order_date revenue 1 revenue "USD"
    payment_status (DT.add order_date (DT.td_days 30)) 0.

Definition sample_db : Database :=
  {| sales_records :=
      [ sale "s1" "APAC" "Japan" "CUST_APAC_1001" "Tech Group"
          (DT.make 2026 10 20 8 0 0 0) 1000.50 "Paid";
        sale "s2" "EMEA" "Germany" "CUST_EMEA_2002" "Prime Corp"
          (DT.make 2026 9 20 8 0 0 0) 500.25 "Overdue";
        sale "s3" "Americas" "USA" "CUST_Americas_3003" "Smart Systems"
          (DT.make 2026 8 10 8 0 0 0) 250 "Paid";
        sale "s4" "EMEA" "France" "CUST_EMEA_2004" "Future Group"
          (DT.make 2026 10 25 8 0 0 0) 749.75 "Paid" ];
     customer_profiles := [] |}.

(** The customers of a record set as the specification describes them: the
    distinct customer ids in order of first appearance, each with the name on
    its first record and the sum of the revenue of its records. *)
Definition orders_of (customer_id : string) (sales_data : list SalesRecord.t)
  : list SalesRecord.t :=
  filter (fun r => String.eqb customer_id (SalesRecord.customer_id r))
    sales_data.

Definition first_name_of (customer_id : string)
    (sales_data : list SalesRecord.t) : string :=
  match orders_of customer_id sales_data with
  | r :: _ => SalesRecord.customer_name r
  | [] => ""
  end.

Definition customer_total (sales_data : list SalesRecord.t)
    (customer_id : string) : TopCustomer.t :=
  TopCustomer.mk (first_name_of customer_id sales_data)
    (revenue_sum (orders_of customer_id sales_data)).

Definition customer_totals (sales_data : list SalesRecord.t)
  : list TopCustomer.t :=
  map (customer_total sales_data)
    (distinct (map SalesRecord.customer_id sales_data)).

(** Same revenue, as a test. *)
Definition has_revenue (v : Q) (e : TopCustomer.t) : bool :=
  Qeq_bool (TopCustomer.revenue e) v.

(** The sum of [total_revenue] over a list of regional summaries. *)
Definition summary_total (summaries : list RegionalSummary.t) : Q :=
  py_sum (map RegionalSummary.total_revenue summaries).

(** Every record carries one of the three regions. *)
Definition known_regions (rs : list SalesRecord.t) : Prop :=
  Forall (fun r => In (SalesRecord.region r) regions) rs.

(** Every revenue is a whole number of hundredths, as emitted by
    [generate_mock_data] ([revenue=round(revenue, 2)]). *)
Definition cents_revenues (rs : list SalesRecord.t) : Prop :=
  Forall (fun r => is_cents (SalesRecord.revenue r)) rs.

Definition has_sales (db : Database) (region : string) : bool :=
  match region_sales db region with
  | [] => false
  | _ :: _ => true
  end.

Definition empty_db : Database :=
  {| sales_records := []; customer_profiles := [] |}.

(** A ledger with one record worth a tenth of a cent. *)
Definition sub_cent_db : Database :=
  {| sales_records :=
      [ sale "t1" "APAC" "India" "CUST_APAC_5005" "Digital Corp"
          (DT.make 2026 10 1 8 0 0 0) 0.001 "Paid" ];
     customer_profiles := [] |}.

(** Three consecutive months worth 100, 200 and 300. *)
Definition three_month_db : Database :=
  {| sales_records :=
      [ sale "m2" "EMEA" "Spain" "CUST_EMEA_2002" "Prime Corp"
          (DT.make 2026 9 15 8 0 0 0) 150 "Paid";
        sale "m1" "APAC" "Japan" "CUST_APAC_1001" "Tech Group"
          (DT.make 2026 8 15 8 0 0 0) 100 "Paid";
        sale "m3" "EMEA" "Spain" "CUST_EMEA_2002" "Prime Corp"
          (DT.make 2026 9 28 8 0 0 0) 50 "Paid";
        sale "m4" "Americas" "Chile" "CUST_Americas_3003" "Smart Systems"
          (DT.make 2026 10 15 8 0 0 0) 300 "Paid" ];
     customer_profiles := [] |}.

(** Three consecutive months worth 2 cents, 1 cent and 1 cent. *)
Definition tiny_decline_db : Database :=
  {| sales_records :=
      [ sale "d1" "APAC" "Japan" "CUST_APAC_1001" "Tech Group"
          (DT.make 2026 8 15 8 0 0 0) 0.02 "Paid";
        sale "d2" "EMEA" "Spain" "CUST_EMEA_2002" "Prime Corp"
          (DT.make 2026 9 15 8 0 0 0) 0.01 "Paid";
        sale "d3" "EMEA" "Spain" "CUST_EMEA_2002" "Prime Corp"
          (DT.make 2026 10 15 8 0 0 0) 0.01 "Paid" ];
     customer_profiles := [] |}.

(** The summary appended for a region by one pass of the loop, if any. *)
Definition summary_of_region (db : Database) (region : string)
  : option RegionalSummary.t :=
  match regional_summary_of db region with
  | Ok o => o
  | Raise _ => None
  end.

Definition summaries_of_regions (db : Database) (rs : list string)
  : list RegionalSummary.t :=
  flat_map (fun r => match summary_of_region db r with
                     | Some s => [s]
                     | None => []
                     end) rs.

(** The monthly buckets seen by the forecast: month key to revenue, for the
    records of the last 365 days. *)
Definition month_buckets (db : Database) (current_date : DT.datetime)
  : Dict.t Q :=
  monthly_data_of (forecast_sales db current_date).

(** A forecast point, as opposed to a historical one. *)
Definition is_future (p : ForecastData.t) : Prop :=
  ForecastData.forecasted_revenue p <> None.

(* ================================================================= *)
(** ** [get_customer_risk_analysis] *)

(** One optional equality condition of a query: [if v: query[field] = v].
    [None] and the empty string add no condition. *)
Definition query_matches (expected : option string) (actual : string) : bool :=
  match expected with
  | Some v => if String.eqb v "" then true else String.eqb actual v
  | None => true
  end.

(** [db.customer_profiles.find(query)] with the two optional conditions. *)
Definition find_customers (risk_category region : option string)
    (db : Database) : list CustomerProfile.t :=
  filter (fun c =>
            query_matches risk_category (CustomerProfile.risk_category c)
            && query_matches region (CustomerProfile.region c))
    (customer_profiles db).

Definition get_customer_risk_analysis (risk_category region : option string)
    (db : Database) : list CustomerProfile.t :=
  let customers := find_customers risk_category region db in
  py_sorted Qle_bool CustomerProfile.risk_score true customers.

(* ================================================================= *)
(** ** [get_country_performance] *)

(** The per-country entry of the local dict [country_metrics];
    [customers] is a set, kept here without duplicates, and
    [high_risk_customers] is a key that may be absent. *)
Module CountryMetrics.
Record t : Type := mk {
  country : string;
  region : string;
  revenue : Q;
  orders : Z;
  customers : list string;
  high_risk_customers : option Z
}.
End CountryMetrics.

(** A row of the country-performance answer. *)
Module CountryRow.
Record t : Type := mk {
  country : string;
  region : string;
  revenue : Q;
  orders : Z;
  customers : Z;
  avg_deal_size : Q;
  high_risk_customers : Z
}.
End CountryRow.

(** [s.add(x)] on a set. *)
Definition set_add (x : string) (s : list string) : list string :=
  if str_in x s then s else (s ++ [x])%list.

(** [db.customer_profiles.find(query)] with the optional region. *)
Definition find_profiles (region : option string) (db : Database)
  : list CustomerProfile.t :=
  match region with
  | Some r =>
      if String.eqb r "" then customer_profiles db
      else filter (fun c => String.eqb (CustomerProfile.region c) r)
             (customer_profiles db)
  | None => customer_profiles db
  end.

(** The loop that aggregates the sales by country. *)
Definition country_metrics_of (sales_data : list SalesRecord.t)
  : Dict.t CountryMetrics.t :=
  fold_left
    (fun country_metrics record =>
       dict_upd (SalesRecord.country record)
         (CountryMetrics.mk (SalesRecord.country record)
            (SalesRecord.region record) 0 0%Z [] None)
         (fun m =>
            CountryMetrics.mk (CountryMetrics.country m)
              (CountryMetrics.region m)
              (CountryMetrics.revenue m + SalesRecord.revenue record)
              (CountryMetrics.orders m + 1)%Z
              (set_add (SalesRecord.customer_id record)
                 (CountryMetrics.customers m))
              (CountryMetrics.high_risk_customers m))
         country_metrics)
    sales_data [].

Definition count_or_zero (n : option Z) : Z :=
  match n with Some k => k | None => 0%Z end.

(** One pass of the loop that adds the risk metrics. *)
Definition add_risk_metric (country_metrics : Dict.t CountryMetrics.t)
    (customer : CustomerProfile.t) : Dict.t CountryMetrics.t :=
  let country := CustomerProfile.country customer in
  match Dict.get country country_metrics with
  | Some m =>
      let current := count_or_zero (CountryMetrics.high_risk_customers m) in
      Dict.set country
        (CountryMetrics.mk (CountryMetrics.country m) (CountryMetrics.region m)
           (CountryMetrics.revenue m) (CountryMetrics.orders m)
           (CountryMetrics.customers m)
           (Some (if String.eqb (CustomerProfile.risk_category customer) "High"
                  then (current + 1)%Z else current)))
        country_metrics
  | None => country_metrics
  end.

(** One pass of the loop that converts the metrics to the list format. *)
Definition country_row (country_data : CountryMetrics.t)
  : result CountryRow.t :=
  let customer_count :=
    Z.of_nat (List.length (CountryMetrics.customers country_data)) in
  avg_deal_size <-
    (if (0 <? CountryMetrics.orders country_data)%Z
     then q <- py_div (CountryMetrics.revenue country_data)
                 (inject_Z (CountryMetrics.orders country_data)) ;;
          Ok (py_round q 2)
     else Ok 0) ;;
  Ok (CountryRow.mk (CountryMetrics.country country_data)
        (CountryMetrics.region country_data)
        (py_round (CountryMetrics.revenue country_data) 2)
        (CountryMetrics.orders country_data)
        customer_count avg_deal_size
        (count_or_zero (CountryMetrics.high_risk_customers country_data))).

Definition get_country_performance (region : option string) (db : Database)
  : result (list CountryRow.t) :=
  let sales_data := find_sales region db in
  let customer_data := find_profiles region db in
  let country_metrics :=
    fold_left add_risk_metric customer_data (country_metrics_of sales_data) in
  rows <- mapM country_row (Dict.values country_metrics) ;;
  Ok (py_sorted Qle_bool CountryRow.revenue true rows).

(* ================================================================= *)
(** ** [generate_mock_data]: the emitting loop

    Every call of the random module is an explicit draw: a raw natural or
    integer for [random.choice] and [random.randint] (reduced modulo the
    number of alternatives), the value in [0,1) of [random.random()] for
    [random.uniform] and [random.choices], and the sample itself for
    [np.random.exponential]. *)

Module RegionInfo.
Record t : Type := mk { countries : list string; currencies : list string }.
End RegionInfo.

Definition regions_data : Dict.t RegionInfo.t :=
  [ ("APAC",
     RegionInfo.mk
       ["China"; "Japan"; "India"; "Australia"; "Singapore"; "South Korea"]
       ["CNY"; "JPY"; "INR"; "AUD"; "SGD"; "KRW"]);
    ("EMEA",
     RegionInfo.mk
       ["Germany"; "UK"; "France"; "Italy"; "Spain"; "Netherlands"]
       ["EUR"; "GBP"; "EUR"; "EUR"; "EUR"; "EUR"]);
    ("Americas",
     RegionInfo.mk
       ["USA"; "Canada"; "Brazil"; "Mexico"; "Argentina"; "Chile"]
       ["USD"; "CAD"; "BRL"; "MXN"; "ARS"; "CLP"]) ].

Definition products : list (string * list string) :=
  [ ("Software",
     ["CRM Suite"; "Analytics Platform"; "Security Solution"; "ERP System"]);
    ("Cloud Services", ["Infrastructure"; "Database"; "AI/ML Platform"; "CDN"]);
    ("Consulting",
     ["Digital Transformation"; "Data Strategy"; "Security Audit"; "Training"]);
    ("Hardware", ["Servers"; "Networking"; "Storage"; "IoT Devices"]) ].

Definition industries : list string :=
  ["Technology"; "Finance"; "Healthcare"; "Manufacturing"; "Retail";
   "Government"; "Education"].

Definition company_sizes : list string :=
  ["Startup"; "SMB"; "Mid-Market"; "Enterprise"].

Definition payment_statuses : list string :=
  ["Paid"; "Pending"; "Overdue"; "Partially Paid"].

(** [random.choice(l)] on a non-empty list. *)
Definition choice {A : Type} (default : A) (l : list A) (r : nat) : A :=
  nth (r mod List.length l) l default.

(** [random.randint(a, b)]. *)
Definition randint (a b r : Z) : Z := (a + r mod (b - a + 1))%Z.

(** [random.uniform(a, b)], from the value [u] of [random.random()]. *)
Definition uniform (a b u : Q) : Q := a + (b - a) * u.

(** [random.choices(payment_statuses, weights=[70, 15, 10, 5])[0]]: the
    position found by bisection of the cumulative weights at [u * 100]. *)
Definition choose_status (u : Q) : string :=
  let x := u * 100 in
  if Qlt_bool x 70 then "Paid"
  else if Qlt_bool x 85 then "Pending"
  else if Qlt_bool x 95 then "Overdue"
  else "Partially Paid".

(** [int(x)] on a float: truncation towards zero. *)
Definition py_int (x : Q) : Z := Z.quot (Qnum x) (Zpos (Qden x)).

(** The draws of one pass of the emitting loop, in the order of the calls. *)
Module Draw.
Record t : Type := mk {
  region_r : nat;
  country_r : nat;
  customer_r : Z;
  name_first_r : nat;
  name_second_r : nat;
  product_cat_r : nat;
  product_r : nat;
  exponential : Q;
  software_u : Q;
  cloud_u : Q;
  consulting_u : Q;
  hardware_u : Q;
  jitter_u : Q;
  quantity_r : Z;
  status_u : Q;
  due_r : Z;
  rep_first_r : nat;
  rep_last_r : nat;
  uuid : string;
  industry_r : nat;
  company_size_r : nat
}.
End Draw.

(** What one pass builds before the profile bookkeeping: the record and the
    unrounded revenue. *)
Definition emit_record (start_date now : DT.datetime) (d : Draw.t)
  : result (SalesRecord.t * Q) :=
  let region := choice "" (Dict.keys regions_data) (Draw.region_r d) in
  info <- dict_get regions_data region ;;
  let country := choice "" (RegionInfo.countries info) (Draw.country_r d) in
  country_index <- list_index country (RegionInfo.countries info) ;;
  currency <- list_get (RegionInfo.currencies info) country_index ;;
  let customer_id :=
    "CUST_" ++ region ++ "_" ++ str_of_Z (randint 1000 9999 (Draw.customer_r d)) in
  let customer_name :=
    choice "" ["Global"; "Digital"; "Smart"; "Tech"; "Future"; "Prime"]
      (Draw.name_first_r d)
    ++ " "
    ++ choice ""
         ["Solutions"; "Systems"; "Corp"; "Industries"; "Enterprises"; "Group"]
         (Draw.name_second_r d) in
  let product_cat := choice ("", []) products (Draw.product_cat_r d) in
  let product_name := choice "" (snd product_cat) (Draw.product_r d) in
  let days_ago := py_int (Draw.exponential d) in
  let order_date := DT.add start_date (DT.td_days (Z.min days_ago 729)) in
  base_revenue <-
    dict_get
      [ ("Software", uniform 50000 500000 (Draw.software_u d));
        ("Cloud Services", uniform 10000 200000 (Draw.cloud_u d));
        ("Consulting", uniform 25000 300000 (Draw.consulting_u d));
        ("Hardware", uniform 30000 400000 (Draw.hardware_u d)) ]
      (fst product_cat) ;;
  regional_multiplier <-
    dict_get [("APAC", 0.8); ("EMEA", 1.2); ("Americas", 1.0)] region ;;
  let revenue :=
    base_revenue * regional_multiplier * uniform 0.7 1.3 (Draw.jitter_u d) in
  let quantity := randint 1 50 (Draw.quantity_r d) in
  deal_size <- py_div revenue (inject_Z quantity) ;;
  let payment_status := choose_status (Draw.status_u d) in
  let payment_due_date :=
    DT.add order_date (DT.td_days (randint 30 90 (Draw.due_r d))) in
  let days_overdue :=
    if String.eqb payment_status "Overdue"
    then Z.max 0 (DT.days (DT.diff now payment_due_date))
    else 0%Z in
  let sales_rep :=
    choice "" ["John"; "Sarah"; "Mike"; "Lisa"; "David"; "Emma"]
      (Draw.rep_first_r d)
    ++ " "
    ++ choice "" ["Smith"; "Johnson"; "Brown"; "Davis"; "Wilson"; "Taylor"]
         (Draw.rep_last_r d) in
  Ok (SalesRecord.mk (Draw.uuid d) region country customer_id customer_name
        (fst product_cat) product_name sales_rep order_date
        (py_round revenue 2) quantity (py_round deal_size 2) currency
        payment_status payment_due_date days_overdue,
      revenue).

(** The emitting loop over the pass numbers [passes]: [now_at i] is the
    clock and [draws i] the draws of pass [i]. *)
Fixpoint emit_loop (start_date : DT.datetime) (now_at : nat -> DT.datetime)
    (draws : nat -> Draw.t) (passes : list nat)
    (sales_records : list SalesRecord.t)
    (customer_profiles : Dict.t ProfileAcc.t)
  : result (list SalesRecord.t * Dict.t ProfileAcc.t) :=
  match passes with
  | [] => Ok (sales_records, customer_profiles)
  | i :: passes' =>
      emitted <- emit_record start_date (now_at i) (draws i) ;;
      emit_loop start_date now_at draws passes'
        (sales_records ++ [fst emitted])%list
        (add_order customer_profiles (fst emitted) (snd emitted)
           (choice "" industries (Draw.industry_r (draws i)))
           (choice "" company_sizes (Draw.company_size_r (draws i))))
  end.

(** The scoring loop over the items of [customer_profiles]: pass [i] reads
    the clock [now_at i], the volatility [volatility i] and the identifier
    [uuid i]. *)
Fixpoint profile_loop (now_at : nat -> DT.datetime) (volatility : nat -> Q)
    (uuid : nat -> string) (i : nat) (items : list (string * ProfileAcc.t))
  : result (list CustomerProfile.t) :=
  match items with
  | [] => Ok []
  | (_, profile) :: items' =>
      doc <- build_profile (now_at i) (volatility i) (uuid i) profile ;;
      docs <- profile_loop now_at volatility uuid (S i) items' ;;
      Ok (doc :: docs)
  end.

(** The random source and the clock of a run. *)
Module Run.
Record t : Type := mk {
  start_now : DT.datetime;
  emit_now : nat -> DT.datetime;
  draws : nat -> Draw.t;
  score_now : nat -> DT.datetime;
  volatility : nat -> Q;
  profile_uuid : nat -> string
}.
End Run.

(** [generate_mock_data], for [count] passes of the emitting loop (5000 in
    the source): both collections are emptied and refilled, so the new
    database does not depend on the old one. *)
Definition generate_mock_data_n (count : nat) (run : Run.t)
  : result (Database * string) :=
  let start_date := DT.sub (Run.start_now run) (DT.td_days 730) in
  emitted <-
    emit_loop start_date (Run.emit_now run) (Run.draws run) (seq 0 count)
      [] [] ;;
  let sales_records := fst emitted in
  let customer_profiles := snd emitted in
  customer_profile_docs <-
    profile_loop (Run.score_now run) (Run.volatility run)
      (Run.profile_uuid run) 0 (Dict.items customer_profiles) ;;
  Ok ({| sales_records := sales_records;
         customer_profiles := customer_profile_docs |},
      "Generated "
      ++ str_of_Z (Z.of_nat (List.length sales_records))
      ++ " sales records and "
      ++ str_of_Z (Z.of_nat (List.length customer_profile_docs))
      ++ " customer profiles").

Definition generate_mock_data (run : Run.t) : result (Database * string) :=
  generate_mock_data_n (Z.to_nat 5000) run.

(* ================================================================= *)
(** ** Grouping by a key

    The aggregation loops of the endpoints all have the shape
    [for r in rs: if key(r) not in d: d[key(r)] = init(r); d[key(r)] =
    step(r, d[key(r)])].  [group_fold] is that loop; [group_value] is what
    the specification expects under a key: the records with that key, in
    order, folded from the initial value of the first of them. *)

Section Grouping.
Variables (R V : Type).
Variable kf : R -> string.
Variable init : R -> V.
Variable step : R -> V -> V.

Definition group_fold (l : list R) : Dict.t V :=
  fold_left (fun d r => dict_upd (kf r) (init r) (step r) d) l [].

Definition records_with (k : string) (l : list R) : list R :=
  filter (fun r => String.eqb k (kf r)) l.

Definition group_value (default : V) (l : list R) (k : string) : V :=
  match records_with k l with
  | [] => default
  | r0 :: _ => fold_left (fun v r => step r v) (records_with k l) (init r0)
  end.
End Grouping.

(** Totals over lists of integers and over the points of a trend. *)
Definition Z_sum (l : list Z) : Z := fold_left Z.add l 0%Z.

Definition trend_key (period : string) (r : SalesRecord.t) : string :=
  period_key period (SalesRecord.order_date r).


(** The records of one region. *)
Definition in_region (region : string) (rs : list SalesRecord.t)
  : list SalesRecord.t :=
  filter (fun r => String.eqb region (SalesRecord.region r)) rs.

(** A ledger whose only record lies in the previous KPI window. *)
Definition previous_only_db : Database :=
  {| sales_records :=
      [ sale "p1" "EMEA" "Germany" "CUST_EMEA_2002" "Prime Corp"
          (DT.make 2026 9 20 8 0 0 0) 500.25 "Overdue" ];
     customer_profiles := [] |}.

(** No customer profile is rated High. *)
Definition no_high_risk (db : Database) : Prop :=
  Forall (fun c => CustomerProfile.risk_category c <> "High")
    (customer_profiles db).

(** The month key of a record, as the forecast buckets use it. *)
Definition month_key (r : SalesRecord.t) : string :=
  strftime_Ym (SalesRecord.order_date r).

(** A historical point: actual revenue set, nothing forecast. *)
Definition is_historical (p : ForecastData.t) : Prop :=
  ForecastData.actual_revenue p <> None
  /\ ForecastData.forecasted_revenue p = None
  /\ ForecastData.confidence_interval p = None.

(** A forecast point: nothing actual, forecast and interval set. *)
Definition is_forecast (p : ForecastData.t) : Prop :=
  ForecastData.actual_revenue p = None
  /\ ForecastData.forecasted_revenue p <> None
  /\ ForecastData.confidence_interval p <> None.

(** The revenues lie on the line of slope [a] and intercept [b] over the
    month indices 0, 1, 2, ... *)
Definition on_line (a b : Q) (revenues : list Q) : Prop :=
  Forall2 (fun x y => y == a * x + b) (arange (List.length revenues)) revenues.

(** Same risk score, as a test. *)
Definition has_risk_score (v : Q) (c : CustomerProfile.t) : bool :=
  Qeq_bool (CustomerProfile.risk_score c) v.

(** The row computed from a country entry with at least one order. *)
Definition country_row_of (m : CountryMetrics.t) : CountryRow.t :=
  CountryRow.mk (CountryMetrics.country m) (CountryMetrics.region m)
    (py_round (CountryMetrics.revenue m) 2) (CountryMetrics.orders m)
    (Z.of_nat (List.length (CountryMetrics.customers m)))
    (py_round (CountryMetrics.revenue m / inject_Z (CountryMetrics.orders m)) 2)
    (count_or_zero (CountryMetrics.high_risk_customers m)).

(** What the loops of [get_country_performance] keep true of the entry
    stored under a country. *)
Definition country_entry_ok (country : string) (m : CountryMetrics.t) : Prop :=
  CountryMetrics.country m = country
  /\ (1 <= CountryMetrics.orders m)%Z
  /\ (1 <= Z.of_nat (List.length (CountryMetrics.customers m))
      <= CountryMetrics.orders m)%Z
  /\ (0 <= count_or_zero (CountryMetrics.high_risk_customers m))%Z.

(** A small set of profiles over the sample ledger. *)
Definition sample_profile (customer_id region country risk_category : string)
    (risk_score : Q) : CustomerProfile.t :=
  CustomerProfile.mk "u" customer_id "Name" region country "Finance" "SMB"
    1000 500 90 risk_score risk_category (Some sample_now) 10.

Definition sample_db_profiles : Database :=
  {| sales_records := sales_records sample_db;
     customer_profiles :=
       [ sample_profile "CUST_APAC_1001" "APAC" "Japan" "Low" 12.5;
         sample_profile "CUST_EMEA_2002" "EMEA" "Germany" "High" 71;
         sample_profile "CUST_Americas_3003" "Americas" "USA" "Medium" 45;
         sample_profile "CUST_EMEA_2004" "EMEA" "France" "High" 71 ] |}.

(** The values of [random.random()] lie in [0,1] and an exponential sample
    is not negative. *)
Definition unit_interval (u : Q) : Prop := 0 <= u /\ u <= 1.

Definition valid_draw (d : Draw.t) : Prop :=
  unit_interval (Draw.software_u d) /\ unit_interval (Draw.cloud_u d)
  /\ unit_interval (Draw.consulting_u d) /\ unit_interval (Draw.hardware_u d)
  /\ unit_interval (Draw.jitter_u d) /\ 0 <= Draw.exponential d.

(** A sample draw: an EMEA software deal for customer 1234, overdue. *)
Definition sample_draw : Draw.t :=
  Draw.mk 4 7 234 0 2 0 1 12.5 (1 # 2) (1 # 2) (1 # 2) (1 # 2) (1 # 2)
    9 0.9 15 1 2 "uuid-1" 1 3.

Definition sample_start : DT.datetime :=
  DT.sub sample_now (DT.td_days 730).

(** The record and unrounded revenue emitted by pass [i] of a run (the
    placeholder stands for a raised exception, which never occurs). *)
Definition blank_record : SalesRecord.t :=
  SalesRecord.mk "" "" "" "" "" "" "" "" (DT.make 1 1 1 0 0 0 0) 0 0 0 ""
    "" (DT.make 1 1 1 0 0 0 0) 0.

Definition emitted (start_date : DT.datetime) (now_at : nat -> DT.datetime)
    (draws : nat -> Draw.t) (i : nat) : SalesRecord.t * Q :=
  match emit_record start_date (now_at i) (draws i) with
  | Ok e => e
  | Raise _ => (blank_record, 0)
  end.

(** What the emitting loop keeps true of the entry stored under a customer
    id. *)
Definition profile_entry_ok (customer_id : string) (p : ProfileAcc.t) : Prop :=
  ProfileAcc.customer_id p = customer_id
  /\ ProfileAcc.orders p <> []
  /\ (0 <= ProfileAcc.overdue_count p
      <= Z.of_nat (List.length (ProfileAcc.orders p)))%Z
  /\ Forall (fun o => SalesRecord.customer_id o = customer_id)
       (ProfileAcc.orders p).

(** A profile document with scores in range. *)
Definition profile_doc_ok (c : CustomerProfile.t) : Prop :=
  0 <= CustomerProfile.payment_history_score c
  /\ CustomerProfile.payment_history_score c <= 100
  /\ In (CustomerProfile.risk_category c) ["Low"; "Medium"; "High"]
  /\ CustomerProfile.last_order_date c <> None.

(** A run whose draws are all the same sample draw. *)
Definition sample_run : Run.t :=
  Run.mk sample_now (fun _ => sample_now) (fun _ => sample_draw)
    (fun _ => sample_now) (fun _ => 12) (fun _ => "p").

(** The month that [ord2ymd] picks for the [n]-th day (from 0) of a year,
    leap or not: the estimate [(n + 50) >> 5], corrected downwards when it
    overshoots. *)
Definition month_pick (n : Z) (leapyear : bool) : Z :=
  let m := Z.shiftr (n + 50) 5 in
  let preceding :=
    (DT.days_before_month_tbl m
     + (if (2 <? m)%Z && leapyear then 1 else 0))%Z in
  if (n <? preceding)%Z then (m - 1)%Z else m.

(** The last date computed by the loop that adds forecasted data: 30 days
    per requested month after the clock. *)
Definition forecast_horizon (current_date : DT.datetime) (months : Z)
  : DT.datetime :=
  DT.add current_date (DT.td_days (30 * months)).

(** The point of the [i]-th future month, when its date is in range. *)
Definition future_point (current_date : DT.datetime)
    (trend_slope trend_intercept : Q) (last_index i : Z) : ForecastData.t :=
  forecast_entry (DT.add current_date (DT.td_days (30 * i)))
    trend_slope trend_intercept last_index i.

(** The year key of a record, as the yearly branch of the trends uses it. *)
Definition year_key (r : SalesRecord.t) : string :=
  str_of_Z (DT.year (SalesRecord.order_date r)).

(** The sample ledger with a profile for each customer, none rated High. *)
Definition low_risk_db : Database :=
  {| sales_records := sales_records sample_db;
     customer_profiles :=
       [ sample_profile "CUST_APAC_1001" "APAC" "Japan" "Low" 12.5;
         sample_profile "CUST_EMEA_2002" "EMEA" "Germany" "Medium" 45;
         sample_profile "CUST_Americas_3003" "Americas" "USA" "Medium" 45;
         sample_profile "CUST_EMEA_2004" "EMEA" "France" "Low" 20 ] |}.

(* ================================================================= *)
(** * Properties *)

Unset Implicit Arguments.
Local Open Scope list_scope.

(** ** Calendar *)

Example ord2ymd_leap_day :
  DT.ord2ymd (DT.ymd2ord 2024 2 29) = (2024, 2, 29)%Z.
Proof. reflexivity. Qed.

Example ord2ymd_year_end :
  DT.ord2ymd (DT.ymd2ord 2023 12 31) = (2023, 12, 31)%Z.
Proof. reflexivity. Qed.

Example ord2ymd_century :
  DT.ord2ymd (DT.ymd2ord 2000 12 31) = (2000, 12, 31)%Z
  /\ DT.ord2ymd (DT.ymd2ord 1900 3 1) = (1900, 3, 1)%Z.
Proof. split; reflexivity. Qed.

Example strftime_jan_2024 :
  strftime_Ym (DT.make 2024 1 15 10 30 0 0) = "2024-01".
Proof. reflexivity. Qed.

(** ** The error monad *)

Lemma mapM_length {A B : Type} (f : A -> result B) (l : list A) (bs : list B) :
  mapM f l = Ok bs -> List.length bs = List.length l.
Proof.
  revert bs; induction l as [|a l IH]; intros bs H; simpl in H.
  - now inversion H.
  - destruct (f a) as [b|e]; simpl in H; [|discriminate].
    destruct (mapM f l) as [bs'|e]; simpl in H; [|discriminate].
    inversion H; subst; simpl. now rewrite (IH bs').
Qed.

Lemma mapM_total {A B : Type} (f : A -> result B) (l : list A) :
  (forall a, In a l -> exists b, f a = Ok b) ->
  exists bs, mapM f l = Ok bs.
Proof.
  induction l as [|a l IH]; intros H; simpl.
  - now exists [].
  - destruct (H a (or_introl eq_refl)) as [b Hb].
    destruct IH as [bs Hbs]; [intros; apply H; now right|].
    exists (b :: bs). now rewrite Hb, Hbs.
Qed.

(** ** Rounding *)

Lemma inject_Z_succ (z : Z) : inject_Z (z + 1) == inject_Z z + 1.
Proof. now rewrite inject_Z_plus. Qed.

Lemma round_half_even_bounds (x : Q) :
  inject_Z (round_half_even x) - (1 # 2) <= x
  /\ x <= inject_Z (round_half_even x) + (1 # 2).
Proof.
  unfold round_half_even.
  pose proof (Qfloor_le x) as Hlo.
  pose proof (Qlt_floor x) as Hhi.
  rewrite inject_Z_succ in Hhi.
  destruct (Qcompare_spec (x - inject_Z (Qfloor x)) (1 # 2)) as [E|L|G].
  - destruct (Z.even (Qfloor x)); rewrite ?inject_Z_succ; lra.
  - lra.
  - rewrite inject_Z_succ; lra.
Qed.

Lemma round_half_even_mono (x y : Q) :
  x <= y -> (round_half_even x <= round_half_even y)%Z.
Proof.
  intros Hxy.
  pose proof (Qfloor_resp_le _ _ Hxy) as Hf.
  destruct (Z.eq_dec (Qfloor x) (Qfloor y)) as [E|NE].
  - unfold round_half_even. rewrite <- E.
    destruct (Qcompare_spec (x - inject_Z (Qfloor x)) (1 # 2)) as [E1|L1|G1];
      destruct (Qcompare_spec (y - inject_Z (Qfloor x)) (1 # 2)) as [E2|L2|G2];
      try destruct (Z.even (Qfloor x)); try lia; exfalso; lra.
  - assert (Hlt : (Qfloor x + 1 <= Qfloor y)%Z) by lia.
    assert (Hx : (round_half_even x <= Qfloor x + 1)%Z).
    { unfold round_half_even.
      destruct (Qcompare _ _); try destruct (Z.even _); lia. }
    assert (Hy : (Qfloor y <= round_half_even y)%Z).
    { unfold round_half_even.
      destruct (Qcompare _ _); try destruct (Z.even _); lia. }
    lia.
Qed.

Lemma round_half_even_Z (z : Z) : round_half_even (inject_Z z) = z.
Proof.
  unfold round_half_even. rewrite Qfloor_Z.
  destruct (Qcompare_spec (inject_Z z - inject_Z z) (1 # 2)) as [E|L|G].
  - exfalso; lra.
  - reflexivity.
  - exfalso; lra.
Qed.

#[export] Instance round_half_even_comp : Proper (Qeq ==> eq) round_half_even.
Proof.
  intros x y Hxy. unfold round_half_even.
  rewrite (Qfloor_comp _ _ Hxy).
  assert (H : Qcompare (x - inject_Z (Qfloor y)) (1 # 2)
              = Qcompare (y - inject_Z (Qfloor y)) (1 # 2)).
  { apply Qcompare_comp; [now rewrite Hxy | reflexivity]. }
  now rewrite H.
Qed.

Lemma pow10_pos (n : nat) : (0 < pow10 n)%Z.
Proof. induction n; cbn [pow10]; lia. Qed.

Lemma inject_pow10_pos (n : nat) : 0 < inject_Z (pow10 n).
Proof.
  change 0 with (inject_Z 0). rewrite <- Zlt_Qlt. apply pow10_pos.
Qed.

#[export] Instance py_round_comp : Proper (Qeq ==> eq ==> Qeq) py_round.
Proof.
  intros x y Hxy n m <-. unfold py_round.
  assert (H : x * inject_Z (pow10 n) == y * inject_Z (pow10 n))
    by now rewrite Hxy.
  now rewrite (round_half_even_comp _ _ H).
Qed.

Lemma py_round_mono (x y : Q) (n : nat) :
  x <= y -> py_round x n <= py_round y n.
Proof.
  intros Hxy. unfold py_round.
  pose proof (inject_pow10_pos n) as Hp.
  apply Qmult_le_compat_r.
  - rewrite <- Zle_Qle. apply round_half_even_mono.
    apply Qmult_le_compat_r; [assumption | lra].
  - apply Qlt_le_weak, Qinv_lt_0_compat, Hp.
Qed.

(** The rounded value is within half a unit of the last kept digit. *)
Lemma py_round_error (x : Q) (n : nat) :
  Qabs (py_round x n - x) <= (1 # 2) / inject_Z (pow10 n).
Proof.
  unfold py_round.
  pose proof (inject_pow10_pos n) as Hp.
  set (p := inject_Z (pow10 n)) in *.
  destruct (round_half_even_bounds (x * p)) as [Hlo Hhi].
  set (r := inject_Z (round_half_even (x * p))) in *.
  assert (E : r / p - x == (r - x * p) / p) by (field; lra).
  rewrite E. unfold Qdiv. rewrite Qabs_Qmult.
  assert (Hinv : 0 < / p) by now apply Qinv_lt_0_compat.
  rewrite (Qabs_pos (/ p)) by lra.
  apply Qmult_le_compat_r; [|lra].
  apply Qabs_Qle_condition. lra.
Qed.

(** Values more than one unit of the last kept digit apart stay apart. *)
Lemma py_round_gap (x y : Q) (n : nat) :
  1 / inject_Z (pow10 n) < y - x -> py_round x n < py_round y n.
Proof.
  intros Hgap. unfold py_round.
  pose proof (inject_pow10_pos n) as Hp.
  set (p := inject_Z (pow10 n)) in *.
  assert (Hinv : 0 < / p) by now apply Qinv_lt_0_compat.
  assert (Hscaled : x * p + 1 < y * p).
  { assert (H1 : (1 / p) * p == 1) by (field; lra).
    assert (H2 : (1 / p) * p < (y - x) * p)
      by (apply Qmult_lt_compat_r; assumption).
    lra. }
  destruct (round_half_even_bounds (x * p)) as [Hx _].
  destruct (round_half_even_bounds (y * p)) as [_ Hy].
  apply Qmult_lt_compat_r; [assumption|]. lra.
Qed.


Lemma py_round_cents (q : Q) : is_cents q -> py_round q 2 == q.
Proof.
  intros [k Hk]. unfold py_round.
  change (inject_Z (pow10 2)) with 100.
  assert (H : q * 100 == inject_Z k) by (rewrite Hk; field).
  rewrite (round_half_even_comp _ _ H), round_half_even_Z. now rewrite Hk.
Qed.

Lemma py_round_is_cents (q : Q) : is_cents (py_round q 2).
Proof. now exists (round_half_even (q * inject_Z (pow10 2))). Qed.

Lemma is_cents_0 : is_cents 0.
Proof. exists 0%Z. reflexivity. Qed.

Lemma is_cents_plus (a b : Q) : is_cents a -> is_cents b -> is_cents (a + b).
Proof.
  intros [k Hk] [j Hj]. exists (k + j)%Z.
  rewrite inject_Z_plus, Hk, Hj. field.
Qed.

(** ** [max], [min] and comparisons *)

Lemma Qlt_bool_iff (a b : Q) : Qlt_bool a b = true <-> a < b.
Proof.
  unfold Qlt_bool. rewrite negb_true_iff.
  split; intros H.
  - apply Qnot_le_lt. intros Hle. apply Qle_bool_iff in Hle. congruence.
  - destruct (Qle_bool b a) eqn:E; [|reflexivity].
    apply Qle_bool_iff in E. exfalso; lra.
Qed.

Lemma Qlt_bool_false_iff (a b : Q) : Qlt_bool a b = false <-> b <= a.
Proof.
  unfold Qlt_bool. rewrite negb_false_iff. apply Qle_bool_iff.
Qed.

Lemma py_min_le_r (a b : Q) : py_min a b <= b.
Proof.
  unfold py_min. destruct (Qcompare_spec b a); lra.
Qed.

Lemma py_max_ge_l (a b : Q) : a <= py_max a b.
Proof.
  unfold py_max. destruct (Qcompare_spec b a); lra.
Qed.

Lemma py_max_of_nonneg (b : Q) : 0 <= b -> py_max 0 b == b.
Proof.
  intros Hb. unfold py_max. destruct (Qcompare_spec b 0); lra.
Qed.

Lemma py_div_nonzero (a b : Q) : ~ b == 0 -> py_div a b = Ok (a / b).
Proof.
  intros Hb. unfold py_div.
  destruct (Qeq_bool b 0) eqn:E; [|reflexivity].
  apply Qeq_bool_iff in E. contradiction.
Qed.

Lemma inject_Z_pos (z : Z) : (0 < z)%Z -> 0 < inject_Z z.
Proof. intros H. change 0 with (inject_Z 0). now rewrite <- Zlt_Qlt. Qed.

Lemma py_div_count (a : Q) (n : Z) :
  (0 < n)%Z -> py_div a (inject_Z n) = Ok (a / inject_Z n).
Proof.
  intros Hn. apply py_div_nonzero.
  pose proof (inject_Z_pos n Hn). lra.
Qed.

(** ** Risk scoring *)

(** What a successful pass of the scoring loop has computed. *)
Lemma score_profile_inv (now : DT.datetime) (volatility : Q)
    (profile : ProfileAcc.t) (s : Scores.t) :
  score_profile now volatility profile = Ok s ->
  exists last,
    DT.max_list (map SalesRecord.order_date (ProfileAcc.orders profile))
      = Ok last
    /\ Scores.order_count s
       = Z.of_nat (List.length (ProfileAcc.orders profile))
    /\ Scores.payment_history_score s
       = py_max 0 (100 - Scores.overdue_ratio s * 100)
    /\ Scores.days_since_last_order s = DT.days (DT.diff now last)
    /\ Scores.recency_factor s
       = py_min (inject_Z (DT.days (DT.diff now last)) / 365) 1 * 30
    /\ Scores.payment_factor s
       = (100 - Scores.payment_history_score s) * 0.4
    /\ Scores.volatility_factor s = volatility
    /\ Scores.risk_score s
       = Scores.recency_factor s + Scores.payment_factor s
         + Scores.volatility_factor s
    /\ Scores.risk_category s = categorize (Scores.risk_score s).
Proof.
  unfold score_profile. intros H.
  destruct (if (0 <? _)%Z then py_div (ProfileAcc.total_revenue profile) _
            else Ok 0) as [avg|e]; cbn [bind] in H; [|discriminate].
  destruct (if (0 <? _)%Z then py_div (inject_Z _) _ else Ok 0)
    as [ratio|e]; cbn [bind] in H; [|discriminate].
  destruct (DT.max_list _) as [last|e]; cbn [bind] in H; [|discriminate].
  rewrite py_div_nonzero in H by (intros E; discriminate E).
  cbn [bind] in H. inversion H; subst; clear H. cbn.
  exists last. repeat split; reflexivity.
Qed.

(** Scoring succeeds on every customer with at least one order. *)
Lemma score_profile_total (now : DT.datetime) (volatility : Q)
    (profile : ProfileAcc.t) :
  ProfileAcc.orders profile <> [] ->
  exists s, score_profile now volatility profile = Ok s.
Proof.
  intros Hne. unfold score_profile.
  destruct (ProfileAcc.orders profile) as [|o os] eqn:Eo; [congruence|].
  assert (Hpos : (0 < Z.of_nat (List.length (o :: os)))%Z) by (simpl; lia).
  apply Z.ltb_lt in Hpos as Hb. rewrite Hb.
  rewrite !py_div_count by assumption. cbn [bind DT.max_list map].
  rewrite py_div_nonzero by (intros E; discriminate E).
  cbn [bind]. eexists. reflexivity.
Qed.

Lemma risk_score_le_100 (now : DT.datetime) (volatility : Q)
    (profile : ProfileAcc.t) (s : Scores.t) :
  volatility <= 30 ->
  score_profile now volatility profile = Ok s ->
  Scores.risk_score s <= 100.
Proof.
  intros Hv H.
  destruct (score_profile_inv _ _ _ _ H)
    as (last & _ & _ & Hphs & _ & Hrec & Hpay & Hvol & Hrisk & _).
  rewrite Hrisk, Hrec, Hpay, Hvol, Hphs.
  pose proof (py_min_le_r (inject_Z (DT.days (DT.diff now last)) / 365) 1).
  pose proof (py_max_ge_l 0 (100 - Scores.overdue_ratio s * 100)).
  lra.
Qed.

Lemma score_profile_ratio (now : DT.datetime) (volatility : Q)
    (profile : ProfileAcc.t) (s : Scores.t) :
  ProfileAcc.orders profile <> [] ->
  score_profile now volatility profile = Ok s ->
  Scores.overdue_ratio s
  = inject_Z (ProfileAcc.overdue_count profile)
    / inject_Z (Z.of_nat (List.length (ProfileAcc.orders profile))).
Proof.
  intros Hne. unfold score_profile.
  assert (Hpos : (0 < Z.of_nat (List.length (ProfileAcc.orders profile)))%Z).
  { destruct (ProfileAcc.orders profile); [congruence | simpl; lia]. }
  apply Z.ltb_lt in Hpos as Hb. rewrite Hb.
  rewrite !py_div_count by assumption. cbn [bind].
  destruct (DT.max_list _) as [last|e]; cbn [bind]; [|discriminate].
  rewrite py_div_nonzero by (intros E; discriminate E).
  cbn [bind]. intros H. inversion H; subst; reflexivity.
Qed.

Lemma categorize_spec (r : Q) :
  (categorize r = "Low" <-> r < 30)
  /\ (categorize r = "Medium" <-> 30 <= r /\ r < 60)
  /\ (categorize r = "High" <-> 60 <= r).
Proof.
  unfold categorize.
  destruct (Qlt_bool r 30) eqn:E30.
  - apply Qlt_bool_iff in E30.
    repeat split; intros; try discriminate; try lra.
  - apply Qlt_bool_false_iff in E30.
    destruct (Qlt_bool r 60) eqn:E60.
    + apply Qlt_bool_iff in E60.
      repeat split; intros; try discriminate; try lra.
    + apply Qlt_bool_false_iff in E60.
      repeat split; intros; try discriminate; try lra.
Qed.


(** C2, as stated, fails: no order history, evaluation time and volatility
    draw in [0,30] gives a risk score above 100. *)
Lemma C2_no_score_above_100 :
  ~ exists (now : DT.datetime) (volatility : Q) (profile : ProfileAcc.t)
           (s : Scores.t),
      0 <= volatility /\ volatility <= 30
      /\ score_profile now volatility profile = Ok s
      /\ 100 < Scores.risk_score s.
Proof.
  intros (now & v & p & s & _ & Hv & Hs & Hgt).
  pose proof (risk_score_le_100 _ _ _ _ Hv Hs). lra.
Qed.

(** C2 (amended): for every customer with at least one order, every
    evaluation time and every volatility draw in [0,30], scoring succeeds and
    risk_score = recency_factor + payment_factor + volatility_factor is at
    most 100: the three factors are capped at 30, 40 and 30. *)
Theorem C2_risk_score_at_most_100 :
  forall (now : DT.datetime) (volatility : Q) (profile : ProfileAcc.t),
    0 <= volatility -> volatility <= 30 ->
    ProfileAcc.orders profile <> [] ->
    exists s,
      score_profile now volatility profile = Ok s
      /\ Scores.risk_score s
         = Scores.recency_factor s + Scores.payment_factor s
           + Scores.volatility_factor s
      /\ Scores.risk_score s <= 100.
Proof.
  intros now v p _ Hv Hne.
  destruct (score_profile_total now v p Hne) as [s Hs].
  exists s. split; [assumption|]. split.
  - destruct (score_profile_inv _ _ _ _ Hs)
      as (last & _ & _ & _ & _ & _ & _ & _ & Hrisk & _).
    exact Hrisk.
  - eapply risk_score_le_100; eassumption.
Qed.

Lemma C2_risk_score_at_most_100_witness :
  exists s,
    score_profile sample_now 30 (stale_profile 2) = Ok s
    /\ Scores.risk_score s
       = Scores.recency_factor s + Scores.payment_factor s
         + Scores.volatility_factor s
    /\ Scores.risk_score s <= 100.
Proof.
  apply (C2_risk_score_at_most_100 sample_now 30 (stale_profile 2)).
  - lra.
  - lra.
  - discriminate.
Defined.

(** The bound of C2 is reached: all factors at their caps give exactly 100. *)
Example risk_score_reaches_100 :
  exists s,
    score_profile sample_now 30 (stale_profile 2) = Ok s
    /\ Scores.risk_score s == 100.
Proof. eexists. split; [reflexivity | reflexivity]. Qed.

(** C3: the risk category is "Low" exactly when the unrounded risk score is
    below 30, "Medium" exactly when it is in [30,60) and "High" exactly when
    it is at least 60; the stored profile carries that category. *)
Theorem C3_risk_category_thresholds :
  forall (now : DT.datetime) (volatility : Q) (uuid : string)
         (profile : ProfileAcc.t),
    ProfileAcc.orders profile <> [] ->
    exists s c,
      score_profile now volatility profile = Ok s
      /\ build_profile now volatility uuid profile = Ok c
      /\ CustomerProfile.risk_category c = Scores.risk_category s
      /\ (Scores.risk_category s = "Low" <-> Scores.risk_score s < 30)
      /\ (Scores.risk_category s = "Medium"
          <-> 30 <= Scores.risk_score s /\ Scores.risk_score s < 60)
      /\ (Scores.risk_category s = "High" <-> 60 <= Scores.risk_score s).
Proof.
  intros now v uuid p Hne.
  destruct (score_profile_total now v p Hne) as [s Hs].
  exists s. unfold build_profile. rewrite Hs. cbn [bind].
  eexists. split; [reflexivity|]. split; [reflexivity|].
  split; [reflexivity|].
  destruct (score_profile_inv _ _ _ _ Hs)
    as (last & _ & _ & _ & _ & _ & _ & _ & _ & Hcat).
  rewrite Hcat. apply categorize_spec.
Qed.

Lemma C3_risk_category_thresholds_witness :
  exists s c,
    score_profile sample_now 12 (stale_profile 1) = Ok s
    /\ build_profile sample_now 12 "u" (stale_profile 1) = Ok c
    /\ CustomerProfile.risk_category c = Scores.risk_category s
    /\ (Scores.risk_category s = "Low" <-> Scores.risk_score s < 30)
    /\ (Scores.risk_category s = "Medium"
        <-> 30 <= Scores.risk_score s /\ Scores.risk_score s < 60)
    /\ (Scores.risk_category s = "High" <-> 60 <= Scores.risk_score s).
Proof.
  apply (C3_risk_category_thresholds sample_now 12 "u" (stale_profile 1)).
  discriminate.
Defined.

(** The sample customer with one overdue order out of two, volatility 12:
    score 30 + 20 + 12 = 62, hence "High". *)
Example categorize_sample :
  exists s,
    score_profile sample_now 12 (stale_profile 1) = Ok s
    /\ Scores.risk_score s == 62 /\ Scores.risk_category s = "High".
Proof. eexists. repeat split; reflexivity. Qed.

(** C6: with the volatility draw, the clock, the order dates (hence the order
    count) fixed, a strictly larger overdue count, i.e. a strictly larger
    overdue_ratio = overdue_count / order_count within [0,1], gives a strictly
    smaller payment_history_score = max(0, 100 - overdue_ratio * 100) and a
    strictly larger risk_score. *)
Theorem C6_overdue_ratio_monotone :
  forall (now : DT.datetime) (volatility : Q) (p1 p2 : ProfileAcc.t),
    ProfileAcc.orders p1 <> [] ->
    map SalesRecord.order_date (ProfileAcc.orders p1)
    = map SalesRecord.order_date (ProfileAcc.orders p2) ->
    (0 <= ProfileAcc.overdue_count p1)%Z ->
    (ProfileAcc.overdue_count p1 < ProfileAcc.overdue_count p2)%Z ->
    (ProfileAcc.overdue_count p2
     <= Z.of_nat (List.length (ProfileAcc.orders p2)))%Z ->
    exists s1 s2,
      score_profile now volatility p1 = Ok s1
      /\ score_profile now volatility p2 = Ok s2
      /\ Scores.order_count s1 = Scores.order_count s2
      /\ 0 <= Scores.overdue_ratio s1
      /\ Scores.overdue_ratio s1 < Scores.overdue_ratio s2
      /\ Scores.overdue_ratio s2 <= 1
      /\ Scores.payment_history_score s1
         == 100 - Scores.overdue_ratio s1 * 100
      /\ Scores.payment_history_score s2
         == 100 - Scores.overdue_ratio s2 * 100
      /\ Scores.payment_history_score s2 < Scores.payment_history_score s1
      /\ Scores.risk_score s1 < Scores.risk_score s2.
Proof.
  intros now v p1 p2 Hne1 Hdates H0 Hlt Hle.
  assert (Hlen : List.length (ProfileAcc.orders p1)
                 = List.length (ProfileAcc.orders p2)).
  { rewrite <- (length_map SalesRecord.order_date (ProfileAcc.orders p1)).
    rewrite Hdates. apply length_map. }
  assert (Hne2 : ProfileAcc.orders p2 <> []).
  { intros E. rewrite E in Hlen.
    destruct (ProfileAcc.orders p1); [congruence | discriminate]. }
  destruct (score_profile_total now v p1 Hne1) as [s1 Hs1].
  destruct (score_profile_total now v p2 Hne2) as [s2 Hs2].
  exists s1, s2. split; [assumption|]. split; [assumption|].
  pose proof (score_profile_ratio _ _ _ _ Hne1 Hs1) as Hr1.
  pose proof (score_profile_ratio _ _ _ _ Hne2 Hs2) as Hr2.
  destruct (score_profile_inv _ _ _ _ Hs1)
    as (l1 & Hl1 & Hn1 & Hphs1 & _ & Hrec1 & Hpay1 & Hvol1 & Hrisk1 & _).
  destruct (score_profile_inv _ _ _ _ Hs2)
    as (l2 & Hl2 & Hn2 & Hphs2 & _ & Hrec2 & Hpay2 & Hvol2 & Hrisk2 & _).
  rewrite Hdates, Hl2 in Hl1. inversion Hl1; subst l1; clear Hl1.
  assert (Hoc : Scores.order_count s1 = Scores.order_count s2)
    by (rewrite Hn1, Hn2, Hlen; reflexivity).
  rewrite <- Hlen in Hr2, Hle.
  set (n := Z.of_nat (List.length (ProfileAcc.orders p1))) in *.
  assert (Hn : (0 < n)%Z).
  { subst n. destruct (ProfileAcc.orders p1); [congruence | simpl; lia]. }
  pose proof (inject_Z_pos n Hn) as Hnq.
  assert (Hinv : 0 < / inject_Z n) by now apply Qinv_lt_0_compat.
  assert (Hq0 : 0 <= inject_Z (ProfileAcc.overdue_count p1)).
  { change 0 with (inject_Z 0). now rewrite <- Zle_Qle. }
  assert (Hq12 : inject_Z (ProfileAcc.overdue_count p1)
                 < inject_Z (ProfileAcc.overdue_count p2))
    by now rewrite <- Zlt_Qlt.
  assert (Hq2n : inject_Z (ProfileAcc.overdue_count p2) <= inject_Z n)
    by now rewrite <- Zle_Qle.
  assert (R0 : 0 <= Scores.overdue_ratio s1).
  { rewrite Hr1. unfold Qdiv. apply Qmult_le_0_compat; lra. }
  assert (R12 : Scores.overdue_ratio s1 < Scores.overdue_ratio s2).
  { rewrite Hr1, Hr2. unfold Qdiv. now apply Qmult_lt_compat_r. }
  assert (R1 : Scores.overdue_ratio s2 <= 1).
  { rewrite Hr2. apply Qle_shift_div_r; lra. }
  assert (P1 : Scores.payment_history_score s1
               == 100 - Scores.overdue_ratio s1 * 100).
  { rewrite Hphs1. apply py_max_of_nonneg. lra. }
  assert (P2 : Scores.payment_history_score s2
               == 100 - Scores.overdue_ratio s2 * 100).
  { rewrite Hphs2. apply py_max_of_nonneg. lra. }
  split; [exact Hoc|].
  repeat (split; [assumption|]).
  split; [lra|].
  rewrite Hrisk1, Hrisk2, Hrec1, Hrec2, Hpay1, Hpay2, Hvol1, Hvol2.
  lra.
Qed.

Lemma C6_overdue_ratio_monotone_witness :
  exists s1 s2,
    score_profile sample_now 12 (stale_profile 0) = Ok s1
    /\ score_profile sample_now 12 (stale_profile 1) = Ok s2
    /\ Scores.order_count s1 = Scores.order_count s2
    /\ 0 <= Scores.overdue_ratio s1
    /\ Scores.overdue_ratio s1 < Scores.overdue_ratio s2
    /\ Scores.overdue_ratio s2 <= 1
    /\ Scores.payment_history_score s1
       == 100 - Scores.overdue_ratio s1 * 100
    /\ Scores.payment_history_score s2
       == 100 - Scores.overdue_ratio s2 * 100
    /\ Scores.payment_history_score s2 < Scores.payment_history_score s1
    /\ Scores.risk_score s1 < Scores.risk_score s2.
Proof.
  apply (C6_overdue_ratio_monotone sample_now 12
           (stale_profile 0) (stale_profile 1)).
  - discriminate.
  - reflexivity.
  - simpl; lia.
  - simpl; lia.
  - simpl; lia.
Defined.

(** ** Sums *)

Lemma fold_left_Qplus (l : list Q) (a : Q) :
  fold_left Qplus l a == a + fold_left Qplus l 0.
Proof.
  revert a; induction l as [|x l IH]; intros a; simpl.
  - lra.
  - rewrite (IH (a + x)), (IH (0 + x)). lra.
Qed.

Lemma py_sum_cons (x : Q) (l : list Q) : py_sum (x :: l) == x + py_sum l.
Proof.
  unfold py_sum. simpl. rewrite fold_left_Qplus. lra.
Qed.

Lemma py_sum_nil : py_sum [] == 0.
Proof. reflexivity. Qed.

Lemma py_sum_app (l1 l2 : list Q) :
  py_sum (l1 ++ l2) == py_sum l1 + py_sum l2.
Proof.
  induction l1 as [|x l1 IH]; simpl.
  - rewrite py_sum_nil. lra.
  - rewrite !py_sum_cons, IH. lra.
Qed.

Lemma py_sum_nonneg (l : list Q) :
  Forall (fun x => 0 <= x) l -> 0 <= py_sum l.
Proof.
  induction 1 as [|x l Hx _ IH].
  - rewrite py_sum_nil. lra.
  - rewrite py_sum_cons. lra.
Qed.

Lemma revenue_sum_cons (r : SalesRecord.t) (rs : list SalesRecord.t) :
  revenue_sum (r :: rs) == SalesRecord.revenue r + revenue_sum rs.
Proof. unfold revenue_sum. simpl. apply py_sum_cons. Qed.


Lemma nonneg_revenues_filter (f : SalesRecord.t -> bool)
    (rs : list SalesRecord.t) :
  nonneg_revenues rs -> nonneg_revenues (filter f rs).
Proof.
  unfold nonneg_revenues. rewrite !Forall_forall.
  intros H r Hr. apply filter_In in Hr. now apply H.
Qed.

Lemma revenue_sum_nonneg (rs : list SalesRecord.t) :
  nonneg_revenues rs -> 0 <= revenue_sum rs.
Proof.
  intros H. unfold revenue_sum. apply py_sum_nonneg.
  apply Forall_map. exact H.
Qed.

(** ** KPIs *)

Lemma revenue_growth_of_zero (current previous : Q) :
  previous == 0 -> revenue_growth_of current previous = Ok 0.
Proof.
  intros H. unfold revenue_growth_of.
  assert (E : Qlt_bool 0 previous = false) by (apply Qlt_bool_false_iff; lra).
  now rewrite E.
Qed.

Lemma revenue_growth_of_pos (current previous : Q) :
  0 < previous ->
  revenue_growth_of current previous
  = Ok ((current - previous) / previous * 100).
Proof.
  intros H. unfold revenue_growth_of.
  assert (E : Qlt_bool 0 previous = true) by now apply Qlt_bool_iff.
  rewrite E, py_div_nonzero by lra. reflexivity.
Qed.

(** The growth computation never raises. *)
Lemma revenue_growth_of_total (current previous : Q) :
  exists g, revenue_growth_of current previous = Ok g.
Proof.
  destruct (Qlt_le_dec 0 previous) as [Hpos|Hle].
  - eexists. now apply revenue_growth_of_pos.
  - exists 0. unfold revenue_growth_of.
    assert (E : Qlt_bool 0 previous = false) by now apply Qlt_bool_false_iff.
    now rewrite E.
Qed.

(** [get_kpis] never raises; its growth field is the rounded local value. *)
Lemma get_kpis_total (db : Database) (current_date : DT.datetime) :
  exists k g,
    get_kpis db current_date = Ok k
    /\ revenue_growth_of (revenue_sum (current_sales db current_date))
         (revenue_sum (previous_sales db current_date)) = Ok g
    /\ KPIMetrics.revenue_growth k = py_round g 1.
Proof.
  unfold get_kpis.
  destruct (revenue_growth_of_total
              (revenue_sum (current_sales db current_date))
              (revenue_sum (previous_sales db current_date))) as [g Hg].
  rewrite Hg. cbn [bind].
  destruct (0 <? Z.of_nat (List.length (current_sales db current_date)))%Z
    eqn:E.
  - apply Z.ltb_lt in E. rewrite py_div_count by assumption. cbn [bind].
    eexists; exists g. repeat split; reflexivity.
  - cbn [bind]. eexists; exists g. repeat split; reflexivity.
Qed.

(** C5: when the revenue of the prior 30-day window is 0, [get_kpis] returns
    revenue_growth = 0 without raising; otherwise (the prior revenue is then
    positive, revenues being non-negative) the derived revenue_growth is
    (current - previous) / previous * 100, returned rounded to one decimal. *)
Theorem C5_revenue_growth_guard :
  forall (db : Database) (current_date : DT.datetime),
    nonneg_revenues (sales_records db) ->
    let current := revenue_sum (current_sales db current_date) in
    let previous := revenue_sum (previous_sales db current_date) in
    exists k,
      get_kpis db current_date = Ok k
      /\ (previous == 0 ->
          revenue_growth_of current previous = Ok 0
          /\ KPIMetrics.revenue_growth k == 0)
      /\ (~ previous == 0 ->
          revenue_growth_of current previous
          = Ok ((current - previous) / previous * 100)
          /\ KPIMetrics.revenue_growth k
             = py_round ((current - previous) / previous * 100) 1).
Proof.
  intros db now Hnn current previous.
  destruct (get_kpis_total db now) as (k & g & Hk & Hg & Hkg).
  fold current previous in Hg.
  exists k. split; [exact Hk|]. split.
  - intros Hz. rewrite (revenue_growth_of_zero _ _ Hz) in Hg.
    inversion Hg; subst g.
    split; [now apply revenue_growth_of_zero|].
    rewrite Hkg. reflexivity.
  - intros Hnz.
    assert (Hpos : 0 < previous).
    { pose proof (revenue_sum_nonneg _
                    (nonneg_revenues_filter _ _ Hnn) : 0 <= previous).
      destruct (Qlt_le_dec 0 previous) as [?|Hle]; [assumption|].
      exfalso. apply Hnz. lra. }
    rewrite (revenue_growth_of_pos _ _ Hpos) in Hg.
    inversion Hg; subst g.
    split; [now apply revenue_growth_of_pos | exact Hkg].
Qed.


Lemma sample_db_nonneg : nonneg_revenues (sales_records sample_db).
Proof. repeat constructor; unfold Qle; simpl; lia. Qed.

Lemma C5_revenue_growth_guard_witness :
  let current := revenue_sum (current_sales sample_db sample_now) in
  let previous := revenue_sum (previous_sales sample_db sample_now) in
  exists k,
    get_kpis sample_db sample_now = Ok k
    /\ revenue_growth_of current previous
       = Ok ((current - previous) / previous * 100)
    /\ KPIMetrics.revenue_growth k
       = py_round ((current - previous) / previous * 100) 1.
Proof.
  intros current previous.
  destruct (C5_revenue_growth_guard sample_db sample_now sample_db_nonneg)
    as (k & Hk & _ & Hnz).
  exists k. split; [exact Hk|].
  apply Hnz. intros H. vm_compute in H. discriminate H.
Defined.

(** On the sample ledger the current window holds 1750.25 and the previous
    one 500.25: the growth is 249.9 percent after rounding. *)
Example get_kpis_sample_growth :
  exists k,
    get_kpis sample_db sample_now = Ok k
    /\ KPIMetrics.revenue_growth k == 249.9.
Proof. eexists. split; reflexivity. Qed.

(** With nothing in the previous window the growth is 0. *)
Example get_kpis_empty_previous :
  exists k,
    get_kpis {| sales_records := []; customer_profiles := [] |} sample_now
    = Ok k
    /\ KPIMetrics.revenue_growth k == 0.
Proof. eexists. split; reflexivity. Qed.

(** ** Sales trends *)

Lemma period_key_fallthrough (period : string) (order_date : DT.datetime) :
  period <> "monthly" -> period <> "quarterly" ->
  period_key period order_date = str_of_Z (DT.year order_date).
Proof.
  intros Hm Hq. unfold period_key.
  apply String.eqb_neq in Hm. apply String.eqb_neq in Hq.
  now rewrite Hm, Hq.
Qed.

Lemma trends_of_ext (p1 p2 : string) (sales_data : list SalesRecord.t) :
  (forall d, period_key p1 d = period_key p2 d) ->
  trends_of p1 sales_data = trends_of p2 sales_data.
Proof.
  intros Hk. unfold trends_of.
  generalize (@nil (string * (Q * Z))).
  induction sales_data as [|r rs IH]; intros acc; simpl.
  - reflexivity.
  - rewrite Hk. apply IH.
Qed.

(** The decimal spelling of a year between 1000 and 9999 has four digits. *)
Lemma four_digit_years_check :
  forallb (fun k => Nat.eqb (String.length (str_of_Z (1000 + Z.of_nat k))) 4)
    (seq 0 (Z.to_nat 9000)) = true.
Proof. vm_compute. reflexivity. Qed.

Lemma str_of_year_length (y : Z) :
  (1000 <= y <= 9999)%Z -> String.length (str_of_Z y) = 4%nat.
Proof.
  intros Hy.
  pose proof four_digit_years_check as H.
  rewrite forallb_forall in H.
  specialize (H (Z.to_nat (y - 1000))).
  rewrite Nat.eqb_eq in H.
  replace (1000 + Z.of_nat (Z.to_nat (y - 1000)))%Z with y in H by lia.
  apply H. apply in_seq. lia.
Qed.

(** The sample ledger under a malformed period: one bucket per year. *)
Example get_sales_trends_malformed_period :
  map TrendPoint.period (get_sales_trends "weekly;drop" None sample_db)
  = ["2026"]
  /\ map TrendPoint.orders (get_sales_trends "weekly;drop" None sample_db)
     = [4%Z].
Proof. split; reflexivity. Qed.

(** ** Sorting *)

Section SortingFacts.
Context {A K : Type}.
Variable leb : K -> K -> bool.
Variable key : A -> K.

Hypothesis leb_total : forall a b, leb a b = true \/ leb b a = true.
Hypothesis leb_trans :
  forall a b c, leb a b = true -> leb b c = true -> leb a c = true.

Lemma insert_by_perm (x : A) (l : list A) :
  Permutation (insert_by leb key x l) (x :: l).
Proof.
  induction l as [|y l IH]; simpl.
  - apply Permutation_refl.
  - destruct (leb (key x) (key y)).
    + apply Permutation_refl.
    + eapply perm_trans; [apply perm_skip, IH | apply perm_swap].
Qed.

Lemma stable_sort_perm (l : list A) :
  Permutation (stable_sort leb key l) l.
Proof.
  induction l as [|x l IH]; simpl.
  - apply perm_nil.
  - eapply perm_trans; [apply insert_by_perm | now apply perm_skip].
Qed.

Lemma insert_by_sorted (x : A) (l : list A) :
  StronglySorted (key_le leb key) l ->
  StronglySorted (key_le leb key) (insert_by leb key x l).
Proof.
  induction 1 as [|y l Hs IH Hy]; simpl.
  - repeat constructor.
  - destruct (leb (key x) (key y)) eqn:E.
    + constructor; [now constructor|].
      constructor; [exact E|].
      eapply Forall_impl; [|exact Hy].
      intros z Hz. unfold key_le in *. eapply leb_trans; eassumption.
    + constructor; [exact IH|].
      apply (Permutation_Forall (Permutation_sym (insert_by_perm x l))).
      constructor; [|exact Hy].
      unfold key_le. destruct (leb_total (key x) (key y)); congruence.
Qed.

Lemma stable_sort_sorted (l : list A) :
  StronglySorted (key_le leb key) (stable_sort leb key l).
Proof.
  induction l as [|x l IH]; simpl.
  - constructor.
  - now apply insert_by_sorted.
Qed.

(** Stability: elements that share their key keep their relative order. *)
Section Stability.
Variable p : A -> bool.
Hypothesis p_same_key :
  forall a b, p a = true -> p b = true -> leb (key a) (key b) = true.

Lemma filter_insert_by (x : A) (l : list A) :
  filter p (insert_by leb key x l) = filter p (x :: l).
Proof.
  induction l as [|y l IH]; [reflexivity|].
  cbn [insert_by].
  destruct (leb (key x) (key y)) eqn:E; [reflexivity|].
  cbn [filter] in *. rewrite IH.
  destruct (p x) eqn:Px; destruct (p y) eqn:Py; try reflexivity.
  rewrite (p_same_key x y Px Py) in E. discriminate.
Qed.

Lemma filter_stable_sort (l : list A) :
  filter p (stable_sort leb key l) = filter p l.
Proof.
  induction l as [|x l IH]; [reflexivity|].
  cbn [stable_sort]. rewrite filter_insert_by.
  cbn [filter]. now rewrite IH.
Qed.

Lemma filter_py_sorted (reverse : bool) (l : list A) :
  filter p (py_sorted leb key reverse l) = filter p l.
Proof.
  unfold py_sorted. destruct reverse.
  - rewrite filter_rev, filter_stable_sort, filter_rev.
    apply rev_involutive.
  - apply filter_stable_sort.
Qed.
End Stability.

Lemma py_sorted_perm (reverse : bool) (l : list A) :
  Permutation (py_sorted leb key reverse l) l.
Proof.
  unfold py_sorted. destruct reverse.
  - eapply perm_trans; [apply Permutation_sym, Permutation_rev|].
    eapply perm_trans; [apply stable_sort_perm|].
    apply Permutation_sym, Permutation_rev.
  - apply stable_sort_perm.
Qed.

Lemma StronglySorted_snoc (R : A -> A -> Prop) (l : list A) (x : A) :
  StronglySorted R l -> Forall (fun y => R y x) l ->
  StronglySorted R (l ++ [x]).
Proof.
  induction 1 as [|y l Hs IH Hy]; intros Hx; simpl.
  - repeat constructor.
  - inversion Hx; subst. constructor; [now apply IH|].
    apply Forall_app. split; [exact Hy | now constructor].
Qed.

Lemma StronglySorted_rev (R : A -> A -> Prop) (l : list A) :
  StronglySorted R l -> StronglySorted (fun a b => R b a) (rev l).
Proof.
  induction 1 as [|y l Hs IH Hy]; simpl.
  - constructor.
  - apply StronglySorted_snoc; [exact IH|].
    apply Forall_rev. exact Hy.
Qed.

(** With [reverse=True] the result is in descending key order. *)
Lemma py_sorted_reverse_sorted (l : list A) :
  StronglySorted (fun a b => key_le leb key b a)
    (py_sorted leb key true l).
Proof.
  unfold py_sorted. apply StronglySorted_rev, stable_sort_sorted.
Qed.

Lemma py_sorted_forward_sorted (l : list A) :
  StronglySorted (key_le leb key) (py_sorted leb key false l).
Proof. apply stable_sort_sorted. Qed.
End SortingFacts.

Lemma Qle_bool_total (a b : Q) : Qle_bool a b = true \/ Qle_bool b a = true.
Proof.
  destruct (Qlt_le_dec a b) as [H|H].
  - left. apply Qle_bool_iff. lra.
  - right. now apply Qle_bool_iff.
Qed.

Lemma Qle_bool_trans (a b c : Q) :
  Qle_bool a b = true -> Qle_bool b c = true -> Qle_bool a c = true.
Proof.
  rewrite !Qle_bool_iff. intros; lra.
Qed.

(** ** Dictionaries and distinct keys *)

Lemma str_in_iff (x : string) (xs : list string) :
  str_in x xs = true <-> In x xs.
Proof.
  unfold str_in. rewrite existsb_exists. split.
  - intros (y & Hy & E). apply String.eqb_eq in E. now subst.
  - intros H. exists x. split; [assumption | apply String.eqb_refl].
Qed.

Lemma str_in_false_iff (x : string) (xs : list string) :
  str_in x xs = false <-> ~ In x xs.
Proof.
  rewrite <- str_in_iff. destruct (str_in x xs); split; congruence.
Qed.

Lemma In_distinct (x : string) (xs : list string) :
  In x (distinct xs) <-> In x xs.
Proof.
  induction xs as [|a xs IH]; simpl; [tauto|].
  rewrite filter_In, IH, negb_true_iff, String.eqb_neq.
  destruct (string_dec a x); tauto.
Qed.

Lemma NoDup_distinct (xs : list string) : NoDup (distinct xs).
Proof.
  induction xs as [|a xs IH]; simpl; constructor.
  - rewrite filter_In, negb_true_iff, String.eqb_neq. tauto.
  - now apply NoDup_filter.
Qed.

Lemma distinct_snoc (xs : list string) (c : string) :
  distinct (xs ++ [c])
  = if str_in c xs then distinct xs else distinct xs ++ [c].
Proof.
  induction xs as [|a xs IH]; [reflexivity|].
  cbn [app distinct]. rewrite IH.
  unfold str_in at 2. cbn [existsb]. fold (str_in c xs).
  destruct (String.eqb c a) eqn:Eca; cbn [orb].
  - apply String.eqb_eq in Eca; subst a.
    destruct (str_in c xs); [reflexivity|].
    rewrite filter_app. cbn [filter]. rewrite String.eqb_refl. cbn [negb].
    now rewrite app_nil_r.
  - destruct (str_in c xs); [reflexivity|].
    rewrite filter_app. cbn [filter].
    rewrite String.eqb_sym, Eca. reflexivity.
Qed.

Lemma dict_upd_map {V : Type} (T : string -> V) (c : string) (init : V)
    (f : V -> V) (D : list string) :
  NoDup D ->
  dict_upd c init f (map (fun k => (k, T k)) D)
  = if str_in c D
    then map (fun k => (k, if String.eqb c k then f (T k) else T k)) D
    else map (fun k => (k, T k)) D ++ [(c, f init)].
Proof.
  induction 1 as [|a D Ha Hnd IH]; [reflexivity|].
  cbn [map dict_upd]. unfold str_in. cbn [existsb]. fold (str_in c D).
  destruct (String.eqb c a) eqn:Eca; cbn [orb].
  - apply String.eqb_eq in Eca; subst a. f_equal.
    apply map_ext_in. intros k Hk.
    destruct (String.eqb c k) eqn:E; [|reflexivity].
    apply String.eqb_eq in E. congruence.
  - rewrite IH. destruct (str_in c D); reflexivity.
Qed.

(** ** Top customers *)

Lemma orders_of_snoc (c : string) (l : list SalesRecord.t)
    (x : SalesRecord.t) :
  orders_of c (l ++ [x])
  = if String.eqb c (SalesRecord.customer_id x)
    then orders_of c l ++ [x] else orders_of c l.
Proof.
  unfold orders_of. rewrite filter_app. cbn [filter].
  destruct (String.eqb c (SalesRecord.customer_id x));
    [reflexivity | apply app_nil_r].
Qed.

Lemma orders_of_absent (c : string) (l : list SalesRecord.t) :
  ~ In c (map SalesRecord.customer_id l) -> orders_of c l = [].
Proof.
  induction l as [|r l IH]; intros H; [reflexivity|].
  unfold orders_of in *. cbn [filter].
  destruct (String.eqb c (SalesRecord.customer_id r)) eqn:E.
  - apply String.eqb_eq in E. exfalso. apply H. left. now symmetry.
  - apply IH. intros Hin. apply H. now right.
Qed.

Lemma orders_of_present (c : string) (l : list SalesRecord.t) :
  In c (map SalesRecord.customer_id l) -> orders_of c l <> [].
Proof.
  intros H. apply in_map_iff in H as (r & Hr & Hin).
  assert (Hf : In r (orders_of c l)).
  { unfold orders_of. apply filter_In. split; [assumption|].
    rewrite Hr. apply String.eqb_refl. }
  intros E. now rewrite E in Hf.
Qed.

Lemma revenue_sum_snoc (l : list SalesRecord.t) (x : SalesRecord.t) :
  revenue_sum (l ++ [x]) = revenue_sum l + SalesRecord.revenue x.
Proof.
  unfold revenue_sum, py_sum. now rewrite map_app, fold_left_app.
Qed.

Lemma customer_total_snoc_same (l : list SalesRecord.t) (x : SalesRecord.t) :
  In (SalesRecord.customer_id x) (map SalesRecord.customer_id l) ->
  customer_total (l ++ [x]) (SalesRecord.customer_id x)
  = TopCustomer.mk
      (TopCustomer.name (customer_total l (SalesRecord.customer_id x)))
      (TopCustomer.revenue (customer_total l (SalesRecord.customer_id x))
       + SalesRecord.revenue x).
Proof.
  intros Hin. apply orders_of_present in Hin.
  unfold customer_total, first_name_of. cbn [TopCustomer.name TopCustomer.revenue].
  rewrite orders_of_snoc, String.eqb_refl, revenue_sum_snoc.
  destruct (orders_of (SalesRecord.customer_id x) l); [congruence|reflexivity].
Qed.

Lemma customer_total_snoc_new (l : list SalesRecord.t) (x : SalesRecord.t) :
  ~ In (SalesRecord.customer_id x) (map SalesRecord.customer_id l) ->
  customer_total (l ++ [x]) (SalesRecord.customer_id x)
  = TopCustomer.mk (SalesRecord.customer_name x) (0 + SalesRecord.revenue x).
Proof.
  intros Hin. apply orders_of_absent in Hin.
  unfold customer_total, first_name_of.
  rewrite orders_of_snoc, String.eqb_refl, Hin. reflexivity.
Qed.

Lemma customer_total_snoc_other (l : list SalesRecord.t) (x : SalesRecord.t)
    (k : string) :
  String.eqb (SalesRecord.customer_id x) k = false ->
  customer_total (l ++ [x]) k = customer_total l k.
Proof.
  intros E. unfold customer_total, first_name_of.
  rewrite orders_of_snoc, String.eqb_sym, E. reflexivity.
Qed.

(** The dict built by the loop lists the customers in order of first
    appearance, each with its first name and its summed revenue. *)
Lemma customer_revenue_of_spec (sales_data : list SalesRecord.t) :
  customer_revenue_of sales_data
  = map (fun k => (k, customer_total sales_data k))
      (distinct (map SalesRecord.customer_id sales_data)).
Proof.
  induction sales_data as [|x l IH] using rev_ind; [reflexivity|].
  unfold customer_revenue_of in *. rewrite fold_left_app. cbn [fold_left].
  rewrite IH, dict_upd_map by apply NoDup_distinct.
  rewrite map_app. cbn [map]. rewrite distinct_snoc.
  set (c := SalesRecord.customer_id x).
  set (ids := map SalesRecord.customer_id l).
  assert (Hsame : str_in c (distinct ids) = str_in c ids).
  { destruct (str_in c ids) eqn:E.
    - apply str_in_iff, In_distinct, str_in_iff, E.
    - apply str_in_false_iff. rewrite In_distinct.
      now apply str_in_false_iff. }
  rewrite Hsame. destruct (str_in c ids) eqn:E.
  - apply str_in_iff in E. apply map_ext_in. intros k Hk. f_equal.
    destruct (String.eqb c k) eqn:Eck.
    + apply String.eqb_eq in Eck; subst k. symmetry.
      now apply customer_total_snoc_same.
    + symmetry. now apply customer_total_snoc_other.
  - apply str_in_false_iff in E. rewrite map_app. cbn [map]. f_equal.
    + apply map_ext_in. intros k Hk. f_equal.
      symmetry. apply customer_total_snoc_other.
      apply String.eqb_neq. intros Heq. apply E.
      rewrite <- Heq in Hk. exact (proj1 (In_distinct _ _) Hk).
    + f_equal. f_equal. symmetry. now apply customer_total_snoc_new.
Qed.

Lemma customer_revenue_values (sales_data : list SalesRecord.t) :
  Dict.values (customer_revenue_of sales_data) = customer_totals sales_data.
Proof.
  rewrite customer_revenue_of_spec. unfold Dict.values, customer_totals.
  rewrite map_map. reflexivity.
Qed.

Lemma top_customer_rebuild (l : list TopCustomer.t) :
  map (fun data =>
         TopCustomer.mk (TopCustomer.name data) (TopCustomer.revenue data)) l
  = l.
Proof.
  induction l as [|[n r] l IH]; simpl; [reflexivity | now rewrite IH].
Qed.

Lemma has_revenue_same_key (v : Q) (a b : TopCustomer.t) :
  has_revenue v a = true -> has_revenue v b = true ->
  Qle_bool (TopCustomer.revenue a) (TopCustomer.revenue b) = true.
Proof.
  unfold has_revenue. rewrite !Qeq_bool_iff, Qle_bool_iff.
  intros Ha Hb. rewrite Ha, Hb. lra.
Qed.

(** C8: top_customers is the first five entries (so at most five, also with
    fewer customers) of a ranking of the customers of the record set, each
    with its summed revenue: the ranking is a rearrangement of the customers,
    in descending order of revenue, and customers with equal revenue keep
    their order of first appearance (stable sort). *)
Theorem C8_top_customers_ranking :
  forall sales_data : list SalesRecord.t,
    exists ranking : list TopCustomer.t,
      top_customers_of sales_data = firstn 5 ranking
      /\ (List.length (top_customers_of sales_data) <= 5)%nat
      /\ (List.length (top_customers_of sales_data)
          = Nat.min 5 (List.length (customer_totals sales_data)))
      /\ Permutation ranking (customer_totals sales_data)
      /\ StronglySorted
           (fun a b => TopCustomer.revenue b <= TopCustomer.revenue a)
           ranking
      /\ (forall v : Q,
            filter (has_revenue v) ranking
            = filter (has_revenue v) (customer_totals sales_data)).
Proof.
  intros sales_data.
  exists (py_sorted Qle_bool TopCustomer.revenue true
            (customer_totals sales_data)).
  assert (Htop : top_customers_of sales_data
                 = firstn 5 (py_sorted Qle_bool TopCustomer.revenue true
                               (customer_totals sales_data))).
  { unfold top_customers_of.
    now rewrite top_customer_rebuild, customer_revenue_values. }
  pose proof (py_sorted_perm Qle_bool TopCustomer.revenue true
                (customer_totals sales_data)) as Hperm.
  split; [exact Htop|]. split; [|split; [|split; [|split]]].
  - rewrite Htop. apply firstn_le_length.
  - rewrite Htop, length_firstn, (Permutation_length Hperm). reflexivity.
  - exact Hperm.
  - eapply StronglySorted_ind with
      (P := StronglySorted
              (fun a b => TopCustomer.revenue b <= TopCustomer.revenue a)).
    + constructor.
    + intros a l _ IH Ha. constructor; [exact IH|].
      eapply Forall_impl; [|exact Ha].
      intros b Hb. apply Qle_bool_iff. exact Hb.
    + apply (py_sorted_reverse_sorted Qle_bool TopCustomer.revenue
               Qle_bool_total Qle_bool_trans).
  - intros v. apply filter_py_sorted. apply has_revenue_same_key.
Qed.

(** Ties keep the order of first appearance; a larger revenue comes first. *)
Example top_customers_tie :
  map TopCustomer.name
    (top_customers_of
       [ sale "a" "EMEA" "Spain" "C1" "Global Corp" sample_now 100 "Paid";
         sale "b" "EMEA" "Spain" "C2" "Digital Corp" sample_now 150 "Paid";
         sale "c" "EMEA" "Spain" "C3" "Smart Corp" sample_now 100 "Paid";
         sale "d" "EMEA" "Spain" "C2" "Digital Corp" sample_now 50 "Paid" ])
  = ["Digital Corp"; "Global Corp"; "Smart Corp"].
Proof. reflexivity. Qed.

(** ** Regional summaries *)

Lemma regional_summary_of_spec (db : Database) (region : string) :
  (region_sales db region = [] -> regional_summary_of db region = Ok None)
  /\ (region_sales db region <> [] ->
      exists s,
        regional_summary_of db region = Ok (Some s)
        /\ RegionalSummary.region s = region
        /\ RegionalSummary.total_revenue s
           = py_round (revenue_sum (region_sales db region)) 2
        /\ RegionalSummary.total_orders s
           = Z.of_nat (List.length (region_sales db region))
        /\ RegionalSummary.top_customers s
           = top_customers_of (region_sales db region)).
Proof.
  unfold regional_summary_of.
  destruct (region_sales db region) as [|r rs] eqn:E.
  - split; [reflexivity | congruence].
  - split; [discriminate|]. intros _.
    assert (Hpos : (0 < Z.of_nat (List.length (r :: rs)))%Z) by (simpl; lia).
    apply Z.ltb_lt in Hpos as Hb. rewrite Hb, py_div_count by assumption.
    cbn [bind]. eexists. repeat split; reflexivity.
Qed.

Lemma regional_summary_of_ok (db : Database) (region : string) :
  regional_summary_of db region = Ok (summary_of_region db region).
Proof.
  unfold summary_of_region.
  destruct (regional_summary_of_spec db region) as [Hnil Hcons].
  destruct (region_sales db region) as [|r rs].
  - now rewrite Hnil.
  - destruct Hcons as (s & Hs & _); [discriminate|]. now rewrite Hs.
Qed.

Lemma regional_summary_loop_spec (db : Database) (rs : list string)
    (acc : list RegionalSummary.t) :
  regional_summary_loop db rs acc = Ok (acc ++ summaries_of_regions db rs).
Proof.
  revert acc; induction rs as [|r rs IH]; intros acc; simpl.
  - now rewrite app_nil_r.
  - rewrite regional_summary_of_ok. cbn [bind]. rewrite IH.
    destruct (summary_of_region db r); [|reflexivity].
    now rewrite <- app_assoc.
Qed.

Lemma get_regional_summary_spec (db : Database) :
  get_regional_summary db = Ok (summaries_of_regions db regions).
Proof.
  unfold get_regional_summary. now rewrite regional_summary_loop_spec.
Qed.

Lemma summary_of_region_none (db : Database) (region : string) :
  has_sales db region = false -> summary_of_region db region = None.
Proof.
  unfold has_sales, summary_of_region. intros H.
  destruct (regional_summary_of_spec db region) as [Hnil _].
  destruct (region_sales db region); [|discriminate].
  now rewrite Hnil.
Qed.

Lemma summary_of_region_some (db : Database) (region : string) :
  has_sales db region = true ->
  exists s,
    summary_of_region db region = Some s
    /\ RegionalSummary.region s = region
    /\ RegionalSummary.total_revenue s
       = py_round (revenue_sum (region_sales db region)) 2.
Proof.
  unfold has_sales, summary_of_region. intros H.
  destruct (regional_summary_of_spec db region) as [_ Hcons].
  destruct (region_sales db region) as [|r rs]; [discriminate|].
  destruct Hcons as (s & Hs & Hr & Ht & _); [discriminate|].
  exists s. now rewrite Hs.
Qed.

Lemma summaries_regions (db : Database) (rs : list string) :
  map RegionalSummary.region (summaries_of_regions db rs)
  = filter (has_sales db) rs.
Proof.
  induction rs as [|r rs IH]; [reflexivity|].
  unfold summaries_of_regions in *. cbn [flat_map filter].
  rewrite map_app, IH.
  destruct (has_sales db r) eqn:E.
  - destruct (summary_of_region_some db r E) as (s & Hs & Hr & _).
    rewrite Hs. simpl. now rewrite Hr.
  - now rewrite (summary_of_region_none db r E).
Qed.

(** C9, as stated, fails: on the empty ledger no summary is returned. *)
Lemma C9_empty_ledger_no_summary :
  exists summaries,
    get_regional_summary empty_db = Ok summaries
    /\ List.length summaries <> 3%nat.
Proof. exists []. split; [reflexivity | discriminate]. Qed.

(** C9 (amended): [get_regional_summary] returns exactly one summary for each
    region of the fixed list APAC, EMEA, Americas that has at least one sales
    record, in that order, and none for a region without records; the list
    has at most three entries, and three exactly when every region has a
    record. *)
Theorem C9_one_summary_per_region_with_sales :
  forall db : Database,
    exists summaries,
      get_regional_summary db = Ok summaries
      /\ map RegionalSummary.region summaries
         = filter (has_sales db) ["APAC"; "EMEA"; "Americas"]
      /\ (List.length summaries <= 3)%nat
      /\ (List.length summaries = 3%nat
          <-> has_sales db "APAC" = true /\ has_sales db "EMEA" = true
              /\ has_sales db "Americas" = true).
Proof.
  intros db. exists (summaries_of_regions db regions).
  split; [apply get_regional_summary_spec|].
  pose proof (summaries_regions db regions) as Hmap.
  split; [exact Hmap|].
  rewrite <- (length_map RegionalSummary.region), Hmap.
  unfold regions. cbn [filter].
  destruct (has_sales db "APAC"), (has_sales db "EMEA"),
    (has_sales db "Americas"); simpl; split; try lia;
    split; try lia; try tauto; intros H; try discriminate;
    try (destruct H as (? & ? & ?); discriminate).
Qed.

Lemma summary_total_app (l1 l2 : list RegionalSummary.t) :
  summary_total (l1 ++ l2) == summary_total l1 + summary_total l2.
Proof. unfold summary_total. rewrite map_app. apply py_sum_app. Qed.

(** The total over the returned summaries is the sum of the rounded regional
    revenues; a region without records contributes 0 either way. *)
Lemma summary_total_regions (db : Database) (rs : list string) :
  summary_total (summaries_of_regions db rs)
  == py_sum (map (fun r => py_round (revenue_sum (region_sales db r)) 2) rs).
Proof.
  induction rs as [|r rs IH]; [reflexivity|].
  unfold summaries_of_regions in *. cbn [flat_map map].
  rewrite summary_total_app, py_sum_cons, IH.
  apply Qplus_comp; [|reflexivity].
  destruct (has_sales db r) eqn:E.
  - destruct (summary_of_region_some db r E) as (s & Hs & _ & Ht).
    rewrite Hs. unfold summary_total. cbn [map].
    rewrite py_sum_cons, py_sum_nil, Ht. lra.
  - rewrite (summary_of_region_none db r E).
    unfold has_sales in E.
    destruct (region_sales db r); [reflexivity | discriminate].
Qed.

(** A ledger over the three regions splits into its three regional parts. *)
Lemma revenue_by_region (l : list SalesRecord.t) :
  known_regions l ->
  revenue_sum l
  == revenue_sum (filter (fun r => String.eqb (SalesRecord.region r) "APAC") l)
     + revenue_sum
         (filter (fun r => String.eqb (SalesRecord.region r) "EMEA") l)
     + revenue_sum
         (filter (fun r => String.eqb (SalesRecord.region r) "Americas") l).
Proof.
  induction 1 as [|x l Hx _ IH]; [reflexivity|].
  cbn [filter]. rewrite revenue_sum_cons, IH.
  destruct Hx as [Hx|[Hx|[Hx|[]]]]; rewrite <- Hx; cbn [String.eqb Ascii.eqb Bool.eqb];
    rewrite revenue_sum_cons; lra.
Qed.

Lemma is_cents_revenue_sum (l : list SalesRecord.t) :
  cents_revenues l -> is_cents (revenue_sum l).
Proof.
  induction 1 as [|x l Hx _ IH].
  - apply is_cents_0.
  - destruct (is_cents_plus _ _ Hx IH) as [k Hk].
    exists k. now rewrite revenue_sum_cons.
Qed.

Lemma cents_revenues_filter (f : SalesRecord.t -> bool)
    (l : list SalesRecord.t) :
  cents_revenues l -> cents_revenues (filter f l).
Proof.
  unfold cents_revenues. rewrite !Forall_forall.
  intros H r Hr. apply filter_In in Hr. now apply H.
Qed.

Lemma py_round_2_error (x : Q) :
  - (1 # 200) <= py_round x 2 - x /\ py_round x 2 - x <= 1 # 200.
Proof.
  pose proof (py_round_error x 2) as H.
  apply Qabs_Qle_condition in H.
  change ((1 # 2) / inject_Z (pow10 2)) with ((1 # 2) / 100) in H.
  assert (E : (1 # 2) / 100 == 1 # 200) by reflexivity.
  rewrite E in H. exact H.
Qed.

(** The three regional totals of a ledger, rounded as in the summaries. *)
Lemma summary_total_all_regions (db : Database) :
  summary_total (summaries_of_regions db regions)
  == py_round (revenue_sum (region_sales db "APAC")) 2
     + py_round (revenue_sum (region_sales db "EMEA")) 2
     + py_round (revenue_sum (region_sales db "Americas")) 2.
Proof.
  rewrite summary_total_regions. unfold regions. cbn [map].
  rewrite !py_sum_cons, py_sum_nil. lra.
Qed.

Lemma regional_totals_exact (db : Database) :
  known_regions (sales_records db) ->
  cents_revenues (sales_records db) ->
  summary_total (summaries_of_regions db regions)
  == revenue_sum (sales_records db).
Proof.
  intros Hk Hc.
  rewrite summary_total_all_regions, (revenue_by_region _ Hk).
  unfold region_sales.
  rewrite !py_round_cents
    by (apply is_cents_revenue_sum, cents_revenues_filter, Hc).
  reflexivity.
Qed.

Lemma regional_totals_close (db : Database) :
  known_regions (sales_records db) ->
  Qabs (summary_total (summaries_of_regions db regions)
        - revenue_sum (sales_records db)) <= 15 # 1000.
Proof.
  intros Hk.
  rewrite summary_total_all_regions, (revenue_by_region _ Hk).
  unfold region_sales.
  pose proof (py_round_2_error
                (revenue_sum
                   (filter (fun r => String.eqb (SalesRecord.region r) "APAC")
                      (sales_records db)))).
  pose proof (py_round_2_error
                (revenue_sum
                   (filter (fun r => String.eqb (SalesRecord.region r) "EMEA")
                      (sales_records db)))).
  pose proof (py_round_2_error
                (revenue_sum
                   (filter
                      (fun r => String.eqb (SalesRecord.region r) "Americas")
                      (sales_records db)))).
  apply Qabs_Qle_condition. lra.
Qed.

(** C1, as stated, fails: a revenue of a tenth of a cent is rounded away in
    the regional total, so the totals add up to 0 and not to 0.001. *)
Lemma C1_sub_cent_revenue_rounded_away :
  known_regions (sales_records sub_cent_db)
  /\ exists summaries,
       get_regional_summary sub_cent_db = Ok summaries
       /\ ~ summary_total summaries
            == revenue_sum (sales_records sub_cent_db).
Proof.
  split.
  - repeat constructor.
  - eexists. split; [reflexivity|].
    intros H. vm_compute in H. discriminate H.
Qed.

(** C1 (amended): for every ledger whose records carry one of the regions
    APAC, EMEA, Americas, the total_revenue values of the returned summaries
    (each rounded to 2 decimals) add up to the ledger's revenue exactly when
    every revenue is a whole number of cents, as the synthesizer emits them;
    for arbitrary revenues the two sums differ by at most 0.015. *)
Theorem C1_regional_totals_add_up :
  forall db : Database,
    known_regions (sales_records db) ->
    exists summaries,
      get_regional_summary db = Ok summaries
      /\ (cents_revenues (sales_records db) ->
          summary_total summaries == revenue_sum (sales_records db))
      /\ Qabs (summary_total summaries - revenue_sum (sales_records db))
         <= 15 # 1000.
Proof.
  intros db Hk. exists (summaries_of_regions db regions).
  split; [apply get_regional_summary_spec|]. split.
  - intros Hc. now apply regional_totals_exact.
  - now apply regional_totals_close.
Qed.

Ltac solve_known_regions :=
  unfold known_regions;
  repeat (apply Forall_cons; [cbn; auto 6|]);
  apply Forall_nil.

Lemma sample_db_known_regions : known_regions (sales_records sample_db).
Proof. solve_known_regions. Qed.

Lemma sample_db_cents : cents_revenues (sales_records sample_db).
Proof.
  repeat constructor; simpl.
  - exists 100050%Z. reflexivity.
  - exists 50025%Z. reflexivity.
  - exists 25000%Z. reflexivity.
  - exists 74975%Z. reflexivity.
Qed.

Lemma C1_regional_totals_add_up_witness :
  exists summaries,
    get_regional_summary sample_db = Ok summaries
    /\ summary_total summaries == revenue_sum (sales_records sample_db)
    /\ Qabs (summary_total summaries - revenue_sum (sales_records sample_db))
       <= 15 # 1000.
Proof.
  destruct (C1_regional_totals_add_up sample_db sample_db_known_regions)
    as (summaries & Hsum & Hexact & Hclose).
  exists summaries. split; [exact Hsum|]. split.
  - apply Hexact. exact sample_db_cents.
  - exact Hclose.
Defined.

(** On the sample ledger: 1000.50 + 1250.00 + 250.00 = 2500.50. *)
Example regional_totals_sample :
  exists summaries,
    get_regional_summary sample_db = Ok summaries
    /\ map RegionalSummary.region summaries = ["APAC"; "EMEA"; "Americas"]
    /\ summary_total summaries == 2500.50
    /\ revenue_sum (sales_records sample_db) == 2500.50.
Proof. eexists. repeat split; reflexivity. Qed.

(** ** Forecast *)

Lemma dict_get_key {V : Type} (d : Dict.t V) (k : string) :
  In k (Dict.keys d) -> exists v, dict_get d k = Ok v.
Proof.
  unfold dict_get. induction d as [|[k' v'] d IH]; simpl; [tauto|].
  intros [E|Hin].
  - subst k'. rewrite String.eqb_refl. now exists v'.
  - destruct (String.eqb k k'); [now exists v' | now apply IH].
Qed.

Lemma sorted_months_in (monthly_data : Dict.t Q) (month : string) :
  In month (sorted_months_of monthly_data) ->
  In month (Dict.keys monthly_data).
Proof.
  apply Permutation_in. apply py_sorted_perm.
Qed.

Lemma sorted_months_length (monthly_data : Dict.t Q) :
  List.length (sorted_months_of monthly_data) = List.length monthly_data.
Proof.
  unfold sorted_months_of.
  rewrite (Permutation_length (py_sorted_perm _ _ _ _)).
  apply length_map.
Qed.

(** Every sorted month is a key of the dict: the lookups never raise. *)
Lemma revenues_of_total (monthly_data : Dict.t Q) :
  exists revenues,
    revenues_of monthly_data = Ok revenues
    /\ List.length revenues = List.length monthly_data.
Proof.
  destruct (mapM_total (dict_get monthly_data)
              (sorted_months_of monthly_data)) as [revs Hrevs].
  - intros month Hin. apply dict_get_key. now apply sorted_months_in.
  - exists revs. split; [exact Hrevs|].
    rewrite (mapM_length _ _ _ Hrevs). apply sorted_months_length.
Qed.

Lemma list_index_total (x : string) (l : list string) :
  In x l -> exists i, list_index x l = Ok i /\ (i < List.length l)%nat.
Proof.
  induction l as [|y l IH]; simpl; [tauto|].
  intros Hin. destruct (String.eqb y x) eqn:E.
  - exists 0%nat. split; [reflexivity | lia].
  - destruct IH as (i & Hi & Hlt).
    + destruct Hin as [Heq|Hin]; [|assumption].
      apply String.eqb_neq in E. congruence.
    + exists (S i). rewrite Hi. split; [reflexivity | lia].
Qed.

Lemma list_get_total {A : Type} (l : list A) (i : nat) :
  (i < List.length l)%nat -> exists a, list_get l i = Ok a.
Proof.
  intros Hlt. unfold list_get.
  destruct (nth_error l i) as [a|] eqn:E; [now exists a|].
  apply nth_error_None in E. lia.
Qed.

Lemma last_n_in {A : Type} (n : nat) (l : list A) (x : A) :
  In x (last_n n l) -> In x l.
Proof.
  unfold last_n. intros H.
  rewrite <- (firstn_skipn (List.length l - n) l).
  apply in_or_app. now right.
Qed.

Lemma last_n_length {A : Type} (n : nat) (l : list A) :
  List.length (last_n n l) = Nat.min n (List.length l).
Proof. unfold last_n. rewrite length_skipn. lia. Qed.

Lemma historical_point_total (sorted_months : list string)
    (revenues : list Q) (month : string) :
  List.length revenues = List.length sorted_months ->
  In month sorted_months ->
  exists v,
    historical_point sorted_months revenues month
    = Ok (ForecastData.mk month (Some v) None None).
Proof.
  intros Hlen Hin. unfold historical_point.
  destruct (list_index_total month sorted_months Hin) as (i & Hi & Hlt).
  rewrite Hi. cbn [bind].
  destruct (list_get_total revenues i) as [v Hv]; [lia|].
  rewrite Hv. cbn [bind]. now exists v.
Qed.

Lemma historical_points (sorted_months : list string) (revenues : list Q)
    (months : list string) :
  List.length revenues = List.length sorted_months ->
  (forall m, In m months -> In m sorted_months) ->
  exists hist,
    mapM (historical_point sorted_months revenues) months = Ok hist
    /\ List.length hist = List.length months
    /\ Forall (fun p => ForecastData.forecasted_revenue p = None) hist.
Proof.
  intros Hlen. induction months as [|m ms IH]; intros Hsub; simpl.
  - exists []. repeat split; constructor.
  - destruct (historical_point_total sorted_months revenues m Hlen)
      as [v Hv]; [apply Hsub; now left|].
    destruct IH as (hist & Hh & Hl & Hf); [intros; apply Hsub; now right|].
    rewrite Hv, Hh. cbn [bind]. eexists. split; [reflexivity|].
    split; [simpl; now rewrite Hl | now constructor].
Qed.

Lemma mapM_map_ok {A B : Type} (f : A -> result B) (g : A -> B)
    (l : list A) :
  (forall a, In a l -> f a = Ok (g a)) -> mapM f l = Ok (map g l).
Proof.
  induction l as [|a l IH]; intros H; [reflexivity|].
  simpl. rewrite (H a (or_introl eq_refl)). cbn [bind].
  rewrite IH by (intros; apply H; now right). reflexivity.
Qed.

(** A loop whose passes can only raise [e] raises [e] as soon as one pass
    does. *)
Lemma mapM_raise {A B : Type} (f : A -> result B) (l : list A) (e : exn)
    (a : A) :
  In a l -> f a = Raise e ->
  (forall x e', In x l -> f x = Raise e' -> e' = e) ->
  mapM f l = Raise e.
Proof.
  induction l as [|x l IH]; intros Hin Ha Honly; [destruct Hin|].
  simpl. destruct (f x) as [b|e'] eqn:Ex; cbn [bind].
  - destruct Hin as [E|Hin]; [subst x; congruence|].
    rewrite IH; [reflexivity | exact Hin | exact Ha|].
    intros y e'' Hy. apply Honly. now right.
  - f_equal. apply (Honly x); [now left | exact Ex].
Qed.

Lemma py_range_cons (a b : Z) :
  (a < b)%Z -> py_range a b = a :: py_range (a + 1) b.
Proof.
  intros Hlt. unfold py_range.
  replace (Z.to_nat (b - a)) with (S (Z.to_nat (b - (a + 1)))) by lia.
  cbn [seq map]. f_equal; [lia|].
  rewrite <- seq_shift, map_map. apply map_ext. intros k. lia.
Qed.

Lemma py_range_in (a b i : Z) : In i (py_range a b) -> (a <= i < b)%Z.
Proof.
  unfold py_range. rewrite in_map_iff.
  intros (k & Hk & Hin). apply in_seq in Hin. lia.
Qed.

Lemma py_range_nth (a b i : Z) :
  (a <= i < b)%Z -> nth_error (py_range a b) (Z.to_nat (i - a)) = Some i.
Proof.
  intros Hi. unfold py_range.
  rewrite nth_error_map.
  rewrite (nth_error_nth' _ 0%nat) by (rewrite length_seq; lia).
  rewrite seq_nth by lia. cbn [option_map]. f_equal. lia.
Qed.

Lemma py_range_mem (a b i : Z) : (a <= i < b)%Z -> In i (py_range a b).
Proof.
  intros Hi. eapply nth_error_In. now apply py_range_nth.
Qed.

(** ** The range of [datetime] *)

Lemma in_range_iff (d : DT.datetime) :
  DT.in_range d = true
  <-> (0 <= DT.stamp d < DT.max_ordinal * DT.us_per_day)%Z.
Proof.
  unfold DT.in_range, DT.toordinal, DT.max_ordinal, DT.us_per_day.
  rewrite andb_true_iff, Z.ltb_lt, Z.leb_le.
  pose proof (Z.div_mod (DT.stamp d) 86400000000) as Hdiv.
  pose proof (Z.mod_pos_bound (DT.stamp d) 86400000000) as Hmod.
  lia.
Qed.

(** The dates computed by the forecast loop lie between the start of the
    12-month window and the horizon. *)
Lemma forecast_dates_in_range (current_date : DT.datetime) (months i : Z) :
  DT.in_range (DT.sub current_date (DT.td_days 365)) = true ->
  DT.in_range (forecast_horizon current_date months) = true ->
  (1 <= i <= months)%Z ->
  DT.in_range (DT.add current_date (DT.td_days (30 * i))) = true.
Proof.
  unfold forecast_horizon. rewrite !in_range_iff.
  unfold DT.add, DT.sub, DT.td_days, DT.max_ordinal, DT.us_per_day.
  cbn [DT.stamp]. lia.
Qed.

(** ** Forecast: the answer *)

Lemma forecast_point_in_range (current_date : DT.datetime)
    (slope intercept : Q) (last_index i : Z) :
  DT.in_range (DT.add current_date (DT.td_days (30 * i))) = true ->
  forecast_point current_date slope intercept last_index i
  = Ok (future_point current_date slope intercept last_index i).
Proof.
  intros H. unfold forecast_point, DT.add_checked. cbv zeta.
  rewrite H. reflexivity.
Qed.

(** A pass of the forecast loop raises nothing but [OverflowError], and only
    on a date out of range. *)
Lemma forecast_point_raises (current_date : DT.datetime)
    (slope intercept : Q) (last_index i : Z) (e : exn) :
  forecast_point current_date slope intercept last_index i = Raise e ->
  e = OverflowError
  /\ DT.in_range (DT.add current_date (DT.td_days (30 * i))) = false.
Proof.
  unfold forecast_point, DT.add_checked. cbv zeta.
  destruct (DT.in_range (DT.add current_date (DT.td_days (30 * i))));
    cbn [bind]; [discriminate|].
  intros H. inversion H. now split.
Qed.

Lemma forecast_points_ok (current_date : DT.datetime) (slope intercept : Q)
    (last_index months : Z) :
  (forall i, (1 <= i <= months)%Z ->
             DT.in_range (DT.add current_date (DT.td_days (30 * i))) = true) ->
  mapM (forecast_point current_date slope intercept last_index)
    (py_range 1 (months + 1))
  = Ok (map (future_point current_date slope intercept last_index)
          (py_range 1 (months + 1))).
Proof.
  intros Hrange. apply mapM_map_ok. intros i Hi.
  apply py_range_in in Hi. apply forecast_point_in_range, Hrange. lia.
Qed.

Lemma forecast_points_overflow (current_date : DT.datetime)
    (slope intercept : Q) (last_index months : Z) :
  (1 <= months)%Z ->
  DT.in_range (forecast_horizon current_date months) = false ->
  mapM (forecast_point current_date slope intercept last_index)
    (py_range 1 (months + 1))
  = Raise OverflowError.
Proof.
  intros Hm Hout. apply (mapM_raise _ _ _ months).
  - apply py_range_mem. lia.
  - unfold forecast_point, DT.add_checked. cbv zeta.
    unfold forecast_horizon in Hout. rewrite Hout. reflexivity.
  - intros i e _ He. now apply forecast_point_raises in He.
Qed.

(** The answer, up to the loop that adds forecasted data: nothing with fewer
    than three months, else the historical points followed by what that loop
    appends. *)
Lemma get_sales_forecast_loop (months : Z) (db : Database)
    (current_date : DT.datetime) :
  exists revenues,
    revenues_of (month_buckets db current_date) = Ok revenues
    /\ List.length revenues = List.length (month_buckets db current_date)
    /\ ((List.length revenues < 3)%nat ->
        get_sales_forecast months db current_date = Ok [])
    /\ ((3 <= List.length revenues)%nat ->
        exists hist,
          mapM (historical_point
                  (sorted_months_of (month_buckets db current_date)) revenues)
            (last_n 6 (sorted_months_of (month_buckets db current_date)))
          = Ok hist
          /\ List.length hist = Nat.min 6 (List.length revenues)
          /\ Forall (fun p => ForecastData.forecasted_revenue p = None) hist
          /\ get_sales_forecast months db current_date
             = (forecast <-
                  mapM (forecast_point current_date
                          (fst (polyfit1 (arange (List.length revenues))
                                  revenues))
                          (snd (polyfit1 (arange (List.length revenues))
                                  revenues))
                          (Z.of_nat (List.length revenues) - 1))
                    (py_range 1 (months + 1)) ;;
                Ok (hist ++ forecast))).
Proof.
  unfold month_buckets.
  destruct (revenues_of_total (monthly_data_of (forecast_sales db current_date)))
    as (revs & Hrevs & Hlen).
  exists revs. split; [exact Hrevs|]. split; [exact Hlen|].
  unfold get_sales_forecast.
  destruct (forecast_sales db current_date) as [|r rs] eqn:Es.
  - simpl in Hlen. split; [reflexivity | intros; lia].
  - rewrite Hrevs. cbn [bind]. split.
    + intros Hlt. apply Nat.ltb_lt in Hlt. now rewrite Hlt.
    + intros Hge.
      assert (Hb : (List.length revs <? 3)%nat = false)
        by (apply Nat.ltb_ge; lia).
      rewrite Hb.
      destruct (historical_points
                  (sorted_months_of (monthly_data_of (r :: rs))) revs
                  (last_n 6 (sorted_months_of (monthly_data_of (r :: rs)))))
        as (hist & Hh & Hl & Hf).
      * rewrite Hlen. symmetry. apply sorted_months_length.
      * intros m. apply last_n_in.
      * rewrite Hh. cbn [bind]. exists hist.
        split; [reflexivity|]. split; [|split; [exact Hf | reflexivity]].
        rewrite Hl, last_n_length, sorted_months_length, Hlen. reflexivity.
Qed.

(** The shape of the answer while the dates of the forecast loop are in
    range: the historical points followed by one forecast point per
    requested month. *)
Lemma get_sales_forecast_spec (months : Z) (db : Database)
    (current_date : DT.datetime) :
  (forall i, (1 <= i <= months)%Z ->
             DT.in_range (DT.add current_date (DT.td_days (30 * i))) = true) ->
  exists revenues,
    revenues_of (month_buckets db current_date) = Ok revenues
    /\ List.length revenues = List.length (month_buckets db current_date)
    /\ ((List.length revenues < 3)%nat ->
        get_sales_forecast months db current_date = Ok [])
    /\ ((3 <= List.length revenues)%nat ->
        exists hist,
          List.length hist = Nat.min 6 (List.length revenues)
          /\ Forall (fun p => ForecastData.forecasted_revenue p = None) hist
          /\ get_sales_forecast months db current_date
             = Ok (hist
                   ++ map (future_point current_date
                             (fst (polyfit1 (arange (List.length revenues))
                                     revenues))
                             (snd (polyfit1 (arange (List.length revenues))
                                     revenues))
                             (Z.of_nat (List.length revenues) - 1))
                        (py_range 1 (months + 1)))).
Proof.
  intros Hrange.
  destruct (get_sales_forecast_loop months db current_date)
    as (revs & Hrevs & Hlen & Hshort & Hlong).
  exists revs. split; [exact Hrevs|]. split; [exact Hlen|].
  split; [exact Hshort|]. intros Hge.
  destruct (Hlong Hge) as (hist & _ & Hl & Hf & Hres).
  exists hist. split; [exact Hl|]. split; [exact Hf|].
  rewrite Hres, forecast_points_ok by exact Hrange. reflexivity.
Qed.

(** [get_sales_forecast] does not raise while the start of the window and
    the horizon are in range. *)
Lemma get_sales_forecast_total (months : Z) (db : Database)
    (current_date : DT.datetime) :
  DT.in_range (DT.sub current_date (DT.td_days 365)) = true ->
  DT.in_range (forecast_horizon current_date months) = true ->
  exists l, get_sales_forecast months db current_date = Ok l.
Proof.
  intros Hnow Hhor.
  destruct (get_sales_forecast_spec months db current_date)
    as (revs & _ & _ & Hshort & Hlong).
  { intros i Hi. now apply (forecast_dates_in_range _ months). }
  destruct (Nat.lt_ge_cases (List.length revs) 3) as [Hlt|Hge].
  - exists []. now apply Hshort.
  - destruct (Hlong Hge) as (hist & _ & _ & H). eexists. exact H.
Qed.

(** The least-squares line through three equally spaced points. *)
Lemma polyfit1_three (r0 r1 r2 : Q) :
  fst (polyfit1 (arange 3) [r0; r1; r2]) == (r2 - r0) / 2
  /\ snd (polyfit1 (arange 3) [r0; r1; r2]) == (5 * r0 + 2 * r1 - r2) / 6.
Proof.
  unfold polyfit1, arange, dot, py_sum.
  cbn [List.length seq map combine fold_left fst snd].
  simpl Z.of_nat. simpl inject_Z.
  split; field.
Qed.

(** C4: for a clock whose 12-month window starts within the range of
    datetime (365 days before the clock is a datetime): with fewer than
    three monthly buckets the forecast is the empty list, whatever the
    horizon; with exactly three buckets worth 100, 200 and 300 in
    chronological order the fitted line has slope 100 and intercept 100, and,
    for a request of at least one month whose horizon stays within the range
    (the date 30 days per requested month after the clock is a datetime), the
    first future point (index 3 of the answer, regression index 3) forecasts
    400 with the interval from 320 to 480. *)
Theorem C4_forecast_three_months :
  forall (months : Z) (db : Database) (current_date : DT.datetime),
    DT.in_range (DT.sub current_date (DT.td_days 365)) = true ->
    ((List.length (month_buckets db current_date) < 3)%nat ->
     get_sales_forecast months db current_date = Ok [])
    /\ (forall r0 r1 r2 : Q,
          revenues_of (month_buckets db current_date) = Ok [r0; r1; r2] ->
          r0 == 100 -> r1 == 200 -> r2 == 300 ->
          fst (polyfit1 (arange 3) [r0; r1; r2]) == 100
          /\ snd (polyfit1 (arange 3) [r0; r1; r2]) == 100
          /\ ((1 <= months)%Z ->
              DT.in_range (forecast_horizon current_date months) = true ->
              exists l p f c,
                get_sales_forecast months db current_date = Ok l
                /\ nth_error l 3 = Some p
                /\ ForecastData.actual_revenue p = None
                /\ ForecastData.forecasted_revenue p = Some f
                /\ f == 400
                /\ ForecastData.confidence_interval p = Some c
                /\ ConfidenceInterval.lower c == 320
                /\ ConfidenceInterval.upper c == 480)).
Proof.
  intros months db now Hnow. split.
  - destruct (get_sales_forecast_loop months db now)
      as (revs & _ & Hlen & Hshort & _).
    intros Hlt. apply Hshort. now rewrite Hlen.
  - intros r0 r1 r2 Hr H0 H1 H2.
    destruct (polyfit1_three r0 r1 r2) as [Hs Hi].
    assert (Hslope : fst (polyfit1 (arange 3) [r0; r1; r2]) == 100).
    { rewrite Hs, H0, H2. reflexivity. }
    assert (Hicpt : snd (polyfit1 (arange 3) [r0; r1; r2]) == 100).
    { rewrite Hi, H0, H1, H2. reflexivity. }
    split; [exact Hslope|]. split; [exact Hicpt|].
    intros Hm Hhor.
    destruct (get_sales_forecast_spec months db now)
      as (revs & Hrevs & Hlen & Hshort & Hlong).
    { intros i Hi'. now apply (forecast_dates_in_range _ months). }
    rewrite Hr in Hrevs. inversion Hrevs; subst revs; clear Hrevs.
    destruct Hlong as (hist & Hhl & _ & Hres); [simpl; lia|].
    cbn [List.length] in Hres, Hhl.
    rewrite py_range_cons in Hres by lia. cbn [map] in Hres.
    eexists. eexists. eexists. eexists.
    split; [exact Hres|].
    split; [rewrite nth_error_app2 by (rewrite Hhl; simpl; lia);
            rewrite Hhl; reflexivity|].
    split; [reflexivity|]. split; [reflexivity|].
    unfold forecasted_value.
    split; [|split; [reflexivity|split]].
    + rewrite Hslope, Hicpt. reflexivity.
    + cbn [ConfidenceInterval.lower]. unfold forecasted_value.
      rewrite Hslope, Hicpt. reflexivity.
    + cbn [ConfidenceInterval.upper]. unfold forecasted_value.
      rewrite Hslope, Hicpt. reflexivity.
Qed.

Lemma C4_forecast_three_months_witness :
  get_sales_forecast 6 sub_cent_db sample_now = Ok []
  /\ exists l p f c,
       get_sales_forecast 6 three_month_db sample_now = Ok l
       /\ nth_error l 3 = Some p
       /\ ForecastData.actual_revenue p = None
       /\ ForecastData.forecasted_revenue p = Some f
       /\ f == 400
       /\ ForecastData.confidence_interval p = Some c
       /\ ConfidenceInterval.lower c == 320
       /\ ConfidenceInterval.upper c == 480.
Proof.
  split.
  - apply (proj1 (C4_forecast_three_months 6 sub_cent_db sample_now
                    eq_refl)).
    vm_compute. lia.
  - apply (proj2 (C4_forecast_three_months 6 three_month_db sample_now
                    eq_refl)
             100 200 300).
    + vm_compute. reflexivity.
    + reflexivity.
    + reflexivity.
    + reflexivity.
    + lia.
    + reflexivity.
Defined.

(** The answer for the three-month ledger: three historical points followed
    by the forecasts for the next two months. *)
Example forecast_three_month_db :
  match get_sales_forecast 2 three_month_db sample_now with
  | Ok l =>
      map ForecastData.period l
      = ["2026-08"; "2026-09"; "2026-10"; "2026-12"; "2027-01"]
      /\ map ForecastData.actual_revenue l
         = [Some 100; Some 200; Some 300; None; None]
  | Raise _ => False
  end.
Proof. vm_compute. split; reflexivity. Qed.

(** The band around a forecast, before and after rounding. *)
Lemma confidence_band (f : Q) :
  (0 <= f ->
   py_round (f * 0.8) 2 <= py_round f 2
   /\ py_round f 2 <= py_round (f * 1.2) 2)
  /\ (f < 0 ->
      py_round (f * 1.2) 2 <= py_round f 2
      /\ py_round f 2 <= py_round (f * 0.8) 2)
  /\ (f < -0.025 -> py_round (f * 1.2) 2 < py_round (f * 0.8) 2).
Proof.
  split; [|split].
  - intros Hf. split; apply py_round_mono; lra.
  - intros Hf. split; apply py_round_mono; lra.
  - intros Hf. apply py_round_gap.
    change (inject_Z (pow10 2)) with 100.
    assert (E : 1 / 100 == 0.01) by reflexivity.
    rewrite E. lra.
Qed.

(** C10, as stated, fails: on three months worth 2 cents, 1 cent and 1 cent
    the fitted line has slope -1/200 and intercept 11/600, so the projection
    of the second future month (regression index 4, entry 4 of the answer)
    is f = -1/600 < 0; yet after rounding lower, forecasted_revenue and upper
    of that entry are all 0: lower <= forecast <= upper holds although f is
    negative, and lower does not exceed upper. *)
Lemma C10_tiny_negative_forecast_collapses :
  let revenues := [2 # 100; 1 # 100; 1 # 100] in
  let slope := fst (polyfit1 (arange 3) revenues) in
  let intercept := snd (polyfit1 (arange 3) revenues) in
  let f := slope * inject_Z (2 + 2) + intercept in
  revenues_of (month_buckets tiny_decline_db sample_now) = Ok revenues
  /\ slope == - (1 # 200) /\ intercept == 11 # 600
  /\ f == - (1 # 600) /\ f < 0
  /\ exists l p c,
       get_sales_forecast 2 tiny_decline_db sample_now = Ok l
       /\ List.length l = 5%nat
       /\ nth_error l 4 = Some p
       /\ ForecastData.period p
          = strftime_Ym (DT.add sample_now (DT.td_days (30 * 2)))
       /\ ForecastData.forecasted_revenue p = Some (py_round f 2)
       /\ ForecastData.confidence_interval p = Some c
       /\ ConfidenceInterval.lower c = py_round (f * 0.8) 2
       /\ ConfidenceInterval.upper c = py_round (f * 1.2) 2
       /\ py_round f 2 == 0
       /\ ConfidenceInterval.lower c == 0
       /\ ConfidenceInterval.upper c == 0
       /\ (ConfidenceInterval.lower c <= py_round f 2
           /\ py_round f 2 <= ConfidenceInterval.upper c)
       /\ ~ ConfidenceInterval.upper c < ConfidenceInterval.lower c.
Proof.
  cbv zeta.
  assert (Hr : revenues_of (month_buckets tiny_decline_db sample_now)
               = Ok [2 # 100; 1 # 100; 1 # 100])
    by (vm_compute; reflexivity).
  split; [exact Hr|].
  split; [vm_compute; reflexivity|]. split; [vm_compute; reflexivity|].
  split; [vm_compute; reflexivity|]. split; [vm_compute; reflexivity|].
  destruct (get_sales_forecast_spec 2 tiny_decline_db sample_now)
    as (revs & Hrevs & _ & _ & Hlong).
  { intros i Hi. apply (forecast_dates_in_range _ 2); [| |exact Hi];
      vm_compute; reflexivity. }
  rewrite Hr in Hrevs. inversion Hrevs; subst revs; clear Hrevs.
  destruct Hlong as (hist & Hhl & _ & Hres); [simpl; lia|].
  cbn [List.length] in Hres, Hhl.
  rewrite (py_range_cons 1), (py_range_cons (1 + 1)) in Hres by lia.
  cbn [map] in Hres.
  eexists. eexists. eexists.
  split; [exact Hres|].
  split.
  { rewrite length_app, Hhl. reflexivity. }
  split; [rewrite nth_error_app2 by (rewrite Hhl; simpl; lia);
          rewrite Hhl; reflexivity|].
  split; [reflexivity|]. split; [reflexivity|]. split; [reflexivity|].
  split; [reflexivity|]. split; [reflexivity|].
  split; [vm_compute; reflexivity|]. split; [vm_compute; reflexivity|].
  split; [vm_compute; reflexivity|].
  split; [split; vm_compute; discriminate|].
  vm_compute. discriminate.
Qed.

(** C10 (amended): while the start of the 12-month window (365 days before
    the clock) and the horizon of the request (30 days per requested month
    after it) stay within the range of datetime, [get_sales_forecast]
    returns, and its future points are,
    for i = 1, ..., months, the entries that follow the historical ones, in
    that order.  With slope and intercept the least-squares line through
    the monthly revenues and f = slope * (last_index + i) + intercept the
    unrounded projection of the i-th future month, that entry has
    forecasted_revenue = round(f, 2), lower = round(f * 0.8, 2) and
    upper = round(f * 1.2, 2).  Hence lower <= forecasted_revenue <= upper
    whenever f >= 0, and upper <= forecasted_revenue <= lower whenever
    f < 0, with upper < lower strictly once f < -0.025 (for negative
    projections closer to 0 the rounded bounds may coincide). *)
Theorem C10_confidence_interval_band :
  forall (months : Z) (db : Database) (current_date : DT.datetime),
    DT.in_range (DT.sub current_date (DT.td_days 365)) = true ->
    DT.in_range (forecast_horizon current_date months) = true ->
    exists (revenues : list Q) (l : list ForecastData.t),
      revenues_of (month_buckets db current_date) = Ok revenues
      /\ get_sales_forecast months db current_date = Ok l
      /\ let slope :=
           fst (polyfit1 (arange (List.length revenues)) revenues) in
         let intercept :=
           snd (polyfit1 (arange (List.length revenues)) revenues) in
         let last_index := (Z.of_nat (List.length revenues) - 1)%Z in
         let first_future := Nat.min 6 (List.length revenues) in
         (forall i : Z,
            (3 <= List.length revenues)%nat -> (1 <= i <= months)%Z ->
            exists p,
              nth_error l (first_future + Z.to_nat (i - 1)) = Some p
              /\ is_future p)
         /\ (forall p, In p l -> is_future p ->
               exists (i : Z) (c : ConfidenceInterval.t),
                 let f := slope * inject_Z (last_index + i) + intercept in
                 (3 <= List.length revenues)%nat
                 /\ (1 <= i <= months)%Z
                 /\ nth_error l (first_future + Z.to_nat (i - 1)) = Some p
                 /\ ForecastData.period p
                    = strftime_Ym (DT.add current_date (DT.td_days (30 * i)))
                 /\ ForecastData.forecasted_revenue p = Some (py_round f 2)
                 /\ ForecastData.confidence_interval p = Some c
                 /\ ConfidenceInterval.lower c = py_round (f * 0.8) 2
                 /\ ConfidenceInterval.upper c = py_round (f * 1.2) 2
                 /\ (0 <= f ->
                     ConfidenceInterval.lower c <= py_round f 2
                     /\ py_round f 2 <= ConfidenceInterval.upper c)
                 /\ (f < 0 ->
                     ConfidenceInterval.upper c <= py_round f 2
                     /\ py_round f 2 <= ConfidenceInterval.lower c)
                 /\ (f < -0.025 ->
                     ConfidenceInterval.upper c
                     < ConfidenceInterval.lower c)).
Proof.
  intros months db now Hnow Hhor.
  destruct (get_sales_forecast_spec months db now)
    as (revs & Hrevs & _ & Hshort & Hlong).
  { intros i Hi. now apply (forecast_dates_in_range _ months). }
  exists revs.
  destruct (Nat.lt_ge_cases (List.length revs) 3) as [Hlt|Hge].
  - exists []. split; [exact Hrevs|]. split; [now apply Hshort|].
    cbv zeta. split; [intros i Hge; lia | intros p []].
  - destruct (Hlong Hge) as (hist & Hhl & Hnone & Hres).
    eexists. split; [exact Hrevs|]. split; [exact Hres|].
    cbv zeta. rewrite <- Hhl.
    assert (Hnth : forall i, (1 <= i <= months)%Z ->
              nth_error
                (hist
                 ++ map (future_point now
                           (fst (polyfit1 (arange (List.length revs)) revs))
                           (snd (polyfit1 (arange (List.length revs)) revs))
                           (Z.of_nat (List.length revs) - 1))
                      (py_range 1 (months + 1)))
                (List.length hist + Z.to_nat (i - 1))
              = Some (future_point now
                        (fst (polyfit1 (arange (List.length revs)) revs))
                        (snd (polyfit1 (arange (List.length revs)) revs))
                        (Z.of_nat (List.length revs) - 1) i)).
    { intros i Hi. rewrite nth_error_app2 by lia.
      replace (List.length hist + Z.to_nat (i - 1) - List.length hist)%nat
        with (Z.to_nat (i - 1)) by lia.
      rewrite nth_error_map, py_range_nth by lia. reflexivity. }
    split.
    + intros i _ Hi. eexists. split; [now apply Hnth|].
      unfold is_future. discriminate.
    + intros p Hin Hfut. apply in_app_or in Hin as [Hin|Hin].
      * exfalso. rewrite Forall_forall in Hnone. apply Hfut. now apply Hnone.
      * apply in_map_iff in Hin as (i & Hp & Hi).
        apply py_range_in in Hi.
        destruct (confidence_band
                    (fst (polyfit1 (arange (List.length revs)) revs)
                     * inject_Z (Z.of_nat (List.length revs) - 1 + i)
                     + snd (polyfit1 (arange (List.length revs)) revs)))
          as (Hpos & Hneg & Hgap).
        exists i. eexists. cbv zeta.
        split; [exact Hge|]. split; [lia|].
        split; [rewrite Hnth by lia; now rewrite Hp|]. subst p.
        split; [reflexivity|]. split; [reflexivity|].
        split; [reflexivity|]. split; [reflexivity|].
        split; [reflexivity|].
        split; [exact Hpos|]. split; [exact Hneg | exact Hgap].
Qed.

Lemma C10_confidence_interval_band_witness :
  exists (revenues : list Q) (l : list ForecastData.t),
    revenues_of (month_buckets three_month_db sample_now) = Ok revenues
    /\ get_sales_forecast 2 three_month_db sample_now = Ok l
    /\ let slope :=
         fst (polyfit1 (arange (List.length revenues)) revenues) in
       let intercept :=
         snd (polyfit1 (arange (List.length revenues)) revenues) in
       let last_index := (Z.of_nat (List.length revenues) - 1)%Z in
       let first_future := Nat.min 6 (List.length revenues) in
       (forall i : Z,
          (3 <= List.length revenues)%nat -> (1 <= i <= 2)%Z ->
          exists p,
            nth_error l (first_future + Z.to_nat (i - 1)) = Some p
            /\ is_future p)
       /\ (forall p, In p l -> is_future p ->
             exists (i : Z) (c : ConfidenceInterval.t),
               let f := slope * inject_Z (last_index + i) + intercept in
               (3 <= List.length revenues)%nat
               /\ (1 <= i <= 2)%Z
               /\ nth_error l (first_future + Z.to_nat (i - 1)) = Some p
               /\ ForecastData.period p
                  = strftime_Ym (DT.add sample_now (DT.td_days (30 * i)))
               /\ ForecastData.forecasted_revenue p = Some (py_round f 2)
               /\ ForecastData.confidence_interval p = Some c
               /\ ConfidenceInterval.lower c = py_round (f * 0.8) 2
               /\ ConfidenceInterval.upper c = py_round (f * 1.2) 2
               /\ (0 <= f ->
                   ConfidenceInterval.lower c <= py_round f 2
                   /\ py_round f 2 <= ConfidenceInterval.upper c)
               /\ (f < 0 ->
                   ConfidenceInterval.upper c <= py_round f 2
                   /\ py_round f 2 <= ConfidenceInterval.lower c)
               /\ (f < -0.025 ->
                   ConfidenceInterval.upper c
                   < ConfidenceInterval.lower c)).
Proof.
  apply (C10_confidence_interval_band 2 three_month_db sample_now);
    reflexivity.
Defined.

(** A clearly negative projection inverts the band: from 300, 200, 100 the
    fourth future month is projected at -200, with lower -160 and upper
    -240. *)
Example negative_projection_inverts_band :
  let f := forecasted_value (-100) 300 2 3 in
  f == -200
  /\ py_round (f * 0.8) 2 == -160
  /\ py_round (f * 1.2) 2 == -240.
Proof. repeat split; reflexivity. Qed.

(** A horizon past year 9999: the request for 100000 months is answered
    with [OverflowError], the one for 97071 months is still in range. *)
Example forecast_horizon_sample :
  DT.in_range (forecast_horizon sample_now 97071) = true
  /\ DT.in_range (forecast_horizon sample_now 97072) = false
  /\ DT.year (forecast_horizon sample_now 97071) = 9999%Z.
Proof. vm_compute. repeat split. Qed.

(* ================================================================= *)
(** * Further properties of the endpoints *)

(** ** Grouping loops *)

Section GroupingFacts.
Context {R V : Type}.
Variable kf : R -> string.
Variable init : R -> V.
Variable step : R -> V -> V.

Lemma records_with_snoc (k : string) (l : list R) (x : R) :
  records_with kf k (l ++ [x])
  = if String.eqb k (kf x) then records_with kf k l ++ [x]
    else records_with kf k l.
Proof.
  unfold records_with. rewrite filter_app. cbn [filter].
  destruct (String.eqb k (kf x)); [reflexivity | apply app_nil_r].
Qed.

Lemma records_with_absent (k : string) (l : list R) :
  ~ In k (map kf l) -> records_with kf k l = [].
Proof.
  induction l as [|r l IH]; intros H; [reflexivity|].
  unfold records_with in *. cbn [filter].
  destruct (String.eqb k (kf r)) eqn:E.
  - apply String.eqb_eq in E. exfalso. apply H. left. now symmetry.
  - apply IH. intros Hin. apply H. now right.
Qed.

Lemma records_with_present (k : string) (l : list R) :
  In k (map kf l) -> records_with kf k l <> [].
Proof.
  intros H. apply in_map_iff in H as (r & Hr & Hin).
  assert (Hf : In r (records_with kf k l)).
  { unfold records_with. apply filter_In. split; [assumption|].
    rewrite Hr. apply String.eqb_refl. }
  intros E. now rewrite E in Hf.
Qed.

Lemma group_value_snoc_same (default : V) (l : list R) (x : R) :
  In (kf x) (map kf l) ->
  group_value kf init step default (l ++ [x]) (kf x)
  = step x (group_value kf init step default l (kf x)).
Proof.
  intros Hin. apply records_with_present in Hin.
  unfold group_value. rewrite records_with_snoc, String.eqb_refl.
  destruct (records_with kf (kf x) l) as [|r0 rs]; [congruence|].
  cbn [app]. change (r0 :: (rs ++ [x])) with ((r0 :: rs) ++ [x]).
  now rewrite fold_left_app.
Qed.

Lemma group_value_snoc_new (default : V) (l : list R) (x : R) :
  ~ In (kf x) (map kf l) ->
  group_value kf init step default (l ++ [x]) (kf x) = step x (init x).
Proof.
  intros Hin. apply records_with_absent in Hin.
  unfold group_value. rewrite records_with_snoc, String.eqb_refl, Hin.
  reflexivity.
Qed.

Lemma group_value_snoc_other (default : V) (l : list R) (x : R) (k : string) :
  String.eqb (kf x) k = false ->
  group_value kf init step default (l ++ [x]) k
  = group_value kf init step default l k.
Proof.
  intros E. unfold group_value.
  rewrite records_with_snoc, String.eqb_sym, E. reflexivity.
Qed.

(** The loop leaves one entry per distinct key, in order of first
    appearance, holding the fold of the records of that key. *)
Lemma group_fold_spec (default : V) (l : list R) :
  group_fold kf init step l
  = map (fun k => (k, group_value kf init step default l k))
      (distinct (map kf l)).
Proof.
  induction l as [|x l IH] using rev_ind; [reflexivity|].
  unfold group_fold in *. rewrite fold_left_app. cbn [fold_left].
  rewrite IH, dict_upd_map by apply NoDup_distinct.
  rewrite map_app. cbn [map]. rewrite distinct_snoc.
  assert (Hsame : str_in (kf x) (distinct (map kf l))
                  = str_in (kf x) (map kf l)).
  { destruct (str_in (kf x) (map kf l)) eqn:E.
    - apply str_in_iff, In_distinct, str_in_iff, E.
    - apply str_in_false_iff. rewrite In_distinct.
      now apply str_in_false_iff. }
  rewrite Hsame. destruct (str_in (kf x) (map kf l)) eqn:E.
  - apply str_in_iff in E. apply map_ext_in. intros k Hk. f_equal.
    destruct (String.eqb (kf x) k) eqn:Eck.
    + apply String.eqb_eq in Eck; subst k. symmetry.
      now apply group_value_snoc_same.
    + symmetry. now apply group_value_snoc_other.
  - apply str_in_false_iff in E. rewrite map_app. cbn [map]. f_equal.
    + apply map_ext_in. intros k Hk. f_equal.
      symmetry. apply group_value_snoc_other.
      apply String.eqb_neq. intros Heq. apply E.
      rewrite <- Heq in Hk. exact (proj1 (In_distinct _ _) Hk).
    + f_equal. f_equal. symmetry. now apply group_value_snoc_new.
Qed.

Lemma group_fold_keys (l : list R) :
  Dict.keys (group_fold kf init step l) = distinct (map kf l).
Proof.
  destruct l as [|x l]; [reflexivity|].
  rewrite (group_fold_spec (init x)). unfold Dict.keys.
  rewrite map_map. cbn [fst]. apply map_id.
Qed.

Lemma group_fold_keys_NoDup (l : list R) :
  NoDup (Dict.keys (group_fold kf init step l)).
Proof. rewrite group_fold_keys. apply NoDup_distinct. Qed.
End GroupingFacts.

(** ** Order on strings *)

Lemma string_compare_lt_trans (a b c : string) :
  String.compare a b = Lt -> String.compare b c = Lt ->
  String.compare a c = Lt.
Proof.
  revert b c. induction a as [|x a IH]; intros [|y b] [|z c]; simpl;
    try discriminate; auto.
  destruct (Ascii.compare x y) eqn:Exy; try discriminate.
  - apply Ascii.compare_eq_iff in Exy; subst y.
    destruct (Ascii.compare x z); try discriminate; auto.
    intros H1 H2. eapply IH; eassumption.
  - intros _. destruct (Ascii.compare y z) eqn:Eyz; try discriminate.
    + apply Ascii.compare_eq_iff in Eyz; subst z. now rewrite Exy.
    + intros _. unfold Ascii.compare in *.
      rewrite N.compare_lt_iff in Exy, Eyz.
      assert (H : (N_of_ascii x < N_of_ascii z)%N) by lia.
      apply N.compare_lt_iff in H. now rewrite H.
Qed.

Lemma string_leb_cases (a b : string) :
  String.leb a b = true <-> String.compare a b = Lt \/ a = b.
Proof.
  unfold String.leb. split.
  - destruct (String.compare a b) eqn:E; try discriminate; intros _.
    + right. now apply String.compare_eq_iff.
    + now left.
  - intros [H|H].
    + now rewrite H.
    + subst b.
      assert (E : String.compare a a = Eq).
      { induction a as [|x a IH]; simpl; [reflexivity|].
        unfold Ascii.compare. now rewrite N.compare_refl. }
      now rewrite E.
Qed.

Lemma string_leb_trans (a b c : string) :
  String.leb a b = true -> String.leb b c = true -> String.leb a c = true.
Proof.
  rewrite !string_leb_cases. intros [H1|H1] [H2|H2]; subst; auto.
  left. eapply string_compare_lt_trans; eassumption.
Qed.

Lemma string_leb_neq_ltb (a b : string) :
  String.leb a b = true -> a <> b -> String.ltb a b = true.
Proof.
  rewrite string_leb_cases. intros [H|H] Hne; [|contradiction].
  unfold String.ltb. now rewrite H.
Qed.

(** A list sorted for a key without repeated keys is strictly sorted. *)
Lemma sorted_NoDup_strict {A : Type} (key : A -> string) (l : list A) :
  StronglySorted (key_le String.leb key) l ->
  NoDup (map key l) ->
  StronglySorted (fun a b => String.ltb (key a) (key b) = true) l.
Proof.
  induction 1 as [|x l Hs IH Hx]; intros Hnd; [constructor|].
  cbn [map] in Hnd. inversion Hnd as [|? ? Hnotin Hnd']; subst.
  constructor; [now apply IH|].
  rewrite Forall_forall in *. intros y Hy.
  apply string_leb_neq_ltb; [now apply Hx|].
  intros E. apply Hnotin. rewrite E. now apply in_map.
Qed.

(** ** Totals are insensitive to the order *)

Lemma py_sum_perm (l l' : list Q) : Permutation l l' -> py_sum l == py_sum l'.
Proof.
  induction 1 as [|x l l' _ IH|x y l|l l' l'' _ IH1 _ IH2].
  - reflexivity.
  - now rewrite !py_sum_cons, IH.
  - rewrite !py_sum_cons. lra.
  - now rewrite IH1.
Qed.

Lemma Z_sum_acc (l : list Z) (a : Z) :
  fold_left Z.add l a = (a + Z_sum l)%Z.
Proof.
  unfold Z_sum. revert a; induction l as [|x l IH]; intros a; simpl.
  - lia.
  - rewrite (IH (a + x)%Z), (IH x). lia.
Qed.

Lemma Z_sum_cons (x : Z) (l : list Z) : Z_sum (x :: l) = (x + Z_sum l)%Z.
Proof. unfold Z_sum at 1. simpl. apply Z_sum_acc. Qed.

Lemma Z_sum_app (l1 l2 : list Z) : Z_sum (l1 ++ l2) = (Z_sum l1 + Z_sum l2)%Z.
Proof.
  induction l1 as [|x l1 IH]; [reflexivity|].
  simpl. rewrite !Z_sum_cons, IH. lia.
Qed.

Lemma Z_sum_perm (l l' : list Z) : Permutation l l' -> Z_sum l = Z_sum l'.
Proof.
  induction 1 as [|x l l' _ IH|x y l|l l' l'' _ IH1 _ IH2].
  - reflexivity.
  - now rewrite !Z_sum_cons, IH.
  - rewrite !Z_sum_cons. lia.
  - now rewrite IH1.
Qed.

(** What [d[k] = f(d.get(k, init))] does to a total over the values. *)
Lemma dict_upd_py_sum {V : Type} (m : V -> Q) (w : Q) (k : string) (init : V)
    (f : V -> V) (d : Dict.t V) :
  (forall v, m (f v) == m v + w) -> m init == 0 ->
  py_sum (map m (Dict.values (dict_upd k init f d)))
  == py_sum (map m (Dict.values d)) + w.
Proof.
  intros Hf Hi. unfold Dict.values.
  induction d as [|[k' v] d IH]; simpl.
  - rewrite py_sum_cons, !py_sum_nil, Hf, Hi. lra.
  - destruct (String.eqb k k'); simpl.
    + rewrite !py_sum_cons, Hf. lra.
    + rewrite !py_sum_cons, IH. lra.
Qed.

Lemma dict_upd_Z_sum {V : Type} (m : V -> Z) (w : Z) (k : string) (init : V)
    (f : V -> V) (d : Dict.t V) :
  (forall v, m (f v) = (m v + w)%Z) -> m init = 0%Z ->
  Z_sum (map m (Dict.values (dict_upd k init f d)))
  = (Z_sum (map m (Dict.values d)) + w)%Z.
Proof.
  intros Hf Hi. unfold Dict.values.
  induction d as [|[k' v] d IH]; simpl.
  - rewrite Z_sum_cons, Hf, Hi. unfold Z_sum. simpl. lia.
  - destruct (String.eqb k k'); simpl.
    + rewrite !Z_sum_cons, Hf. lia.
    + rewrite !Z_sum_cons, IH. lia.
Qed.

(** ** Sales trends: what the buckets hold *)

Lemma trends_of_group (period : string) (sales_data : list SalesRecord.t) :
  trends_of period sales_data
  = group_fold (trend_key period) (fun _ => (0, 0%Z))
      (fun r data =>
         (fst data + SalesRecord.revenue r, (snd data + 1)%Z))
      sales_data.
Proof. reflexivity. Qed.

Lemma trend_fold_value (rs : list SalesRecord.t) (a : Q) (n : Z) :
  fold_left
    (fun (v : Q * Z) r => (fst v + SalesRecord.revenue r, (snd v + 1)%Z))
    rs (a, n)
  = (fold_left Qplus (map SalesRecord.revenue rs) a,
     (n + Z.of_nat (List.length rs))%Z).
Proof.
  revert a n; induction rs as [|r rs IH]; intros a n; simpl fold_left.
  - f_equal. simpl. lia.
  - rewrite IH. cbn [fst snd map fold_left]. f_equal.
    cbn [List.length]. lia.
Qed.

Lemma trend_points_in (period : string) (region : option string)
    (db : Database) (p : TrendPoint.t) :
  In p (get_sales_trends period region db) ->
  exists k,
    In k (map (trend_key period) (find_sales region db))
    /\ p = TrendPoint.mk k
             (revenue_sum (records_with (trend_key period) k
                             (find_sales region db)))
             (Z.of_nat (List.length
                          (records_with (trend_key period) k
                             (find_sales region db)))).
Proof.
  unfold get_sales_trends.
  destruct (find_sales region db) as [|r0 rs] eqn:Es; [intros []|].
  intros Hin.
  apply (Permutation_in _ (py_sorted_perm _ _ _ _)) in Hin.
  unfold Dict.items in Hin.
  rewrite trends_of_group, (group_fold_spec _ _ _ (0, 0%Z)), map_map in Hin.
  apply in_map_iff in Hin as (k & Hp & Hk). cbn [fst snd] in Hp.
  apply (proj1 (In_distinct _ _)) in Hk. exists k. split; [exact Hk|].
  rewrite <- Hp. unfold group_value.
  pose proof (records_with_present (trend_key period) k _ Hk) as Hne.
  destruct (records_with (trend_key period) k (r0 :: rs)) as [|b bs];
    [congruence|].
  rewrite trend_fold_value. cbn [fst snd]. reflexivity.
Qed.

(** X1: every point of the sales-trends answer is the bucket of its period
    key: its revenue is the sum of the revenue of the records with that key,
    its order count is their number (at least one); and every record of the
    queried set falls under one of the returned periods. *)
Theorem X1_trend_points_are_buckets :
  forall (period : string) (region : option string) (db : Database),
    let sales_data := find_sales region db in
    let trends := get_sales_trends period region db in
    Forall
      (fun p =>
         let bucket :=
           records_with (trend_key period) (TrendPoint.period p) sales_data in
         bucket <> []
         /\ TrendPoint.revenue p = revenue_sum bucket
         /\ TrendPoint.orders p = Z.of_nat (List.length bucket))
      trends
    /\ Forall
         (fun r =>
            exists p, In p trends
                      /\ TrendPoint.period p = trend_key period r)
         sales_data.
Proof.
  intros period region db sales_data trends. split.
  - apply Forall_forall. intros p Hp.
    destruct (trend_points_in period region db p Hp) as (k & Hk & ->).
    cbn [TrendPoint.period TrendPoint.revenue TrendPoint.orders].
    split; [now apply records_with_present|]. split; reflexivity.
  - apply Forall_forall. intros r Hr.
    subst trends sales_data. unfold get_sales_trends.
    destruct (find_sales region db) as [|r0 rs] eqn:Es; [destruct Hr|].
    assert (Hk : In (trend_key period r)
                   (Dict.keys (trends_of period (r0 :: rs)))).
    { rewrite trends_of_group, group_fold_keys. apply In_distinct.
      now apply in_map. }
    unfold Dict.keys in Hk. apply in_map_iff in Hk as ([k v] & Hkv & Hin).
    cbn [fst] in Hkv. subst k.
    exists (TrendPoint.mk (trend_key period r) (fst v) (snd v)).
    split; [|reflexivity].
    apply (Permutation_in _ (Permutation_sym (py_sorted_perm _ _ _ _))).
    apply in_map_iff. exists (trend_key period r, v). now split.
Qed.

Lemma trends_periods_NoDup (period : string) (region : option string)
    (db : Database) :
  NoDup (map TrendPoint.period (get_sales_trends period region db)).
Proof.
  unfold get_sales_trends.
  destruct (find_sales region db) as [|r0 rs]; [constructor|].
  eapply Permutation_NoDup.
  - apply Permutation_sym, Permutation_map, py_sorted_perm.
  - unfold Dict.items. rewrite map_map. cbn [TrendPoint.period].
    rewrite trends_of_group.
    exact (group_fold_keys_NoDup (trend_key period) (fun _ => (0, 0%Z))
             (fun r data =>
                (fst data + SalesRecord.revenue r, (snd data + 1)%Z))
             (r0 :: rs)).
Qed.

(** X2: the sales-trends answer lists each period once, in strictly
    ascending order of the period key (compared as strings). *)
Theorem X2_trends_strictly_ascending :
  forall (period : string) (region : option string) (db : Database),
    StronglySorted
      (fun a b =>
         String.ltb (TrendPoint.period a) (TrendPoint.period b) = true)
      (get_sales_trends period region db).
Proof.
  intros period region db.
  apply sorted_NoDup_strict; [|apply trends_periods_NoDup].
  unfold get_sales_trends.
  destruct (find_sales region db) as [|r0 rs]; [constructor|].
  apply py_sorted_forward_sorted;
    [apply String.leb_total | apply string_leb_trans].
Qed.

Lemma trends_of_totals (period : string) (sales_data : list SalesRecord.t)
    (d : Dict.t (Q * Z)) :
  let loop :=
    fold_left
      (fun trends record =>
         dict_upd (period_key period (SalesRecord.order_date record))
           (0, 0%Z)
           (fun data =>
              (fst data + SalesRecord.revenue record, (snd data + 1)%Z))
           trends)
      sales_data d in
  py_sum (map (@fst Q Z) (Dict.values loop))
  == py_sum (map (@fst Q Z) (Dict.values d)) + revenue_sum sales_data
  /\ Z_sum (map (@snd Q Z) (Dict.values loop))
     = (Z_sum (map (@snd Q Z) (Dict.values d))
        + Z.of_nat (List.length sales_data))%Z.
Proof.
  revert d. induction sales_data as [|r rs IH]; intros d; cbn zeta.
  - cbn [fold_left]. split; [|cbn [List.length]; lia].
    unfold revenue_sum. cbn [map]. rewrite py_sum_nil. lra.
  - cbn [fold_left]. destruct (IH
      (dict_upd (period_key period (SalesRecord.order_date r)) (0, 0%Z)
         (fun data => (fst data + SalesRecord.revenue r, (snd data + 1)%Z))
         d)) as [Hq Hz].
    split.
    + rewrite Hq, revenue_sum_cons.
      rewrite (dict_upd_py_sum (@fst Q Z) (SalesRecord.revenue r));
        [lra | intros v; reflexivity | reflexivity].
    + rewrite Hz.
      rewrite (dict_upd_Z_sum (@snd Q Z) 1%Z);
        [cbn [List.length]; lia | intros v; reflexivity | reflexivity].
Qed.

(** X3: aggregation loses nothing: the revenues of the returned trend points
    add up to the revenue of the queried records and their order counts to
    the number of those records, for every period value. *)
Theorem X3_trends_conserve_totals :
  forall (period : string) (region : option string) (db : Database),
    let trends := get_sales_trends period region db in
    py_sum (map TrendPoint.revenue trends)
    == revenue_sum (find_sales region db)
    /\ Z_sum (map TrendPoint.orders trends)
       = Z.of_nat (List.length (find_sales region db)).
Proof.
  intros period region db trends. subst trends. unfold get_sales_trends.
  destruct (find_sales region db) as [|r0 rs]; [split; reflexivity|].
  destruct (trends_of_totals period (r0 :: rs) []) as [Hq Hz].
  fold (trends_of period (r0 :: rs)) in Hq, Hz.
  split.
  - rewrite (py_sum_perm _ _
               (Permutation_map TrendPoint.revenue (py_sorted_perm _ _ _ _))).
    unfold Dict.items. rewrite map_map. cbn [TrendPoint.revenue].
    unfold Dict.values in Hq. rewrite map_map in Hq.
    rewrite Hq. cbn [map]. rewrite py_sum_nil. lra.
  - rewrite (Z_sum_perm _ _
               (Permutation_map TrendPoint.orders (py_sorted_perm _ _ _ _))).
    unfold Dict.items. rewrite map_map. cbn [TrendPoint.orders].
    unfold Dict.values in Hz. rewrite map_map in Hz.
    rewrite Hz. reflexivity.
Qed.

(** The example of the specification: two January records make one bucket. *)
Example trends_january_bucket :
  get_sales_trends "monthly" None
    {| sales_records :=
        [ sale "j1" "EMEA" "Spain" "C1" "Global Corp"
            (DT.make 2024 1 15 0 0 0 0) 50 "Paid";
          sale "j2" "EMEA" "Spain" "C2" "Digital Corp"
            (DT.make 2024 1 20 0 0 0 0) 70 "Paid" ];
       customer_profiles := [] |}
  = [TrendPoint.mk "2024-01" (0 + 50 + 70) 2].
Proof. vm_compute. reflexivity. Qed.

(** ** Sales trends: the yearly fall-through *)

Lemma trend_keys_covered (period : string) (region : option string)
    (db : Database) (r : SalesRecord.t) :
  In r (find_sales region db) ->
  exists p,
    In p (get_sales_trends period region db)
    /\ TrendPoint.period p = trend_key period r.
Proof.
  intros Hr. unfold get_sales_trends.
  destruct (find_sales region db) as [|r0 rs] eqn:Es; [destruct Hr|].
  assert (Hk : In (trend_key period r)
                 (Dict.keys (trends_of period (r0 :: rs)))).
  { rewrite trends_of_group, group_fold_keys. apply In_distinct.
    now apply in_map. }
  unfold Dict.keys in Hk. apply in_map_iff in Hk as ([k v] & Hkv & Hin).
  cbn [fst] in Hkv. subst k.
  exists (TrendPoint.mk (trend_key period r) (fst v) (snd v)).
  split; [|reflexivity].
  apply (Permutation_in _ (Permutation_sym (py_sorted_perm _ _ _ _))).
  apply in_map_iff. exists (trend_key period r, v). now split.
Qed.

(** C7: any period value other than "monthly" and "quarterly" (malformed
    ones included) is served by the yearly branch and nothing is rejected:
    the period key is the decimal year of the order date (four digits for
    years 1000 to 9999), the answer is the one computed for "yearly", and it
    is the aggregation of the queried records by that key: one point per
    year that has a record, in ascending order of the key, each carrying the
    summed revenue and the number of the records of its year. *)
Theorem C7_period_falls_through_to_yearly :
  forall (period : string) (region : option string) (db : Database),
    period <> "monthly" -> period <> "quarterly" ->
    let sales_data := find_sales region db in
    let trends := get_sales_trends period region db in
    (forall d, period_key period d = str_of_Z (DT.year d))
    /\ trends = get_sales_trends "yearly" region db
    /\ Forall
         (fun p =>
            let bucket :=
              records_with year_key (TrendPoint.period p) sales_data in
            bucket <> []
            /\ TrendPoint.revenue p = revenue_sum bucket
            /\ TrendPoint.orders p = Z.of_nat (List.length bucket))
         trends
    /\ (forall r, In r sales_data ->
          exists p, In p trends /\ TrendPoint.period p = year_key r)
    /\ StronglySorted
         (fun a b =>
            String.ltb (TrendPoint.period a) (TrendPoint.period b) = true)
         trends
    /\ (forall d, (1000 <= DT.year d <= 9999)%Z ->
                  String.length (period_key period d) = 4%nat).
Proof.
  intros period region db Hm Hq sales_data trends.
  assert (Hkey : forall d, period_key period d = str_of_Z (DT.year d))
    by (intros d; now apply period_key_fallthrough).
  assert (Hbucket : forall k l,
             records_with (trend_key period) k l = records_with year_key k l).
  { intros k l. unfold records_with. apply filter_ext. intros r.
    unfold trend_key, year_key. now rewrite Hkey. }
  split; [exact Hkey|]. split; [|split; [|split; [|split]]].
  - subst trends. unfold get_sales_trends.
    destruct (find_sales region db) as [|r rs]; [reflexivity|].
    rewrite (trends_of_ext period "yearly"); [reflexivity|].
    intros d. rewrite Hkey. reflexivity.
  - apply Forall_forall. intros p Hp.
    destruct (trend_points_in period region db p Hp) as (k & Hk & ->).
    cbn [TrendPoint.period TrendPoint.revenue TrendPoint.orders].
    subst sales_data. rewrite <- Hbucket.
    split; [now apply records_with_present|]. split; reflexivity.
  - intros r Hr.
    destruct (trend_keys_covered period region db r Hr) as (p & Hp & Hpk).
    exists p. split; [exact Hp|]. rewrite Hpk.
    unfold trend_key, year_key. apply Hkey.
  - subst trends.
    apply sorted_NoDup_strict; [|apply trends_periods_NoDup].
    unfold get_sales_trends.
    destruct (find_sales region db) as [|r0 rs]; [constructor|].
    apply py_sorted_forward_sorted;
      [apply String.leb_total | apply string_leb_trans].
  - intros d Hy. rewrite Hkey. now apply str_of_year_length.
Qed.

Lemma C7_period_falls_through_to_yearly_witness :
  let sales_data := find_sales (Some "EMEA") sample_db in
  let trends := get_sales_trends "weekly;drop" (Some "EMEA") sample_db in
  (forall d, period_key "weekly;drop" d = str_of_Z (DT.year d))
  /\ trends = get_sales_trends "yearly" (Some "EMEA") sample_db
  /\ Forall
       (fun p =>
          let bucket :=
            records_with year_key (TrendPoint.period p) sales_data in
          bucket <> []
          /\ TrendPoint.revenue p = revenue_sum bucket
          /\ TrendPoint.orders p = Z.of_nat (List.length bucket))
       trends
  /\ (forall r, In r sales_data ->
        exists p, In p trends /\ TrendPoint.period p = year_key r)
  /\ StronglySorted
       (fun a b =>
          String.ltb (TrendPoint.period a) (TrendPoint.period b) = true)
       trends
  /\ (forall d, (1000 <= DT.year d <= 9999)%Z ->
                String.length (period_key "weekly;drop" d) = 4%nat).
Proof.
  apply (C7_period_falls_through_to_yearly "weekly;drop" (Some "EMEA")
           sample_db); discriminate.
Defined.

(** A ledger that spans two years under a malformed period: one point per
    year, the two records of 2026 in one bucket. *)
Example get_sales_trends_two_years :
  get_sales_trends "weekly;drop" None
    {| sales_records :=
        [ sale "y1" "EMEA" "Spain" "C1" "Global Corp"
            (DT.make 2026 3 15 0 0 0 0) 50 "Paid";
          sale "y2" "APAC" "Japan" "C2" "Digital Corp"
            (DT.make 2025 12 31 0 0 0 0) 70 "Paid";
          sale "y3" "EMEA" "Spain" "C1" "Global Corp"
            (DT.make 2026 1 1 0 0 0 0) 30 "Paid" ];
       customer_profiles := [] |}
  = [TrendPoint.mk "2025" (0 + 70) 1; TrendPoint.mk "2026" (0 + 50 + 30) 2].
Proof. vm_compute. reflexivity. Qed.

(** ** KPIs: windows and regional ranking *)

Lemma StronglySorted_map_impl {A B : Type} (R : A -> A -> Prop)
    (S : B -> B -> Prop) (f : A -> B) (l : list A) :
  (forall a b, R a b -> S (f a) (f b)) ->
  StronglySorted R l -> StronglySorted S (map f l).
Proof.
  intros HRS. induction 1 as [|a l _ IH Ha]; cbn [map]; constructor.
  - exact IH.
  - apply Forall_map. eapply Forall_impl; [|exact Ha].
    intros b Hb. now apply HRS.
Qed.




Lemma region_revenue_group (sales : list SalesRecord.t) :
  region_revenue_of sales
  = group_fold SalesRecord.region (fun _ => 0)
      (fun r v => v + SalesRecord.revenue r) sales.
Proof. reflexivity. Qed.

Lemma revenue_fold_value (rs : list SalesRecord.t) (a : Q) :
  fold_left (fun v r => v + SalesRecord.revenue r) rs a
  = fold_left Qplus (map SalesRecord.revenue rs) a.
Proof.
  revert a; induction rs as [|r rs IH]; intros a; [reflexivity|].
  cbn [fold_left map]. apply IH.
Qed.

Lemma region_revenue_total (sales : list SalesRecord.t) (d : Dict.t Q) :
  py_sum (Dict.values
            (fold_left
               (fun region_revenue record =>
                  dict_upd (SalesRecord.region record) 0
                    (fun v => v + SalesRecord.revenue record) region_revenue)
               sales d))
  == py_sum (Dict.values d) + revenue_sum sales.
Proof.
  revert d. induction sales as [|r rs IH]; intros d; cbn [fold_left].
  - unfold revenue_sum. cbn [map]. rewrite py_sum_nil. lra.
  - rewrite IH, revenue_sum_cons.
    pose proof (dict_upd_py_sum (fun v : Q => v) (SalesRecord.revenue r)
                  (SalesRecord.region r) 0
                  (fun v => v + SalesRecord.revenue r) d) as H.
    rewrite !map_id in H. rewrite H; [lra | intros v; reflexivity | reflexivity].
Qed.

(** X5: [top_regions] ranks the regions of the current window: each region
    with a record in the window appears exactly once with the sum of its
    window revenue, in descending order of revenue, and the listed revenues
    add up to the (unrounded) current revenue. *)
Theorem X5_top_regions_ranking :
  forall (db : Database) (current_date : DT.datetime),
    exists k,
      get_kpis db current_date = Ok k
      /\ NoDup (map TopRegion.region (KPIMetrics.top_regions k))
      /\ (forall region,
            In region (map TopRegion.region (KPIMetrics.top_regions k))
            <-> In region (map SalesRecord.region
                             (current_sales db current_date)))
      /\ Forall
           (fun t =>
              TopRegion.revenue t
              = revenue_sum (in_region (TopRegion.region t)
                               (current_sales db current_date)))
           (KPIMetrics.top_regions k)
      /\ StronglySorted
           (fun a b => TopRegion.revenue b <= TopRegion.revenue a)
           (KPIMetrics.top_regions k)
      /\ py_sum (map TopRegion.revenue (KPIMetrics.top_regions k))
         == revenue_sum (current_sales db current_date).
Proof.
  intros db now.
  destruct (get_kpis_total db now) as (k & g & Hk & Hg & _).
  exists k. split; [exact Hk|].
  assert (Htop : KPIMetrics.top_regions k
                 = map (fun kv => TopRegion.mk (fst kv) (snd kv))
                     (py_sorted Qle_bool (@snd string Q) true
                        (Dict.items
                           (region_revenue_of (current_sales db now))))).
  { unfold get_kpis in Hk. rewrite Hg in Hk. cbn [bind] in Hk.
    destruct (if (0 <? _)%Z then _ else _) as [avg|e]; cbn [bind] in Hk;
      [|discriminate].
    inversion Hk; subst k. reflexivity. }
  set (cur := current_sales db now) in *.
  pose proof (py_sorted_perm Qle_bool (@snd string Q) true
                (Dict.items (region_revenue_of cur))) as Hperm.
  assert (Hitems : Dict.items (region_revenue_of cur)
                   = map (fun r => (r, group_value SalesRecord.region
                                         (fun _ => 0)
                                         (fun r v => v + SalesRecord.revenue r)
                                         0 cur r))
                       (distinct (map SalesRecord.region cur))).
  { unfold Dict.items. rewrite region_revenue_group.
    apply group_fold_spec. }
  assert (Hregs : Permutation (map TopRegion.region (KPIMetrics.top_regions k))
                    (distinct (map SalesRecord.region cur))).
  { rewrite Htop, map_map. cbn [TopRegion.region].
    eapply perm_trans; [apply Permutation_map, Hperm|].
    rewrite Hitems, map_map. cbn [fst]. rewrite map_id.
    apply Permutation_refl. }
  split; [|split; [|split; [|split]]].
  - eapply Permutation_NoDup; [apply Permutation_sym, Hregs|].
    apply NoDup_distinct.
  - intros region. split; intros H.
    + apply In_distinct. eapply Permutation_in; [apply Hregs | exact H].
    + eapply Permutation_in; [apply Permutation_sym, Hregs|].
      apply In_distinct. exact H.
  - rewrite Htop. apply Forall_forall. intros t Ht.
    apply in_map_iff in Ht as ([r v] & <- & Hin).
    apply (Permutation_in _ Hperm) in Hin. rewrite Hitems in Hin.
    apply in_map_iff in Hin as (r' & Heq & Hr'). inversion Heq; subst r'.
    cbn [TopRegion.region TopRegion.revenue fst snd].
    apply (proj1 (In_distinct _ _)) in Hr'.
    pose proof (records_with_present SalesRecord.region r cur Hr') as Hne.
    unfold group_value. unfold in_region. fold (records_with SalesRecord.region r cur).
    destruct (records_with SalesRecord.region r cur) as [|b bs];
      [congruence|].
    now rewrite revenue_fold_value.
  - rewrite Htop.
    pose proof (py_sorted_reverse_sorted Qle_bool (@snd string Q)
                  Qle_bool_total Qle_bool_trans
                  (Dict.items (region_revenue_of cur))) as Hs.
    eapply StronglySorted_map_impl; [|exact Hs].
    intros a b Hab. cbn [TopRegion.revenue]. apply Qle_bool_iff. exact Hab.
  - rewrite Htop, map_map. cbn [TopRegion.revenue].
    rewrite (py_sum_perm _ _ (Permutation_map (@snd string Q) Hperm)).
    pose proof (region_revenue_total cur []) as H.
    fold (region_revenue_of cur) in H. unfold Dict.values in H.
    unfold Dict.items. rewrite H. cbn [map]. rewrite py_sum_nil. lra.
Qed.

(** X6: when no record falls in the current 30-day window, [get_kpis] does
    not raise and returns total_revenue 0, total_orders 0, avg_deal_size 0
    and an empty top_regions list; the growth is -100 percent when the
    previous window has positive revenue and 0 otherwise. *)
Theorem X6_kpis_empty_current_window :
  forall (db : Database) (current_date : DT.datetime),
    current_sales db current_date = [] ->
    exists k,
      get_kpis db current_date = Ok k
      /\ KPIMetrics.total_revenue k == 0
      /\ KPIMetrics.total_orders k = 0%Z
      /\ KPIMetrics.avg_deal_size k == 0
      /\ KPIMetrics.top_regions k = []
      /\ (0 < revenue_sum (previous_sales db current_date) ->
          KPIMetrics.revenue_growth k == -100)
      /\ (revenue_sum (previous_sales db current_date) <= 0 ->
          KPIMetrics.revenue_growth k == 0).
Proof.
  intros db now Hcur. unfold get_kpis. rewrite Hcur.
  destruct (revenue_growth_of_total (revenue_sum [])
              (revenue_sum (previous_sales db now))) as [g Hg].
  rewrite Hg. cbn [bind List.length Z.of_nat Z.ltb Z.compare].
  eexists. split; [reflexivity|].
  cbn [KPIMetrics.total_revenue KPIMetrics.total_orders
       KPIMetrics.avg_deal_size KPIMetrics.top_regions
       KPIMetrics.revenue_growth].
  split; [reflexivity|]. split; [reflexivity|]. split; [reflexivity|].
  split; [reflexivity|]. split.
  - intros Hpos. rewrite (revenue_growth_of_pos _ _ Hpos) in Hg.
    inversion Hg; subst g.
    assert (E : (revenue_sum [] - revenue_sum (previous_sales db now))
                / revenue_sum (previous_sales db now) * 100 == -100).
    { unfold revenue_sum at 1. cbn [map]. rewrite py_sum_nil. field. lra. }
    rewrite E. reflexivity.
  - intros Hle. unfold revenue_growth_of in Hg.
    assert (E : Qlt_bool 0 (revenue_sum (previous_sales db now)) = false)
      by now apply Qlt_bool_false_iff.
    rewrite E in Hg. inversion Hg; subst g. reflexivity.
Qed.

Lemma X6_kpis_empty_current_window_witness :
  exists k,
    get_kpis previous_only_db sample_now = Ok k
    /\ KPIMetrics.total_orders k = 0%Z
    /\ KPIMetrics.top_regions k = []
    /\ KPIMetrics.revenue_growth k == -100.
Proof.
  destruct (X6_kpis_empty_current_window previous_only_db sample_now)
    as (k & Hk & _ & Hn & _ & Htop & Hg & _).
  - reflexivity.
  - exists k. split; [exact Hk|]. split; [exact Hn|]. split; [exact Htop|].
    apply Hg. vm_compute. reflexivity.
Defined.

(** ** Regional summaries: the other fields *)

(** The customer ids of the High profiles of a region, as the loop computes
    them. *)
Lemma summary_fields (db : Database) (region : string) :
  has_sales db region = true ->
  let sales_data := region_sales db region in
  let total := revenue_sum sales_data in
  let high :=
    map CustomerProfile.customer_id
      (filter (fun c => String.eqb (CustomerProfile.risk_category c) "High")
         (filter (fun c => String.eqb (CustomerProfile.region c) region)
            (customer_profiles db))) in
  summary_of_region db region
  = Some (RegionalSummary.mk region (py_round total 2)
            (Z.of_nat (List.length sales_data))
            (py_round (total / inject_Z (Z.of_nat (List.length sales_data))) 2)
            (py_round
               (revenue_sum
                  (filter (fun r => str_in (SalesRecord.customer_id r) high)
                     sales_data)) 2)
            (top_customers_of sales_data)
            (distinct (map SalesRecord.country sales_data))).
Proof.
  unfold has_sales, summary_of_region, regional_summary_of. cbn zeta.
  destruct (region_sales db region) as [|r rs]; [discriminate|]. intros _.
  assert (Hpos : (0 < Z.of_nat (List.length (r :: rs)))%Z) by (simpl; lia).
  apply Z.ltb_lt in Hpos as Hb. rewrite Hb, py_div_count by assumption.
  reflexivity.
Qed.

Lemma summaries_in (db : Database) (rs : list string)
    (s : RegionalSummary.t) :
  In s (summaries_of_regions db rs) ->
  exists region,
    In region rs /\ has_sales db region = true
    /\ summary_of_region db region = Some s.
Proof.
  unfold summaries_of_regions. rewrite in_flat_map.
  intros (region & Hr & Hs). exists region. split; [exact Hr|].
  destruct (has_sales db region) eqn:E.
  - split; [reflexivity|].
    destruct (summary_of_region db region) as [s'|]; [|destruct Hs].
    destruct Hs as [->|[]]. reflexivity.
  - rewrite (summary_of_region_none db region E) in Hs. destruct Hs.
Qed.

Lemma revenue_sum_filter_le (f : SalesRecord.t -> bool)
    (l : list SalesRecord.t) :
  nonneg_revenues l -> revenue_sum (filter f l) <= revenue_sum l.
Proof.
  induction 1 as [|r l Hr _ IH]; [unfold revenue_sum; simpl; lra|].
  cbn [filter]. destruct (f r); rewrite !revenue_sum_cons; lra.
Qed.

Lemma py_round_nonneg (x : Q) (n : nat) : 0 <= x -> 0 <= py_round x n.
Proof.
  intros Hx.
  assert (E : py_round 0 n == 0).
  { unfold py_round. rewrite Qmult_0_l.
    change (round_half_even 0) with 0%Z. unfold Qdiv. apply Qmult_0_l. }
  rewrite <- E. now apply py_round_mono.
Qed.

Lemma top_customers_nonempty (sales_data : list SalesRecord.t) :
  sales_data <> [] -> top_customers_of sales_data <> [].
Proof.
  intros Hne. unfold top_customers_of.
  rewrite top_customer_rebuild, customer_revenue_values.
  pose proof (py_sorted_perm Qle_bool TopCustomer.revenue true
                (customer_totals sales_data)) as Hperm.
  destruct sales_data as [|r rs]; [congruence|].
  destruct (py_sorted Qle_bool TopCustomer.revenue true
              (customer_totals (r :: rs))) as [|t ts] eqn:E.
  - apply Permutation_nil in Hperm. unfold customer_totals in Hperm.
    cbn [map distinct] in Hperm. discriminate.
  - cbn [firstn]. discriminate.
Qed.

(** X7: every regional summary returned describes a region with at least
    one order: total_orders counts the region's records (so it is at least
    1), top_customers is not empty, the countries are listed without
    repetition and each is the country of a record of the region; with
    non-negative revenues, 0 <= risk_exposure <= total_revenue. *)
Theorem X7_regional_summary_fields :
  forall db : Database,
    nonneg_revenues (sales_records db) ->
    exists summaries,
      get_regional_summary db = Ok summaries
      /\ Forall
           (fun s =>
              let sales_data := region_sales db (RegionalSummary.region s) in
              RegionalSummary.total_orders s
              = Z.of_nat (List.length sales_data)
              /\ (1 <= RegionalSummary.total_orders s)%Z
              /\ RegionalSummary.top_customers s <> []
              /\ NoDup (RegionalSummary.countries s)
              /\ (forall c, In c (RegionalSummary.countries s)
                            <-> In c (map SalesRecord.country sales_data))
              /\ 0 <= RegionalSummary.risk_exposure s
              /\ RegionalSummary.risk_exposure s
                 <= RegionalSummary.total_revenue s)
           summaries.
Proof.
  intros db Hnn. exists (summaries_of_regions db regions).
  split; [apply get_regional_summary_spec|].
  apply Forall_forall. intros s Hs.
  destruct (summaries_in db regions s Hs) as (region & _ & Hhas & Hsome).
  rewrite (summary_fields db region Hhas) in Hsome.
  inversion Hsome; subst s; clear Hsome.
  cbn [RegionalSummary.region RegionalSummary.total_orders
       RegionalSummary.top_customers RegionalSummary.countries
       RegionalSummary.risk_exposure RegionalSummary.total_revenue].
  cbn zeta.
  assert (Hne : region_sales db region <> []).
  { unfold has_sales in Hhas. destruct (region_sales db region); congruence. }
  assert (Hnr : nonneg_revenues (region_sales db region))
    by (apply nonneg_revenues_filter, Hnn).
  split; [reflexivity|]. split.
  { destruct (region_sales db region); [congruence | simpl; lia]. }
  split; [now apply top_customers_nonempty|].
  split; [apply NoDup_distinct|].
  split; [intros c; apply In_distinct|]. split.
  - apply py_round_nonneg, revenue_sum_nonneg.
    now apply nonneg_revenues_filter.
  - apply py_round_mono. now apply revenue_sum_filter_le.
Qed.

Lemma X7_regional_summary_fields_witness :
  exists summaries,
    get_regional_summary sample_db = Ok summaries
    /\ Forall
         (fun s =>
            let sales_data :=
              region_sales sample_db (RegionalSummary.region s) in
            RegionalSummary.total_orders s
            = Z.of_nat (List.length sales_data)
            /\ (1 <= RegionalSummary.total_orders s)%Z
            /\ RegionalSummary.top_customers s <> []
            /\ NoDup (RegionalSummary.countries s)
            /\ (forall c, In c (RegionalSummary.countries s)
                          <-> In c (map SalesRecord.country sales_data))
            /\ 0 <= RegionalSummary.risk_exposure s
            /\ RegionalSummary.risk_exposure s
               <= RegionalSummary.total_revenue s)
         summaries.
Proof.
  apply (X7_regional_summary_fields sample_db). exact sample_db_nonneg.
Defined.

(** X8: when no customer profile is rated High, every regional summary
    reports a risk exposure of 0. *)
Theorem X8_no_high_risk_no_exposure :
  forall db : Database,
    no_high_risk db ->
    exists summaries,
      get_regional_summary db = Ok summaries
      /\ Forall (fun s => RegionalSummary.risk_exposure s == 0) summaries.
Proof.
  intros db Hno. exists (summaries_of_regions db regions).
  split; [apply get_regional_summary_spec|].
  apply Forall_forall. intros s Hs.
  destruct (summaries_in db regions s Hs) as (region & _ & Hhas & Hsome).
  rewrite (summary_fields db region Hhas) in Hsome.
  inversion Hsome; subst s; clear Hsome.
  cbn [RegionalSummary.risk_exposure].
  assert (Hnone : filter
                    (fun c => String.eqb (CustomerProfile.risk_category c)
                                "High")
                    (filter (fun c => String.eqb (CustomerProfile.region c)
                                        region)
                       (customer_profiles db)) = []).
  { unfold no_high_risk in Hno. rewrite Forall_forall in Hno.
    destruct (filter _ (filter _ _)) as [|c cs] eqn:E; [reflexivity|].
    assert (Hin : In c (c :: cs)) by now left.
    rewrite <- E in Hin. apply filter_In in Hin as [Hin Hc].
    apply filter_In in Hin as [Hin _].
    apply String.eqb_eq in Hc. now apply Hno in Hin. }
  rewrite Hnone. cbn [map].
  assert (Hf : forall l : list SalesRecord.t,
             filter (fun r => str_in (SalesRecord.customer_id r) []) l = []).
  { induction l as [|r l IH]; [reflexivity | exact IH]. }
  rewrite Hf. reflexivity.
Qed.

Lemma X8_no_high_risk_no_exposure_witness :
  List.length (customer_profiles low_risk_db) = 4%nat
  /\ no_high_risk low_risk_db
  /\ exists summaries,
       get_regional_summary low_risk_db = Ok summaries
       /\ Forall (fun s => RegionalSummary.risk_exposure s == 0) summaries.
Proof.
  assert (Hno : no_high_risk low_risk_db)
    by (repeat constructor; discriminate).
  split; [reflexivity|]. split; [exact Hno|].
  apply (X8_no_high_risk_no_exposure low_risk_db Hno).
Defined.

(** The join with the profiles at work: on the same ledger with the two EMEA
    customers rated High, the exposure of EMEA is their revenue, 500.25 +
    749.75, and the other regions stay at 0; with no profile rated High
    every exposure is 0. *)
Example risk_exposure_sample :
  match get_regional_summary sample_db_profiles,
        get_regional_summary low_risk_db with
  | Ok with_high, Ok without_high =>
      map RegionalSummary.region with_high = ["APAC"; "EMEA"; "Americas"]
      /\ Forall2 Qeq (map RegionalSummary.risk_exposure with_high)
           [0; 1250; 0]
      /\ Forall2 Qeq (map RegionalSummary.risk_exposure without_high)
           [0; 0; 0]
  | _, _ => False
  end.
Proof. vm_compute. repeat constructor. Qed.

(** ** Forecast: shape and content of the answer *)

Lemma py_range_length (a b : Z) :
  List.length (py_range a b) = Z.to_nat (b - a).
Proof. unfold py_range. now rewrite length_map, length_seq. Qed.

Lemma list_index_nth (x : string) (l : list string) (i : nat) :
  list_index x l = Ok i -> nth_error l i = Some x.
Proof.
  revert i; induction l as [|y l IH]; intros i; simpl; [discriminate|].
  destruct (String.eqb y x) eqn:E.
  - intros H. inversion H; subst. apply String.eqb_eq in E. now subst.
  - destruct (list_index x l) as [j|e]; cbn [bind]; [|discriminate].
    intros H. inversion H; subst. simpl. now apply IH.
Qed.

Lemma mapM_nth {A B : Type} (f : A -> result B) (l : list A) (bs : list B)
    (i : nat) (a : A) (b : B) :
  mapM f l = Ok bs -> nth_error l i = Some a -> nth_error bs i = Some b ->
  f a = Ok b.
Proof.
  revert bs i; induction l as [|x l IH]; intros bs i Hm Ha Hb.
  - destruct i; discriminate.
  - simpl in Hm. destruct (f x) as [y|e] eqn:Ex; cbn [bind] in Hm;
      [|discriminate].
    destruct (mapM f l) as [ys|e]; cbn [bind] in Hm; [|discriminate].
    inversion Hm; subst bs. destruct i as [|i]; simpl in Ha, Hb.
    + inversion Ha; inversion Hb; subst. exact Ex.
    + eapply IH; [reflexivity | eassumption | eassumption].
Qed.

(** A historical point carries the bucket value of its month. *)
Lemma historical_point_value (monthly_data : Dict.t Q) (revenues : list Q)
    (month : string) (p : ForecastData.t) :
  revenues_of monthly_data = Ok revenues ->
  historical_point (sorted_months_of monthly_data) revenues month = Ok p ->
  exists v,
    p = ForecastData.mk month (Some v) None None
    /\ dict_get monthly_data month = Ok v.
Proof.
  unfold revenues_of, historical_point. intros Hrev Hp.
  destruct (list_index month (sorted_months_of monthly_data)) as [i|e] eqn:Ei;
    cbn [bind] in Hp; [|discriminate].
  unfold list_get in Hp.
  destruct (nth_error revenues i) as [v|] eqn:Ev; cbn [bind] in Hp;
    [|discriminate].
  inversion Hp; subst p. exists v. split; [reflexivity|].
  eapply mapM_nth; [exact Hrev | | exact Ev].
  now apply list_index_nth.
Qed.

Lemma mapM_In {A B : Type} (f : A -> result B) (l : list A) (bs : list B)
    (b : B) :
  mapM f l = Ok bs -> In b bs -> exists a, In a l /\ f a = Ok b.
Proof.
  revert bs; induction l as [|x l IH]; intros bs Hm Hb.
  - inversion Hm; subst. destruct Hb.
  - simpl in Hm. destruct (f x) as [y|e] eqn:Ex; cbn [bind] in Hm;
      [|discriminate].
    destruct (mapM f l) as [ys|e]; cbn [bind] in Hm; [|discriminate].
    inversion Hm; subst bs. destruct Hb as [<-|Hb].
    + exists x. split; [now left | exact Ex].
    + destruct (IH ys eq_refl Hb) as (a & Ha & Hfa).
      exists a. split; [now right | exact Hfa].
Qed.

Lemma mapM_periods (sorted_months : list string) (revenues : list Q)
    (months : list string) (hist : list ForecastData.t) :
  mapM (historical_point sorted_months revenues) months = Ok hist ->
  map ForecastData.period hist = months.
Proof.
  revert hist; induction months as [|m ms IH]; intros hist H.
  - inversion H. reflexivity.
  - simpl in H.
    destruct (historical_point sorted_months revenues m) as [p|e] eqn:Ep;
      cbn [bind] in H; [|discriminate].
    destruct (mapM _ ms) as [ps|e]; cbn [bind] in H; [|discriminate].
    inversion H; subst hist. cbn [map]. rewrite (IH ps eq_refl). f_equal.
    unfold historical_point in Ep.
    destruct (list_index m sorted_months); cbn [bind] in Ep; [|discriminate].
    destruct (list_get revenues _); cbn [bind] in Ep; [|discriminate].
    inversion Ep. reflexivity.
Qed.

Lemma monthly_data_group (sales_data : list SalesRecord.t) :
  monthly_data_of sales_data
  = group_fold month_key (fun _ => 0)
      (fun r v => v + SalesRecord.revenue r) sales_data.
Proof. reflexivity. Qed.

Lemma monthly_data_value (sales_data : list SalesRecord.t) (month : string)
    (v : Q) :
  dict_get (monthly_data_of sales_data) month = Ok v ->
  In month (map month_key sales_data)
  /\ v = revenue_sum (records_with month_key month sales_data).
Proof.
  rewrite monthly_data_group, (group_fold_spec _ _ _ 0).
  unfold dict_get.
  set (T := group_value month_key (fun _ => 0)
              (fun r v => v + SalesRecord.revenue r) 0 sales_data).
  assert (Hget : forall D,
             Dict.get month (map (fun k => (k, T k)) D)
             = if str_in month D then Some (T month) else None).
  { induction D as [|k D IH]; [reflexivity|].
    cbn [map Dict.get]. unfold str_in. cbn [existsb]. fold (str_in month D).
    destruct (String.eqb month k) eqn:E; cbn [orb].
    - apply String.eqb_eq in E. now subst.
    - exact IH. }
  rewrite Hget.
  destruct (str_in month (distinct (map month_key sales_data))) eqn:E;
    [|discriminate].
  intros H. inversion H; subst v; clear H.
  apply str_in_iff in E. apply (proj1 (In_distinct _ _)) in E.
  split; [exact E|].
  subst T. unfold group_value.
  pose proof (records_with_present month_key month sales_data E) as Hne.
  destruct (records_with month_key month sales_data) as [|b bs];
    [congruence|].
  now rewrite revenue_fold_value.
Qed.

(** The answer while the dates of the forecast loop are in range, with the
    loop that builds the historical points exposed. *)
Lemma get_sales_forecast_full (months : Z) (db : Database)
    (current_date : DT.datetime) :
  (forall i, (1 <= i <= months)%Z ->
             DT.in_range (DT.add current_date (DT.td_days (30 * i))) = true) ->
  exists revenues,
    revenues_of (month_buckets db current_date) = Ok revenues
    /\ List.length revenues = List.length (month_buckets db current_date)
    /\ ((List.length revenues < 3)%nat ->
        get_sales_forecast months db current_date = Ok [])
    /\ ((3 <= List.length revenues)%nat ->
        exists hist,
          mapM (historical_point
                  (sorted_months_of (month_buckets db current_date)) revenues)
            (last_n 6 (sorted_months_of (month_buckets db current_date)))
          = Ok hist
          /\ get_sales_forecast months db current_date
             = Ok (hist
                   ++ map (future_point current_date
                             (fst (polyfit1 (arange (List.length revenues))
                                     revenues))
                             (snd (polyfit1 (arange (List.length revenues))
                                     revenues))
                             (Z.of_nat (List.length revenues) - 1))
                        (py_range 1 (months + 1)))).
Proof.
  intros Hrange.
  destruct (get_sales_forecast_loop months db current_date)
    as (revs & Hrevs & Hlen & Hshort & Hlong).
  exists revs. split; [exact Hrevs|]. split; [exact Hlen|].
  split; [exact Hshort|]. intros Hge.
  destruct (Hlong Hge) as (hist & Hm & _ & _ & Hres).
  exists hist. split; [exact Hm|].
  rewrite Hres, forecast_points_ok by exact Hrange. reflexivity.
Qed.

Lemma historical_shape (monthly_data : Dict.t Q) (revenues : list Q)
    (months : list string) (hist : list ForecastData.t) :
  revenues_of monthly_data = Ok revenues ->
  mapM (historical_point (sorted_months_of monthly_data) revenues) months
  = Ok hist ->
  map ForecastData.period hist = months
  /\ Forall
       (fun p =>
          exists v,
            p = ForecastData.mk (ForecastData.period p) (Some v) None None
            /\ dict_get monthly_data (ForecastData.period p) = Ok v)
       hist.
Proof.
  intros Hrev Hm. split; [eapply mapM_periods; exact Hm|].
  apply Forall_forall. intros p Hp.
  destruct (mapM_In _ _ _ _ Hm Hp) as (month & _ & Hpoint).
  destruct (historical_point_value _ _ _ _ Hrev Hpoint) as (v & -> & Hv).
  exists v. split; [reflexivity | exact Hv].
Qed.

(** X9: the three outcomes of the forecast, for a clock whose 12-month
    window starts within the range of datetime.  With fewer than three
    monthly buckets the answer is empty, whatever the horizon.  With n >= 3
    buckets and either no month requested or a horizon within the range
    (the date 30 days per requested month after the clock is a datetime),
    the answer consists of min(6, n) historical points (actual revenue set,
    no forecast, no interval) followed by one forecast point (no actual
    revenue, forecast and interval set) per requested month.  With n >= 3
    buckets, at least one month requested and a horizon past the range, the
    call raises OverflowError. *)
Theorem X9_forecast_shape :
  forall (months : Z) (db : Database) (current_date : DT.datetime),
    DT.in_range (DT.sub current_date (DT.td_days 365)) = true ->
    let n := List.length (month_buckets db current_date) in
    ((n < 3)%nat -> get_sales_forecast months db current_date = Ok [])
    /\ ((3 <= n)%nat ->
        (months <= 0)%Z
        \/ DT.in_range (forecast_horizon current_date months) = true ->
        exists l,
          get_sales_forecast months db current_date = Ok l
          /\ List.length l = (Nat.min 6 n + Z.to_nat months)%nat
          /\ Forall is_historical (firstn (Nat.min 6 n) l)
          /\ Forall is_forecast (skipn (Nat.min 6 n) l))
    /\ ((3 <= n)%nat -> (1 <= months)%Z ->
        DT.in_range (forecast_horizon current_date months) = false ->
        get_sales_forecast months db current_date = Raise OverflowError).
Proof.
  intros months db now Hnow n.
  destruct (get_sales_forecast_loop months db now)
    as (revs & Hrevs & Hlen & Hshort & Hlong).
  fold n in Hlen. split; [|split].
  - intros Hlt. apply Hshort. lia.
  - intros Hge Hhor.
    destruct (get_sales_forecast_full months db now)
      as (revs' & Hrevs' & _ & _ & Hfull).
    { intros i Hi. destruct Hhor as [Hm|Hh]; [lia|].
      now apply (forecast_dates_in_range _ months). }
    rewrite Hrevs in Hrevs'. inversion Hrevs'; subst revs'; clear Hrevs'.
    destruct Hfull as (hist & Hm & Hres); [lia|].
    destruct (historical_shape _ _ _ _ Hrevs Hm) as [Hper Hshape].
    assert (Hhl : List.length hist = Nat.min 6 n).
    { rewrite <- (length_map ForecastData.period), Hper, last_n_length,
        sorted_months_length. reflexivity. }
    eexists. split; [exact Hres|]. split; [|split].
    + rewrite length_app, length_map, py_range_length, Hhl.
      replace (months + 1 - 1)%Z with months by lia. reflexivity.
    + rewrite <- Hhl, firstn_app, firstn_all, Nat.sub_diag.
      cbn [firstn]. rewrite app_nil_r.
      eapply Forall_impl; [|exact Hshape].
      intros p (v & -> & _). repeat split. discriminate.
    + rewrite <- Hhl, skipn_app, skipn_all, Nat.sub_diag.
      cbn [skipn app]. apply Forall_map, Forall_forall.
      intros i _. repeat split; discriminate.
  - intros Hge Hm Hout.
    destruct Hlong as (hist & _ & _ & _ & Hres); [lia|].
    rewrite Hres, forecast_points_overflow by assumption. reflexivity.
Qed.

Lemma X9_forecast_shape_witness :
  get_sales_forecast 6 sub_cent_db sample_now = Ok []
  /\ (exists l,
        get_sales_forecast 2 three_month_db sample_now = Ok l
        /\ List.length l = 5%nat
        /\ Forall is_historical (firstn 3 l)
        /\ Forall is_forecast (skipn 3 l))
  /\ get_sales_forecast 100000 three_month_db sample_now
     = Raise OverflowError.
Proof.
  split; [|split].
  - apply (proj1 (X9_forecast_shape 6 sub_cent_db sample_now eq_refl)).
    vm_compute. lia.
  - apply (proj1 (proj2 (X9_forecast_shape 2 three_month_db sample_now
                           eq_refl))).
    + vm_compute. lia.
    + right. reflexivity.
  - apply (proj2 (proj2 (X9_forecast_shape 100000 three_month_db
                           sample_now eq_refl))).
    + vm_compute. lia.
    + lia.
    + reflexivity.
Defined.

Lemma StronglySorted_skipn {A : Type} (R : A -> A -> Prop) (n : nat)
    (l : list A) :
  StronglySorted R l -> StronglySorted R (skipn n l).
Proof.
  revert l; induction n as [|n IH]; intros l H; [exact H|].
  destruct l as [|x l]; [constructor|].
  cbn [skipn]. apply IH. now inversion H.
Qed.

(** X10: while the start of the 12-month window and the horizon of the
    request stay within the range of datetime, the historical points of the forecast are the last six month
    keys of the sorted aggregation, in strictly ascending order, and every
    point with an actual revenue carries the sum of the revenue of the
    fetched records of its month. *)
Theorem X10_forecast_history :
  forall (months : Z) (db : Database) (current_date : DT.datetime),
    DT.in_range (DT.sub current_date (DT.td_days 365)) = true ->
    DT.in_range (forecast_horizon current_date months) = true ->
    exists l,
      get_sales_forecast months db current_date = Ok l
      /\ Forall
           (fun p =>
              forall v, ForecastData.actual_revenue p = Some v ->
                In (ForecastData.period p)
                  (map month_key (forecast_sales db current_date))
                /\ v = revenue_sum
                         (records_with month_key (ForecastData.period p)
                            (forecast_sales db current_date)))
           l
      /\ StronglySorted
           (fun a b =>
              String.ltb (ForecastData.period a) (ForecastData.period b)
              = true)
           (firstn
              (Nat.min 6 (List.length (month_buckets db current_date))) l)
      /\ ((3 <= List.length (month_buckets db current_date))%nat ->
          map ForecastData.period
            (firstn
               (Nat.min 6 (List.length (month_buckets db current_date))) l)
          = last_n 6 (sorted_months_of (month_buckets db current_date))).
Proof.
  intros months db now Hnow Hhor.
  destruct (get_sales_forecast_full months db now)
    as (revs & Hrevs & Hlen & Hshort & Hlong).
  { intros i Hi. now apply (forecast_dates_in_range _ months). }
  destruct (Nat.lt_ge_cases (List.length revs) 3) as [Hlt|Hge].
  - exists []. split; [now apply Hshort|]. split; [constructor|].
    rewrite firstn_nil. split; [constructor | intros; lia].
  - destruct (Hlong Hge) as (hist & Hm & Hres).
    destruct (historical_shape _ _ _ _ Hrevs Hm) as [Hper Hshape].
    assert (Hhl : List.length hist
                  = Nat.min 6 (List.length (month_buckets db now))).
    { rewrite <- (length_map ForecastData.period), Hper, last_n_length,
        sorted_months_length. reflexivity. }
    assert (Hfirst : forall fut : list ForecastData.t,
               firstn (Nat.min 6 (List.length (month_buckets db now)))
                 (hist ++ fut) = hist).
    { intros fut. rewrite <- Hhl, firstn_app, firstn_all, Nat.sub_diag.
      cbn [firstn]. apply app_nil_r. }
    eexists. split; [exact Hres|]. split; [|split].
    + apply Forall_app. split.
      * eapply Forall_impl; [|exact Hshape].
        intros p (v & Hp & Hv) v' Hv'. rewrite Hp in Hv'.
        cbn [ForecastData.actual_revenue] in Hv'. inversion Hv'; subst v'.
        unfold month_buckets in Hv. now apply monthly_data_value.
      * apply Forall_map, Forall_forall. intros i _ v Hv. discriminate Hv.
    + rewrite Hfirst.
      assert (Hsorted : StronglySorted
                          (fun a b : string => String.ltb a b = true)
                          (last_n 6 (sorted_months_of
                                       (month_buckets db now)))).
      { unfold last_n. apply StronglySorted_skipn.
        apply (sorted_NoDup_strict (fun k : string => k)).
        - apply py_sorted_forward_sorted;
            [apply String.leb_total | apply string_leb_trans].
        - rewrite map_id. unfold sorted_months_of.
          eapply Permutation_NoDup;
            [apply Permutation_sym, py_sorted_perm|].
          unfold month_buckets. rewrite monthly_data_group.
          apply group_fold_keys_NoDup. }
      rewrite <- Hper in Hsorted. clear - Hsorted.
      induction hist as [|p ps IH]; [constructor|].
      cbn [map] in Hsorted. inversion Hsorted; subst.
      constructor; [now apply IH|].
      rewrite Forall_map in H2. exact H2.
    + intros _. rewrite Hfirst. exact Hper.
Qed.

Lemma X10_forecast_history_witness :
  exists l,
    get_sales_forecast 2 three_month_db sample_now = Ok l
    /\ Forall
         (fun p =>
            forall v, ForecastData.actual_revenue p = Some v ->
              In (ForecastData.period p)
                (map month_key (forecast_sales three_month_db sample_now))
              /\ v = revenue_sum
                       (records_with month_key (ForecastData.period p)
                          (forecast_sales three_month_db sample_now)))
         l
    /\ StronglySorted
         (fun a b =>
            String.ltb (ForecastData.period a) (ForecastData.period b)
            = true)
         (firstn
            (Nat.min 6
               (List.length (month_buckets three_month_db sample_now))) l)
    /\ ((3 <= List.length (month_buckets three_month_db sample_now))%nat ->
        map ForecastData.period
          (firstn
             (Nat.min 6
                (List.length (month_buckets three_month_db sample_now))) l)
        = last_n 6
            (sorted_months_of (month_buckets three_month_db sample_now))).
Proof.
  apply (X10_forecast_history 2 three_month_db sample_now); reflexivity.
Defined.

(** ** Forecast: the fitted line *)

Lemma dot_cons (x y : Q) (xs ys : list Q) :
  dot (x :: xs) (y :: ys) == x * y + dot xs ys.
Proof. unfold dot. cbn [combine map fst snd]. apply py_sum_cons. Qed.

Lemma combine_same_snoc {A : Type} (l : list A) (x : A) :
  combine (l ++ [x]) (l ++ [x]) = combine l l ++ [(x, x)].
Proof. induction l as [|a l IH]; simpl; [reflexivity | now rewrite IH]. Qed.

Lemma dot_same_snoc (xs : list Q) (x : Q) :
  dot (xs ++ [x]) (xs ++ [x]) == dot xs xs + x * x.
Proof.
  unfold dot. rewrite combine_same_snoc, map_app, py_sum_app.
  cbn [map fst snd]. rewrite py_sum_cons, py_sum_nil. lra.
Qed.

Lemma arange_succ (n : nat) :
  arange (S n) = arange n ++ [inject_Z (Z.of_nat n)].
Proof. unfold arange. rewrite seq_S, map_app. reflexivity. Qed.

Lemma arange_length (n : nat) : List.length (arange n) = n.
Proof. unfold arange. now rewrite length_map, length_seq. Qed.

Lemma inject_nat_succ (n : nat) :
  inject_Z (Z.of_nat (S n)) == inject_Z (Z.of_nat n) + 1.
Proof. rewrite Nat2Z.inj_succ. unfold Z.succ. apply inject_Z_succ. Qed.

(** The sums of the month indices and of their squares. *)
Lemma arange_sums (n : nat) :
  let N := inject_Z (Z.of_nat n) in
  py_sum (arange n) == N * (N - 1) / 2
  /\ dot (arange n) (arange n) == (N - 1) * N * (2 * N - 1) / 6.
Proof.
  induction n as [|n [IH1 IH2]]; cbn zeta.
  - split; reflexivity.
  - rewrite arange_succ, py_sum_app, dot_same_snoc, py_sum_cons, py_sum_nil.
    cbn zeta in IH1, IH2. rewrite IH1, IH2, inject_nat_succ.
    split; field.
Qed.

(** The normal-equation determinant is positive from two points on. *)
Lemma arange_determinant_pos (n : nat) :
  (2 <= n)%nat ->
  let N := inject_Z (Z.of_nat n) in
  0 < N * dot (arange n) (arange n) - py_sum (arange n) * py_sum (arange n).
Proof.
  intros Hn N. destruct (arange_sums n) as [H1 H2]. fold N in H1, H2.
  rewrite H1, H2.
  assert (HN : 2 <= N).
  { subst N. change 2 with (inject_Z 2). rewrite <- Zle_Qle. lia. }
  assert (E : N * ((N - 1) * N * (2 * N - 1) / 6)
              - N * (N - 1) / 2 * (N * (N - 1) / 2)
              == (N * N) * ((N - 1) * (N + 1)) / 12) by field.
  rewrite E. unfold Qdiv.
  apply Qmult_lt_0_compat; [|reflexivity].
  apply Qmult_lt_0_compat; apply Qmult_lt_0_compat; lra.
Qed.

(** Sums of ordinates that lie on a line. *)
Lemma line_sums (a b : Q) (xs ys : list Q) :
  Forall2 (fun x y => y == a * x + b) xs ys ->
  py_sum ys == a * py_sum xs + inject_Z (Z.of_nat (List.length xs)) * b
  /\ dot xs ys == a * dot xs xs + b * py_sum xs.
Proof.
  induction 1 as [|x y xs ys Hxy _ [IH1 IH2]].
  - unfold dot. cbn [combine map List.length Z.of_nat].
    rewrite !py_sum_nil. change (inject_Z 0) with 0. split; ring.
  - rewrite !py_sum_cons, !dot_cons, IH1, IH2, Hxy.
    cbn [List.length]. rewrite inject_nat_succ. split; ring.
Qed.

(** Least squares recovers a line from points that lie on it. *)
Lemma polyfit1_on_line (a b : Q) (revenues : list Q) :
  (2 <= List.length revenues)%nat ->
  on_line a b revenues ->
  fst (polyfit1 (arange (List.length revenues)) revenues) == a
  /\ snd (polyfit1 (arange (List.length revenues)) revenues) == b.
Proof.
  intros Hn Hline. unfold on_line in Hline.
  destruct (line_sums a b _ _ Hline) as [Hsy Hsxy].
  pose proof (arange_determinant_pos _ Hn) as HD. cbn zeta in HD.
  rewrite arange_length in Hsy.
  unfold polyfit1. cbn [fst snd]. rewrite arange_length.
  set (N := inject_Z (Z.of_nat (List.length revenues))) in *.
  set (sx := py_sum (arange (List.length revenues))) in *.
  set (sxx := dot (arange (List.length revenues))
                (arange (List.length revenues))) in *.
  set (sy := py_sum revenues) in *.
  set (sxy := dot (arange (List.length revenues)) revenues) in *.
  assert (HN : 0 < N).
  { subst N. apply inject_Z_pos. lia. }
  assert (Hslope : (N * sxy - sx * sy) / (N * sxx - sx * sx) == a).
  { rewrite Hsxy, Hsy.
    assert (E : N * (a * sxx + b * sx) - sx * (a * sx + N * b)
                == a * (N * sxx - sx * sx)) by ring.
    rewrite E. field. intros H0. rewrite H0 in HD. lra. }
  split; [exact Hslope|].
  rewrite Hslope, Hsy. field. lra.
Qed.

Lemma future_point_revenue (current_date : DT.datetime)
    (slope intercept : Q) (last_index i : Z) :
  ForecastData.forecasted_revenue
    (future_point current_date slope intercept last_index i)
  = Some (py_round (forecasted_value slope intercept last_index i) 2).
Proof. reflexivity. Qed.

(** X11: when the monthly revenues (three or more) lie exactly on a line of
    slope a and intercept b over the month indices 0, 1, ..., the fit
    recovers a and b; and while the start of the 12-month window and the
    horizon of the request stay within the range of datetime every forecast
    point continues the line: the i-th
    future month is forecast at round(a * (n - 1 + i) + b, 2). *)
Theorem X11_forecast_continues_line :
  forall (months : Z) (db : Database) (current_date : DT.datetime)
         (a b : Q) (revenues : list Q),
    revenues_of (month_buckets db current_date) = Ok revenues ->
    (3 <= List.length revenues)%nat ->
    on_line a b revenues ->
    DT.in_range (DT.sub current_date (DT.td_days 365)) = true ->
    DT.in_range (forecast_horizon current_date months) = true ->
    fst (polyfit1 (arange (List.length revenues)) revenues) == a
    /\ snd (polyfit1 (arange (List.length revenues)) revenues) == b
    /\ exists l,
         get_sales_forecast months db current_date = Ok l
         /\ Forall
              (fun p =>
                 forall f, ForecastData.forecasted_revenue p = Some f ->
                   exists i,
                     (1 <= i <= months)%Z
                     /\ ForecastData.period p
                        = strftime_Ym
                            (DT.add current_date (DT.td_days (30 * i)))
                     /\ f == py_round
                               (a * inject_Z
                                      (Z.of_nat (List.length revenues) - 1 + i)
                                + b) 2)
              l.
Proof.
  intros months db now a b revs Hrevs Hn Hline Hnow Hhor.
  destruct (polyfit1_on_line a b revs) as [Hs Hi]; [lia | exact Hline|].
  split; [exact Hs|]. split; [exact Hi|].
  destruct (get_sales_forecast_full months db now)
    as (revs' & Hrevs' & _ & _ & Hlong).
  { intros j Hj. now apply (forecast_dates_in_range _ months). }
  rewrite Hrevs in Hrevs'. inversion Hrevs'; subst revs'; clear Hrevs'.
  destruct (Hlong Hn) as (hist & Hm & Hres).
  destruct (historical_shape _ _ _ _ Hrevs Hm) as [_ Hshape].
  eexists. split; [exact Hres|].
  apply Forall_app. split.
  - eapply Forall_impl; [|exact Hshape].
    intros p (v & -> & _) f Hf. discriminate Hf.
  - apply Forall_forall. intros p Hp f Hf.
    apply in_map_iff in Hp as (i & <- & Hin).
    apply py_range_in in Hin. exists i. split; [lia|].
    split; [reflexivity|].
    assert (E : forecasted_value
                  (fst (polyfit1 (arange (List.length revs)) revs))
                  (snd (polyfit1 (arange (List.length revs)) revs))
                  (Z.of_nat (List.length revs) - 1) i
                == a * inject_Z (Z.of_nat (List.length revs) - 1 + i) + b).
    { unfold forecasted_value. clear - Hs Hi.
      generalize dependent (polyfit1 (arange (List.length revs)) revs).
      intros coeffs Hs Hi. now rewrite Hs, Hi. }
    rewrite future_point_revenue in Hf. injection Hf as <-.
    apply py_round_comp; [exact E | reflexivity].
Qed.

Lemma X11_forecast_continues_line_witness :
  fst (polyfit1 (arange 3) [100; 200; 300]) == 100
  /\ snd (polyfit1 (arange 3) [100; 200; 300]) == 100
  /\ exists l,
       get_sales_forecast 2 three_month_db sample_now = Ok l
       /\ Forall
            (fun p =>
               forall f, ForecastData.forecasted_revenue p = Some f ->
                 exists i,
                   (1 <= i <= 2)%Z
                   /\ ForecastData.period p
                      = strftime_Ym
                          (DT.add sample_now (DT.td_days (30 * i)))
                   /\ f == py_round (100 * inject_Z (3 - 1 + i) + 100) 2)
            l.
Proof.
  apply (X11_forecast_continues_line 2 three_month_db sample_now 100 100
           [100; 200; 300]).
  - vm_compute. reflexivity.
  - simpl. lia.
  - unfold on_line. repeat constructor.
  - reflexivity.
  - reflexivity.
Defined.

(** ** Customer risk analysis *)

Lemma has_risk_score_same_key (v : Q) (a b : CustomerProfile.t) :
  has_risk_score v a = true -> has_risk_score v b = true ->
  Qle_bool (CustomerProfile.risk_score a) (CustomerProfile.risk_score b)
  = true.
Proof.
  unfold has_risk_score. rewrite !Qeq_bool_iff, Qle_bool_iff.
  intros Ha Hb. rewrite Ha, Hb. lra.
Qed.

Lemma query_matches_spec (expected : option string) (actual : string) :
  query_matches expected actual = true ->
  forall v, expected = Some v -> v <> "" -> actual = v.
Proof.
  intros H v -> Hv. unfold query_matches in H.
  apply String.eqb_neq in Hv. rewrite Hv in H. now apply String.eqb_eq.
Qed.

(** X12: the customer-risk answer is a rearrangement of the profiles that
    satisfy the given conditions (a condition that is absent or the empty
    string is ignored): nothing is lost or added, every returned profile has
    the requested risk category and region, the order is descending in
    risk_score, and profiles with equal scores keep their stored order. *)
Theorem X12_customer_risk_ranking :
  forall (risk_category region : option string) (db : Database),
    let answer := get_customer_risk_analysis risk_category region db in
    Permutation answer (find_customers risk_category region db)
    /\ Forall
         (fun c =>
            In c (customer_profiles db)
            /\ (forall v, risk_category = Some v -> v <> "" ->
                          CustomerProfile.risk_category c = v)
            /\ (forall v, region = Some v -> v <> "" ->
                          CustomerProfile.region c = v))
         answer
    /\ StronglySorted
         (fun a b =>
            CustomerProfile.risk_score b <= CustomerProfile.risk_score a)
         answer
    /\ (forall v : Q,
          filter (has_risk_score v) answer
          = filter (has_risk_score v)
              (find_customers risk_category region db))
    /\ (find_customers None None db = customer_profiles db
        /\ find_customers (Some "") (Some "") db = customer_profiles db).
Proof.
  intros rc region db answer. subst answer.
  unfold get_customer_risk_analysis.
  pose proof (py_sorted_perm Qle_bool CustomerProfile.risk_score true
                (find_customers rc region db)) as Hperm.
  split; [exact Hperm|]. split; [|split; [|split]].
  - apply Forall_forall. intros c Hc.
    apply (Permutation_in _ Hperm) in Hc.
    unfold find_customers in Hc. apply filter_In in Hc as [Hin Hq].
    apply andb_true_iff in Hq as [Hrc Hreg].
    split; [exact Hin|]. split.
    + now apply query_matches_spec.
    + now apply query_matches_spec.
  - eapply StronglySorted_ind with
      (P := StronglySorted
              (fun a b => CustomerProfile.risk_score b
                          <= CustomerProfile.risk_score a)).
    + constructor.
    + intros a l _ IH Ha. constructor; [exact IH|].
      eapply Forall_impl; [|exact Ha].
      intros b Hb. apply Qle_bool_iff. exact Hb.
    + apply (py_sorted_reverse_sorted Qle_bool CustomerProfile.risk_score
               Qle_bool_total Qle_bool_trans).
  - intros v. apply filter_py_sorted. apply has_risk_score_same_key.
  - assert (Hall : forall (f : CustomerProfile.t -> bool) l,
               (forall c, f c = true) -> filter f l = l).
    { intros f l Hf. induction l as [|c l IH]; [reflexivity|].
      cbn [filter]. now rewrite Hf, IH. }
    split; unfold find_customers; apply Hall; intros c; reflexivity.
Qed.

(** Two High profiles with the same score keep their stored order. *)
Example customer_risk_sample :
  map CustomerProfile.customer_id
    (get_customer_risk_analysis None (Some "") sample_db_profiles)
  = ["CUST_EMEA_2002"; "CUST_EMEA_2004"; "CUST_Americas_3003";
     "CUST_APAC_1001"]
  /\ map CustomerProfile.customer_id
       (get_customer_risk_analysis (Some "High") (Some "EMEA")
          sample_db_profiles)
     = ["CUST_EMEA_2002"; "CUST_EMEA_2004"].
Proof. split; vm_compute; reflexivity. Qed.

(** ** Country performance *)

Lemma dict_upd_Forall {V : Type} (P : string -> V -> Prop) (k : string)
    (init : V) (f : V -> V) (d : Dict.t V) :
  Forall (fun kv => P (fst kv) (snd kv)) d ->
  P k (f init) -> (forall v, P k v -> P k (f v)) ->
  Forall (fun kv => P (fst kv) (snd kv)) (dict_upd k init f d).
Proof.
  intros Hd Hinit Hstep.
  induction Hd as [|[k' v] d Hkv Hd' IH]; cbn [dict_upd].
  - repeat constructor. exact Hinit.
  - destruct (String.eqb k k') eqn:E.
    + apply String.eqb_eq in E; subst k'.
      constructor; [now apply Hstep | assumption].
    + constructor; assumption.
Qed.

Lemma dict_get_Forall {V : Type} (P : string -> V -> Prop) (k : string)
    (d : Dict.t V) (v : V) :
  Forall (fun kv => P (fst kv) (snd kv)) d ->
  Dict.get k d = Some v -> P k v.
Proof.
  induction 1 as [|[k' v'] d Hkv _ IH]; cbn [Dict.get]; [discriminate|].
  destruct (String.eqb k k') eqn:E.
  - apply String.eqb_eq in E; subst k'. intros H. inversion H; subst.
    exact Hkv.
  - exact IH.
Qed.

(** Overwriting the value of a present key keeps the keys and, for a value
    with the same measure, the total. *)
Lemma dict_set_present {V : Type} (m : V -> Z) (P : string -> V -> Prop)
    (k : string) (old new : V) (d : Dict.t V) :
  Dict.get k d = Some old -> m new = m old ->
  Dict.keys (Dict.set k new d) = Dict.keys d
  /\ Z_sum (map m (Dict.values (Dict.set k new d)))
     = Z_sum (map m (Dict.values d))
  /\ (Forall (fun kv => P (fst kv) (snd kv)) d -> P k new ->
      Forall (fun kv => P (fst kv) (snd kv)) (Dict.set k new d)).
Proof.
  unfold Dict.keys, Dict.values.
  induction d as [|[k' v'] d IH]; cbn [Dict.get Dict.set]; [discriminate|].
  destruct (String.eqb k k') eqn:E; intros Hget Hm.
  - inversion Hget; subst v'. apply String.eqb_eq in E; subst k'.
    cbn [map fst snd]. rewrite !Z_sum_cons, Hm.
    split; [reflexivity|]. split; [reflexivity|].
    intros Hd Hnew. inversion Hd; subst. now constructor.
  - destruct (IH Hget Hm) as (Hk & Hs & Hf).
    cbn [map fst snd]. rewrite !Z_sum_cons, Hk, Hs.
    split; [reflexivity|]. split; [reflexivity|].
    intros Hd Hnew. inversion Hd; subst. constructor; [assumption|].
    now apply Hf.
Qed.

Lemma set_add_length (x : string) (s : list string) :
  (List.length s <= List.length (set_add x s) <= S (List.length s))%nat
  /\ (1 <= List.length (set_add x s))%nat.
Proof.
  unfold set_add. destruct (str_in x s) eqn:E.
  - split; [lia|]. apply str_in_iff in E. destruct s; [destruct E|simpl; lia].
  - rewrite length_app. simpl. lia.
Qed.

Lemma country_metrics_group (sales_data : list SalesRecord.t) :
  country_metrics_of sales_data
  = group_fold SalesRecord.country
      (fun record =>
         CountryMetrics.mk (SalesRecord.country record)
           (SalesRecord.region record) 0 0%Z [] None)
      (fun record m =>
         CountryMetrics.mk (CountryMetrics.country m)
           (CountryMetrics.region m)
           (CountryMetrics.revenue m + SalesRecord.revenue record)
           (CountryMetrics.orders m + 1)%Z
           (set_add (SalesRecord.customer_id record)
              (CountryMetrics.customers m))
           (CountryMetrics.high_risk_customers m))
      sales_data.
Proof. reflexivity. Qed.

(** After the aggregation loop. *)
Lemma country_metrics_invariant (sales_data : list SalesRecord.t)
    (d : Dict.t CountryMetrics.t) :
  let loop :=
    fold_left
      (fun country_metrics record =>
         dict_upd (SalesRecord.country record)
           (CountryMetrics.mk (SalesRecord.country record)
              (SalesRecord.region record) 0 0%Z [] None)
           (fun m =>
              CountryMetrics.mk (CountryMetrics.country m)
                (CountryMetrics.region m)
                (CountryMetrics.revenue m + SalesRecord.revenue record)
                (CountryMetrics.orders m + 1)%Z
                (set_add (SalesRecord.customer_id record)
                   (CountryMetrics.customers m))
                (CountryMetrics.high_risk_customers m))
           country_metrics)
      sales_data d in
  Forall (fun kv => country_entry_ok (fst kv) (snd kv)) d ->
  Forall (fun kv => country_entry_ok (fst kv) (snd kv)) loop
  /\ Z_sum (map CountryMetrics.orders (Dict.values loop))
     = (Z_sum (map CountryMetrics.orders (Dict.values d))
        + Z.of_nat (List.length sales_data))%Z.
Proof.
  revert d. induction sales_data as [|r rs IH]; intros d; cbn zeta;
    cbn [fold_left]; intros Hd.
  - split; [exact Hd | cbn [List.length]; lia].
  - match goal with
    | |- context [fold_left _ rs ?d'] =>
        destruct (IH d') as [Hok Hsum]
    end.
    + apply dict_upd_Forall; [exact Hd| |].
      * unfold country_entry_ok.
        cbn [CountryMetrics.country CountryMetrics.orders
             CountryMetrics.customers CountryMetrics.high_risk_customers
             count_or_zero].
        pose proof (set_add_length (SalesRecord.customer_id r) []) as Hl.
        cbn [List.length] in Hl. repeat split; lia.
      * intros m (Hc & Ho & Hcu & Hh). unfold country_entry_ok.
        cbn [CountryMetrics.country CountryMetrics.orders
             CountryMetrics.customers CountryMetrics.high_risk_customers].
        pose proof (set_add_length (SalesRecord.customer_id r)
                      (CountryMetrics.customers m)) as Hl.
        repeat split; try assumption; lia.
    + split; [exact Hok|]. rewrite Hsum.
      rewrite (dict_upd_Z_sum CountryMetrics.orders 1%Z);
        [cbn [List.length]; lia | intros v; reflexivity | reflexivity].
Qed.

(** The risk loop touches only the high-risk counter. *)
Lemma add_risk_metrics_invariant (customer_data : list CustomerProfile.t)
    (d : Dict.t CountryMetrics.t) :
  Forall (fun kv => country_entry_ok (fst kv) (snd kv)) d ->
  let d' := fold_left add_risk_metric customer_data d in
  Forall (fun kv => country_entry_ok (fst kv) (snd kv)) d'
  /\ Dict.keys d' = Dict.keys d
  /\ Z_sum (map CountryMetrics.orders (Dict.values d'))
     = Z_sum (map CountryMetrics.orders (Dict.values d)).
Proof.
  revert d. induction customer_data as [|c cs IH]; intros d Hd; cbn zeta;
    cbn [fold_left].
  - repeat split; [exact Hd].
  - assert (Hstep : Forall (fun kv => country_entry_ok (fst kv) (snd kv))
                      (add_risk_metric d c)
                    /\ Dict.keys (add_risk_metric d c) = Dict.keys d
                    /\ Z_sum (map CountryMetrics.orders
                                (Dict.values (add_risk_metric d c)))
                       = Z_sum (map CountryMetrics.orders (Dict.values d))).
    { unfold add_risk_metric.
      destruct (Dict.get (CustomerProfile.country c) d) as [m|] eqn:Eg;
        [|repeat split; exact Hd].
      pose proof (dict_get_Forall country_entry_ok _ _ _ Hd Eg)
        as (Hc & Ho & Hcu & Hh).
      match goal with
      | |- context [Dict.set _ ?new d] =>
          destruct (dict_set_present CountryMetrics.orders country_entry_ok
                      (CustomerProfile.country c) m new d Eg eq_refl)
            as (Hk & Hs & Hf)
      end.
      split; [|split; assumption].
      apply Hf; [exact Hd|]. unfold country_entry_ok.
      cbn [CountryMetrics.country CountryMetrics.orders
           CountryMetrics.customers CountryMetrics.high_risk_customers
           count_or_zero].
      repeat split; try assumption; try lia.
      destruct (String.eqb _ "High"); lia. }
    destruct Hstep as (Hok & Hk & Hs).
    destruct (IH _ Hok) as (Hok' & Hk' & Hs'). cbn zeta in Hok', Hk', Hs'.
    split; [exact Hok'|]. split; congruence.
Qed.

Lemma country_row_ok (m : CountryMetrics.t) :
  (1 <= CountryMetrics.orders m)%Z ->
  country_row m = Ok (country_row_of m).
Proof.
  intros Ho. unfold country_row.
  assert (Hb : (0 <? CountryMetrics.orders m)%Z = true)
    by (apply Z.ltb_lt; lia).
  rewrite Hb, py_div_count by lia. reflexivity.
Qed.

(** X13: [get_country_performance] never raises and returns one row per
    country of the queried sales, each country once: the order counts of the
    rows add up to the number of queried records, every row has at least one
    order, between 1 and orders distinct customers, a non-negative number of
    high-risk customers, and the rows are in descending order of their
    (rounded) revenue. *)
Theorem X13_country_performance_rows :
  forall (region : option string) (db : Database),
    exists rows,
      get_country_performance region db = Ok rows
      /\ NoDup (map CountryRow.country rows)
      /\ (forall c, In c (map CountryRow.country rows)
                    <-> In c (map SalesRecord.country (find_sales region db)))
      /\ Z_sum (map CountryRow.orders rows)
         = Z.of_nat (List.length (find_sales region db))
      /\ Forall
           (fun row =>
              (1 <= CountryRow.orders row)%Z
              /\ (1 <= CountryRow.customers row <= CountryRow.orders row)%Z
              /\ (0 <= CountryRow.high_risk_customers row)%Z)
           rows
      /\ StronglySorted
           (fun a b => CountryRow.revenue b <= CountryRow.revenue a) rows.
Proof.
  intros region db. unfold get_country_performance.
  set (sales := find_sales region db).
  set (cm := fold_left add_risk_metric (find_profiles region db)
               (country_metrics_of sales)).
  destruct (country_metrics_invariant sales [] (Forall_nil _)) as [Hok0 Hsum0].
  fold (country_metrics_of sales) in Hok0, Hsum0.
  destruct (add_risk_metrics_invariant (find_profiles region db)
              (country_metrics_of sales) Hok0) as (Hok & Hkeys & Hsum).
  fold cm in Hok, Hkeys, Hsum.
  assert (Hrows : mapM country_row (Dict.values cm)
                  = Ok (map country_row_of (Dict.values cm))).
  { apply mapM_map_ok. intros m Hm. apply country_row_ok.
    unfold Dict.values in Hm. apply in_map_iff in Hm as ([k v] & <- & Hin).
    rewrite Forall_forall in Hok. now destruct (Hok _ Hin) as (_ & Ho & _). }
  rewrite Hrows. cbn [bind]. eexists. split; [reflexivity|].
  pose proof (py_sorted_perm Qle_bool CountryRow.revenue true
                (map country_row_of (Dict.values cm))) as Hperm.
  assert (Hcountries : map CountryRow.country
                         (map country_row_of (Dict.values cm))
                       = distinct (map SalesRecord.country sales)).
  { rewrite map_map. cbn [country_row_of CountryRow.country].
    rewrite <- (group_fold_keys SalesRecord.country
                  (fun record =>
                     CountryMetrics.mk (SalesRecord.country record)
                       (SalesRecord.region record) 0 0%Z [] None)
                  (fun record m =>
                     CountryMetrics.mk (CountryMetrics.country m)
                       (CountryMetrics.region m)
                       (CountryMetrics.revenue m + SalesRecord.revenue record)
                       (CountryMetrics.orders m + 1)%Z
                       (set_add (SalesRecord.customer_id record)
                          (CountryMetrics.customers m))
                       (CountryMetrics.high_risk_customers m))).
    rewrite <- country_metrics_group, <- Hkeys.
    unfold Dict.values, Dict.keys. rewrite map_map.
    apply map_ext_in. intros [k v] Hin. cbn [fst snd].
    rewrite Forall_forall in Hok. now destruct (Hok _ Hin) as (Hc & _). }
  split; [|split; [|split; [|split]]].
  - eapply Permutation_NoDup;
      [apply Permutation_sym, Permutation_map, Hperm|].
    rewrite Hcountries. apply NoDup_distinct.
  - intros c. split; intros H.
    + apply In_distinct. fold sales. rewrite <- Hcountries.
      eapply Permutation_in; [apply Permutation_map, Hperm | exact H].
    + eapply Permutation_in;
        [apply Permutation_sym, Permutation_map, Hperm|].
      rewrite Hcountries. apply In_distinct. exact H.
  - rewrite (Z_sum_perm _ _ (Permutation_map CountryRow.orders Hperm)).
    rewrite map_map.
    rewrite (map_ext _ CountryMetrics.orders) by reflexivity.
    rewrite Hsum, Hsum0. reflexivity.
  - apply Forall_forall. intros row Hrow.
    apply (Permutation_in _ Hperm) in Hrow.
    apply in_map_iff in Hrow as (m & <- & Hm).
    unfold Dict.values in Hm. apply in_map_iff in Hm as ([k v] & <- & Hin).
    rewrite Forall_forall in Hok.
    destruct (Hok _ Hin) as (_ & Ho & Hcu & Hh).
    cbn [country_row_of CountryRow.orders CountryRow.customers
         CountryRow.high_risk_customers snd] in *.
    repeat split; lia.
  - pose proof (py_sorted_reverse_sorted Qle_bool CountryRow.revenue
                  Qle_bool_total Qle_bool_trans
                  (map country_row_of (Dict.values cm))) as Hs.
    apply (StronglySorted_map_impl _
             (fun a b => CountryRow.revenue b <= CountryRow.revenue a)
             (fun x : CountryRow.t => x)) in Hs.
    + rewrite map_id in Hs. exact Hs.
    + intros a b Hab. apply Qle_bool_iff. exact Hab.
Qed.

(** ** The synthesizer: one emitted record *)

Lemma choice_in {A : Type} (default : A) (l : list A) (r : nat) :
  l <> [] -> In (choice default l r) l.
Proof.
  intros Hne. unfold choice. apply nth_In.
  apply Nat.mod_upper_bound. destruct l; [congruence | discriminate].
Qed.

Lemma list_index_nth_NoDup (l : list string) (i : nat) :
  NoDup l -> (i < List.length l)%nat -> list_index (nth i l "") l = Ok i.
Proof.
  intros Hnd. revert i. induction Hnd as [|x l Hx Hnd IH]; intros i Hi.
  - simpl in Hi. lia.
  - destruct i as [|i]; cbn [nth list_index].
    + now rewrite String.eqb_refl.
    + simpl in Hi.
      assert (Hin : In (nth i l "") l) by (apply nth_In; lia).
      destruct (String.eqb x (nth i l "")) eqn:E.
      * apply String.eqb_eq in E. rewrite <- E in Hin. contradiction.
      * rewrite IH by lia. reflexivity.
Qed.

Lemma list_get_nth {A : Type} (default : A) (l : list A) (i : nat) :
  (i < List.length l)%nat -> list_get l i = Ok (nth i l default).
Proof.
  intros Hi. unfold list_get.
  rewrite (nth_error_nth' l default Hi). reflexivity.
Qed.

Lemma combine_nth_in {A B : Type} (da : A) (db : B) (l1 : list A)
    (l2 : list B) (i : nat) :
  List.length l1 = List.length l2 -> (i < List.length l1)%nat ->
  In (nth i l1 da, nth i l2 db) (combine l1 l2).
Proof.
  intros Hlen Hi. rewrite <- combine_nth by assumption.
  apply nth_In. rewrite length_combine. lia.
Qed.

Lemma randint_range (a b r : Z) :
  (a <= b)%Z -> (a <= randint a b r <= b)%Z.
Proof.
  intros Hab. unfold randint.
  pose proof (Z.mod_pos_bound r (b - a + 1)). lia.
Qed.

Lemma py_int_nonneg (x : Q) : 0 <= x -> (0 <= py_int x)%Z.
Proof.
  intros Hx. unfold py_int. apply Z.quot_pos; [|lia].
  unfold Qle in Hx. simpl in Hx. lia.
Qed.

(** What the region draw determines. *)
Lemma region_draw (r : nat) :
  let region := choice "" (Dict.keys regions_data) r in
  In region regions
  /\ exists info mult,
       dict_get regions_data region = Ok info
       /\ Dict.get region regions_data = Some info
       /\ dict_get [("APAC", 0.8); ("EMEA", 1.2); ("Americas", 1.0)] region
          = Ok mult
       /\ 0.8 <= mult /\ mult <= 1.2
       /\ NoDup (RegionInfo.countries info)
       /\ List.length (RegionInfo.countries info) = 6%nat
       /\ List.length (RegionInfo.currencies info) = 6%nat.
Proof.
  cbn zeta.
  assert (Hin : In (choice "" (Dict.keys regions_data) r) regions)
    by (apply (choice_in "" (Dict.keys regions_data)); discriminate).
  split; [exact Hin|].
  destruct Hin as [<-|[<-|[<-|[]]]]; eexists; eexists;
    (split; [reflexivity|]); (split; [reflexivity|]);
    (split; [reflexivity|]); (split; [unfold Qle; simpl; lia|]);
    (split; [unfold Qle; simpl; lia|]);
    (split; [|split; reflexivity]);
    cbn [RegionInfo.countries];
    repeat (constructor; [cbn [In]; intros H;
                          repeat (destruct H as [H|H]; [discriminate H|]);
                          exact H|]);
    constructor.
Qed.

(** What the product draw determines: a base revenue within the range of
    its category. *)
Lemma product_draw (r : nat) (u1 u2 u3 u4 : Q) :
  unit_interval u1 -> unit_interval u2 -> unit_interval u3 ->
  unit_interval u4 ->
  exists base,
    dict_get
      [ ("Software", uniform 50000 500000 u1);
        ("Cloud Services", uniform 10000 200000 u2);
        ("Consulting", uniform 25000 300000 u3);
        ("Hardware", uniform 30000 400000 u4) ]
      (fst (choice ("", []) products r)) = Ok base
    /\ 10000 <= base /\ base <= 500000.
Proof.
  intros [H1 H1'] [H2 H2'] [H3 H3'] [H4 H4'].
  assert (Hin : In (choice ("", []) products r) products)
    by (apply (choice_in ("", []) products); discriminate).
  unfold uniform.
  destruct Hin as [<-|[<-|[<-|[<-|[]]]]]; eexists;
    (split; [reflexivity|]); split; lra.
Qed.

Lemma product_draw_total (r : nat) (u1 u2 u3 u4 : Q) :
  exists base,
    dict_get
      [ ("Software", uniform 50000 500000 u1);
        ("Cloud Services", uniform 10000 200000 u2);
        ("Consulting", uniform 25000 300000 u3);
        ("Hardware", uniform 30000 400000 u4) ]
      (fst (choice ("", []) products r)) = Ok base.
Proof.
  assert (Hin : In (choice ("", []) products r) products)
    by (apply (choice_in ("", []) products); discriminate).
  destruct Hin as [<-|[<-|[<-|[<-|[]]]]]; eexists; reflexivity.
Qed.

(** One pass of the emitting loop never raises; its record, field by
    field. *)
Lemma emit_record_spec (start_date now : DT.datetime) (d : Draw.t) :
  exists (rec : SalesRecord.t) (revenue : Q) (info : RegionInfo.t)
         (base mult : Q),
    emit_record start_date now d = Ok (rec, revenue)
    /\ In (SalesRecord.region rec) regions
    /\ Dict.get (SalesRecord.region rec) regions_data = Some info
    /\ In (SalesRecord.country rec, SalesRecord.currency rec)
         (combine (RegionInfo.countries info) (RegionInfo.currencies info))
    /\ SalesRecord.customer_id rec
       = ("CUST_" ++ SalesRecord.region rec ++ "_"
          ++ str_of_Z (randint 1000 9999 (Draw.customer_r d)))%string
    /\ SalesRecord.order_date rec
       = DT.add start_date
           (DT.td_days (Z.min (py_int (Draw.exponential d)) 729))
    /\ SalesRecord.payment_due_date rec
       = DT.add (SalesRecord.order_date rec)
           (DT.td_days (randint 30 90 (Draw.due_r d)))
    /\ SalesRecord.payment_status rec = choose_status (Draw.status_u d)
    /\ SalesRecord.days_overdue rec
       = (if String.eqb (SalesRecord.payment_status rec) "Overdue"
          then Z.max 0 (DT.days (DT.diff now
                                   (SalesRecord.payment_due_date rec)))
          else 0%Z)
    /\ SalesRecord.quantity rec = randint 1 50 (Draw.quantity_r d)
    /\ SalesRecord.revenue rec = py_round revenue 2
    /\ SalesRecord.deal_size rec
       = py_round (revenue / inject_Z (SalesRecord.quantity rec)) 2
    /\ SalesRecord.id rec = Draw.uuid d
    /\ revenue = base * mult * uniform 0.7 1.3 (Draw.jitter_u d)
    /\ 0.8 <= mult /\ mult <= 1.2
    /\ (unit_interval (Draw.software_u d) -> unit_interval (Draw.cloud_u d) ->
        unit_interval (Draw.consulting_u d) ->
        unit_interval (Draw.hardware_u d) ->
        10000 <= base /\ base <= 500000).
Proof.
  destruct (region_draw (Draw.region_r d))
    as (Hreg & info & mult & Hinfo & Hget & Hmult & Hm1 & Hm2 & Hnd & Hlc
        & Hlu).
  cbn zeta in Hreg, Hinfo, Hget, Hmult.
  destruct (product_draw_total (Draw.product_cat_r d) (Draw.software_u d)
              (Draw.cloud_u d) (Draw.consulting_u d) (Draw.hardware_u d))
    as [base Hbase].
  assert (Hq : (0 < randint 1 50 (Draw.quantity_r d))%Z).
  { pose proof (randint_range 1 50 (Draw.quantity_r d)). lia. }
  assert (Hi : (Draw.country_r d mod List.length (RegionInfo.countries info)
                < List.length (RegionInfo.countries info))%nat).
  { apply Nat.mod_upper_bound. rewrite Hlc. discriminate. }
  unfold emit_record. cbv zeta.
  rewrite Hinfo. cbn [bind]. unfold choice at 1.
  rewrite (list_index_nth_NoDup _ _ Hnd Hi). cbn [bind].
  rewrite (list_get_nth "") by (rewrite Hlu, <- Hlc; exact Hi).
  cbn [bind]. rewrite Hbase. cbn [bind]. rewrite Hmult. cbn [bind].
  rewrite py_div_count by exact Hq. cbn [bind].
  eexists. eexists. exists info, base, mult.
  split; [reflexivity|].
  cbn [SalesRecord.region SalesRecord.country SalesRecord.currency
       SalesRecord.customer_id SalesRecord.order_date
       SalesRecord.payment_due_date SalesRecord.payment_status
       SalesRecord.days_overdue SalesRecord.quantity SalesRecord.revenue
       SalesRecord.deal_size SalesRecord.id].
  split; [exact Hreg|]. split; [exact Hget|].
  split; [apply combine_nth_in; [congruence | exact Hi]|].
  repeat (split; [reflexivity|]).
  split; [exact Hm1|]. split; [exact Hm2|].
  intros H1 H2 H3 H4.
  destruct (product_draw (Draw.product_cat_r d) _ _ _ _ H1 H2 H3 H4)
    as (base' & Hbase' & Hb).
  rewrite Hbase in Hbase'. inversion Hbase'; subst base'. exact Hb.
Qed.

Lemma product_bounds (x lo hi y lo' hi' : Q) :
  0 <= lo -> lo <= x -> x <= hi -> 0 <= lo' -> lo' <= y -> y <= hi' ->
  lo * lo' <= x * y /\ x * y <= hi * hi'.
Proof.
  intros H0 H1 H2 H0' H1' H2'. split.
  - apply Qle_trans with (x * lo').
    + apply Qmult_le_compat_r; assumption.
    + rewrite (Qmult_comm x lo'), (Qmult_comm x y).
      apply Qmult_le_compat_r; lra.
  - apply Qle_trans with (hi * y).
    + apply Qmult_le_compat_r; lra.
    + rewrite (Qmult_comm hi y), (Qmult_comm hi hi').
      apply Qmult_le_compat_r; lra.
Qed.

(** X14: one pass of the emitting loop never raises, and the record it
    emits is consistent: its region is one of the three regions, its country
    and currency stand at the same position of that region's country and
    currency lists, and its customer id is built from the region and a
    number between 1000 and 9999. *)
Theorem X14_emitted_record_consistent :
  forall (start_date now : DT.datetime) (d : Draw.t),
    exists (rec : SalesRecord.t) (revenue : Q) (info : RegionInfo.t)
           (number : Z),
      emit_record start_date now d = Ok (rec, revenue)
      /\ In (SalesRecord.region rec) ["APAC"; "EMEA"; "Americas"]
      /\ Dict.get (SalesRecord.region rec) regions_data = Some info
      /\ In (SalesRecord.country rec, SalesRecord.currency rec)
           (combine (RegionInfo.countries info) (RegionInfo.currencies info))
      /\ In (SalesRecord.country rec) (RegionInfo.countries info)
      /\ (1000 <= number <= 9999)%Z
      /\ SalesRecord.customer_id rec
         = ("CUST_" ++ SalesRecord.region rec ++ "_" ++ str_of_Z number)%string.
Proof.
  intros start now d.
  destruct (emit_record_spec start now d)
    as (rec & revenue & info & base & mult & Hemit & Hreg & Hget & Hcc & Hid
        & _).
  exists rec, revenue, info, (randint 1000 9999 (Draw.customer_r d)).
  split; [exact Hemit|]. split; [exact Hreg|]. split; [exact Hget|].
  split; [exact Hcc|]. split; [exact (in_combine_l _ _ _ _ Hcc)|].
  split; [apply randint_range; lia | exact Hid].
Qed.

(** X15: with a non-negative exponential sample, the order date of an
    emitted record lies between 730 days and 1 day before the clock read at
    the start; the payment is due 30 to 90 days after the order; days_overdue
    is never negative, is 0 unless the status is "Overdue", is 0 while the
    due date lies ahead, and otherwise counts the whole days since the due
    date. *)
Theorem X15_emitted_record_dates :
  forall (start_now now : DT.datetime) (d : Draw.t),
    0 <= Draw.exponential d ->
    exists (rec : SalesRecord.t) (revenue : Q),
      emit_record (DT.sub start_now (DT.td_days 730)) now d
      = Ok (rec, revenue)
      /\ (DT.stamp start_now - 730 * DT.us_per_day
          <= DT.stamp (SalesRecord.order_date rec)
          <= DT.stamp start_now - 1 * DT.us_per_day)%Z
      /\ (DT.stamp (SalesRecord.order_date rec) + 30 * DT.us_per_day
          <= DT.stamp (SalesRecord.payment_due_date rec)
          <= DT.stamp (SalesRecord.order_date rec) + 90 * DT.us_per_day)%Z
      /\ (0 <= SalesRecord.days_overdue rec)%Z
      /\ (SalesRecord.payment_status rec <> "Overdue" ->
          SalesRecord.days_overdue rec = 0%Z)
      /\ (DT.stamp now < DT.stamp (SalesRecord.payment_due_date rec) ->
          SalesRecord.days_overdue rec = 0%Z)%Z
      /\ (SalesRecord.payment_status rec = "Overdue" ->
          DT.stamp (SalesRecord.payment_due_date rec) <= DT.stamp now ->
          SalesRecord.days_overdue rec
          = DT.days (DT.diff now (SalesRecord.payment_due_date rec)))%Z.
Proof.
  intros start_now now d Hexp.
  destruct (emit_record_spec (DT.sub start_now (DT.td_days 730)) now d)
    as (rec & revenue & info & base & mult & Hemit & _ & _ & _ & _ & Hod
        & Hdue & Hst & Hov & _).
  exists rec, revenue. split; [exact Hemit|].
  pose proof (py_int_nonneg _ Hexp) as Hdays.
  assert (Hk : (30 <= randint 30 90 (Draw.due_r d) <= 90)%Z)
    by (apply randint_range; lia).
  assert (Hod' : DT.stamp (SalesRecord.order_date rec)
                 = (DT.stamp start_now - 730 * 86400000000
                    + Z.min (py_int (Draw.exponential d)) 729
                      * 86400000000)%Z)
    by (rewrite Hod; reflexivity).
  assert (Hdue' : DT.stamp (SalesRecord.payment_due_date rec)
                  = (DT.stamp (SalesRecord.order_date rec)
                     + randint 30 90 (Draw.due_r d) * 86400000000)%Z)
    by (rewrite Hdue; reflexivity).
  unfold DT.days, DT.diff, DT.us_per_day.
  split; [lia|]. split; [lia|]. rewrite Hov.
  unfold DT.days, DT.diff, DT.us_per_day.
  split; [destruct (String.eqb _ "Overdue"); lia|].
  split.
  - intros Hne. apply String.eqb_neq in Hne. now rewrite Hne.
  - split.
    + intros Hlt. destruct (String.eqb _ "Overdue"); [|reflexivity].
      assert ((DT.stamp now - DT.stamp (SalesRecord.payment_due_date rec))
              / 86400000000 < 0)%Z
        by (apply Z.div_lt_upper_bound; lia).
      lia.
    + intros Hs Hle. rewrite Hs. cbn [String.eqb Ascii.eqb Bool.eqb].
      assert (0 <= (DT.stamp now
                    - DT.stamp (SalesRecord.payment_due_date rec))
                   / 86400000000)%Z
        by (apply Z.div_pos; lia).
      lia.
Qed.

Lemma X15_emitted_record_dates_witness :
  exists (rec : SalesRecord.t) (revenue : Q),
    emit_record (DT.sub sample_now (DT.td_days 730)) sample_now sample_draw
    = Ok (rec, revenue)
    /\ (DT.stamp sample_now - 730 * DT.us_per_day
        <= DT.stamp (SalesRecord.order_date rec)
        <= DT.stamp sample_now - 1 * DT.us_per_day)%Z
    /\ (DT.stamp (SalesRecord.order_date rec) + 30 * DT.us_per_day
        <= DT.stamp (SalesRecord.payment_due_date rec)
        <= DT.stamp (SalesRecord.order_date rec) + 90 * DT.us_per_day)%Z
    /\ (0 <= SalesRecord.days_overdue rec)%Z
    /\ (SalesRecord.payment_status rec <> "Overdue" ->
        SalesRecord.days_overdue rec = 0%Z)
    /\ (DT.stamp sample_now < DT.stamp (SalesRecord.payment_due_date rec) ->
        SalesRecord.days_overdue rec = 0%Z)%Z
    /\ (SalesRecord.payment_status rec = "Overdue" ->
        DT.stamp (SalesRecord.payment_due_date rec) <= DT.stamp sample_now ->
        SalesRecord.days_overdue rec
        = DT.days (DT.diff sample_now (SalesRecord.payment_due_date rec)))%Z.
Proof.
  apply (X15_emitted_record_dates sample_now sample_now sample_draw).
  unfold Qle. simpl. lia.
Defined.

Lemma py_round_of_cents (q : Q) (k : Z) :
  q == inject_Z k / 100 -> py_round q 2 == q.
Proof. intros H. apply py_round_cents. now exists k. Qed.

(** X16: with uniform draws in [0,1], the unrounded revenue of an emitted
    record lies between 5600 and 780000; the stored revenue is that value
    rounded to cents (so a whole number of cents, within the same bounds,
    hence positive), the quantity is between 1 and 50 and the stored deal
    size, round(revenue / quantity, 2), does not exceed the stored
    revenue. *)
Theorem X16_emitted_record_amounts :
  forall (start_date now : DT.datetime) (d : Draw.t),
    valid_draw d ->
    exists (rec : SalesRecord.t) (revenue : Q),
      emit_record start_date now d = Ok (rec, revenue)
      /\ 5600 <= revenue /\ revenue <= 780000
      /\ SalesRecord.revenue rec = py_round revenue 2
      /\ is_cents (SalesRecord.revenue rec)
      /\ 5600 <= SalesRecord.revenue rec
      /\ SalesRecord.revenue rec <= 780000
      /\ (1 <= SalesRecord.quantity rec <= 50)%Z
      /\ SalesRecord.deal_size rec
         = py_round (revenue / inject_Z (SalesRecord.quantity rec)) 2
      /\ SalesRecord.deal_size rec <= SalesRecord.revenue rec.
Proof.
  intros start now d (H1 & H2 & H3 & H4 & [Hj0 Hj1] & _).
  destruct (emit_record_spec start now d)
    as (rec & revenue & info & base & mult & Hemit & _ & _ & _ & _ & _ & _
        & _ & _ & Hq & Hrev & Hdeal & _ & Hraw & Hm1 & Hm2 & Hbase).
  destruct (Hbase H1 H2 H3 H4) as [Hb1 Hb2].
  assert (Hjit : 0.7 <= uniform 0.7 1.3 (Draw.jitter_u d)
                 /\ uniform 0.7 1.3 (Draw.jitter_u d) <= 1.3).
  { unfold uniform. split; lra. }
  destruct Hjit as [Hjit1 Hjit2].
  destruct (product_bounds base 10000 500000 mult 0.8 1.2) as [Hbm1 Hbm2];
    try lra.
  destruct (product_bounds (base * mult) (10000 * 0.8) (500000 * 1.2)
              (uniform 0.7 1.3 (Draw.jitter_u d)) 0.7 1.3) as [Hr1 Hr2];
    try lra.
  assert (Hlo : 5600 <= revenue) by (rewrite Hraw; lra).
  assert (Hhi : revenue <= 780000) by (rewrite Hraw; lra).
  assert (Hquant : (1 <= SalesRecord.quantity rec <= 50)%Z)
    by (rewrite Hq; apply randint_range; lia).
  exists rec, revenue. split; [exact Hemit|].
  split; [exact Hlo|]. split; [exact Hhi|]. split; [exact Hrev|].
  split; [rewrite Hrev; apply py_round_is_cents|].
  split.
  { rewrite Hrev.
    rewrite <- (py_round_of_cents 5600 560000) by reflexivity.
    now apply py_round_mono. }
  split.
  { rewrite Hrev.
    rewrite <- (py_round_of_cents 780000 78000000) by reflexivity.
    now apply py_round_mono. }
  split; [exact Hquant|]. split; [exact Hdeal|].
  rewrite Hdeal, Hrev. apply py_round_mono.
  assert (Hqq : 1 <= inject_Z (SalesRecord.quantity rec)).
  { change 1 with (inject_Z 1). rewrite <- Zle_Qle. lia. }
  apply Qle_shift_div_r; [lra|].
  rewrite <- (Qmult_1_r revenue) at 1.
  rewrite (Qmult_comm revenue 1), (Qmult_comm revenue (inject_Z _)).
  apply Qmult_le_compat_r; lra.
Qed.

Lemma sample_draw_valid : valid_draw sample_draw.
Proof.
  unfold valid_draw, unit_interval, sample_draw, Qle. simpl.
  repeat split; lia.
Qed.

Lemma X16_emitted_record_amounts_witness :
  exists (rec : SalesRecord.t) (revenue : Q),
    emit_record sample_start sample_now sample_draw = Ok (rec, revenue)
    /\ 5600 <= revenue /\ revenue <= 780000
    /\ SalesRecord.revenue rec = py_round revenue 2
    /\ is_cents (SalesRecord.revenue rec)
    /\ 5600 <= SalesRecord.revenue rec
    /\ SalesRecord.revenue rec <= 780000
    /\ (1 <= SalesRecord.quantity rec <= 50)%Z
    /\ SalesRecord.deal_size rec
       = py_round (revenue / inject_Z (SalesRecord.quantity rec)) 2
    /\ SalesRecord.deal_size rec <= SalesRecord.revenue rec.
Proof.
  apply (X16_emitted_record_amounts sample_start sample_now sample_draw).
  unfold valid_draw, unit_interval, sample_draw, Qle. simpl.
  repeat split; lia.
Defined.

(** The sample draw: an EMEA record for the UK, in pounds. *)
Example emit_sample_draw :
  match emit_record sample_start sample_now sample_draw with
  | Ok (rec, revenue) =>
      SalesRecord.region rec = "EMEA"
      /\ SalesRecord.country rec = "UK"
      /\ SalesRecord.currency rec = "GBP"
      /\ SalesRecord.customer_id rec = "CUST_EMEA_1234"
      /\ SalesRecord.product_category rec = "Software"
      /\ SalesRecord.payment_status rec = "Overdue"
      /\ SalesRecord.quantity rec = 10%Z
      /\ revenue == 330000
  | Raise _ => False
  end.
Proof. vm_compute. repeat split. Qed.

(** ** The synthesizer: the two loops *)

Lemma emit_record_emitted (start_date : DT.datetime)
    (now_at : nat -> DT.datetime) (draws : nat -> Draw.t) (i : nat) :
  emit_record start_date (now_at i) (draws i)
  = Ok (emitted start_date now_at draws i).
Proof.
  unfold emitted.
  destruct (emit_record_spec start_date (now_at i) (draws i))
    as (rec & revenue & _ & _ & _ & Hemit & _).
  now rewrite Hemit.
Qed.

(** The bookkeeping of one pass, as a grouping step on the pass number. *)
Lemma emit_loop_spec (start_date : DT.datetime) (now_at : nat -> DT.datetime)
    (draws : nat -> Draw.t) (passes : list nat)
    (sales_records : list SalesRecord.t)
    (customer_profiles : Dict.t ProfileAcc.t) :
  emit_loop start_date now_at draws passes sales_records customer_profiles
  = Ok (sales_records
        ++ map (fun i => fst (emitted start_date now_at draws i)) passes,
        fold_left
          (fun profiles i =>
             add_order profiles (fst (emitted start_date now_at draws i))
               (snd (emitted start_date now_at draws i))
               (choice "" industries (Draw.industry_r (draws i)))
               (choice "" company_sizes (Draw.company_size_r (draws i))))
          passes customer_profiles).
Proof.
  revert sales_records customer_profiles.
  induction passes as [|i passes IH]; intros S P; cbn [emit_loop].
  - cbn [map fold_left]. now rewrite app_nil_r.
  - rewrite emit_record_emitted. cbn [bind]. rewrite IH.
    cbn [map fold_left]. now rewrite <- app_assoc.
Qed.

Lemma add_order_keeps_ok (profiles : Dict.t ProfileAcc.t)
    (rec : SalesRecord.t) (revenue : Q) (industry size : string) :
  Forall (fun kv => profile_entry_ok (fst kv) (snd kv)) profiles ->
  Forall (fun kv => profile_entry_ok (fst kv) (snd kv))
    (add_order profiles rec revenue industry size).
Proof.
  intros Hok. unfold add_order. apply dict_upd_Forall; [exact Hok| |].
  - unfold profile_entry_ok.
    cbn [ProfileAcc.customer_id ProfileAcc.orders ProfileAcc.overdue_count].
    split; [reflexivity|]. split; [discriminate|]. split.
    + destruct (String.eqb _ "Overdue"); cbn [app List.length]; lia.
    + repeat constructor.
  - intros p (Hc & Hne & Ho & Hall). unfold profile_entry_ok.
    cbn [ProfileAcc.customer_id ProfileAcc.orders ProfileAcc.overdue_count].
    split; [exact Hc|]. split.
    + intros E. apply app_eq_nil in E as [_ E]. discriminate.
    + split.
      * rewrite length_app. cbn [List.length].
        destruct (String.eqb _ "Overdue"); lia.
      * apply Forall_app. split; [exact Hall|]. repeat constructor.
Qed.

Lemma add_order_keys (profiles : Dict.t ProfileAcc.t)
    (rec : SalesRecord.t) (revenue : Q) (industry size : string) :
  Dict.keys (add_order profiles rec revenue industry size)
  = if str_in (SalesRecord.customer_id rec) (Dict.keys profiles)
    then Dict.keys profiles
    else Dict.keys profiles ++ [SalesRecord.customer_id rec].
Proof.
  unfold add_order, Dict.keys.
  induction profiles as [|[k v] d IH]; [reflexivity|].
  cbn [dict_upd map fst]. unfold str_in. cbn [existsb].
  fold (str_in (SalesRecord.customer_id rec) (map fst d)).
  destruct (String.eqb (SalesRecord.customer_id rec) k); cbn [orb map fst].
  - reflexivity.
  - rewrite IH.
    destruct (str_in (SalesRecord.customer_id rec) (map fst d)); reflexivity.
Qed.

(** After the emitting loop: one entry per distinct customer id, in order of
    first appearance, each in good standing. *)
Lemma profiles_after_loop (f : nat -> SalesRecord.t * Q)
    (ind size : nat -> string) (passes : list nat) :
  let profiles :=
    fold_left
      (fun profiles i =>
         add_order profiles (fst (f i)) (snd (f i)) (ind i) (size i))
      passes [] in
  Forall (fun kv => profile_entry_ok (fst kv) (snd kv)) profiles
  /\ Dict.keys profiles
     = distinct (map (fun i => SalesRecord.customer_id (fst (f i))) passes).
Proof.
  induction passes as [|i passes [IHok IHkeys]] using rev_ind; cbn zeta.
  - split; [constructor | reflexivity].
  - cbn zeta in IHok, IHkeys. rewrite fold_left_app. cbn [fold_left].
    split; [now apply add_order_keeps_ok|].
    rewrite add_order_keys, IHkeys, map_app. cbn [map].
    rewrite distinct_snoc.
    set (c := SalesRecord.customer_id (fst (f i))).
    set (ids := map (fun i0 => SalesRecord.customer_id (fst (f i0))) passes).
    assert (Hsame : str_in c (distinct ids) = str_in c ids).
    { destruct (str_in c ids) eqn:E.
      - apply str_in_iff, In_distinct, str_in_iff, E.
      - apply str_in_false_iff. rewrite In_distinct.
        now apply str_in_false_iff. }
    now rewrite Hsame.
Qed.

Lemma py_round_within (x lo hi : Q) (klo khi : Z) (n : nat) :
  lo == inject_Z klo -> hi == inject_Z khi -> lo <= x -> x <= hi ->
  lo <= py_round x n /\ py_round x n <= hi.
Proof.
  intros Hlo Hhi H1 H2.
  assert (E : forall k : Z, py_round (inject_Z k) n == inject_Z k).
  { intros k. unfold py_round.
    pose proof (inject_pow10_pos n) as Hp.
    assert (Hk : inject_Z k * inject_Z (pow10 n)
                 == inject_Z (k * pow10 n)) by now rewrite inject_Z_mult.
    rewrite (round_half_even_comp _ _ Hk), round_half_even_Z.
    rewrite inject_Z_mult. field. lra. }
  split.
  - rewrite Hlo, <- (E klo), <- Hlo. now apply py_round_mono.
  - rewrite Hhi, <- (E khi), <- Hhi. now apply py_round_mono.
Qed.

Lemma categorize_values (r : Q) :
  In (categorize r) ["Low"; "Medium"; "High"].
Proof.
  unfold categorize.
  destruct (Qlt_bool r 30); [now left|].
  destruct (Qlt_bool r 60); [right; now left | right; right; now left].
Qed.

(** Scoring an entry in good standing never raises and gives scores in
    range. *)
Lemma build_profile_ok (now : DT.datetime) (volatility : Q) (uuid : string)
    (k : string) (p : ProfileAcc.t) :
  profile_entry_ok k p ->
  exists c,
    build_profile now volatility uuid p = Ok c
    /\ CustomerProfile.customer_id c = k
    /\ profile_doc_ok c
    /\ (volatility <= 30 -> CustomerProfile.risk_score c <= 100).
Proof.
  intros (Hc & Hne & [Ho1 Ho2] & _).
  destruct (score_profile_total now volatility p Hne) as [s Hs].
  pose proof (score_profile_ratio _ _ _ _ Hne Hs) as Hr.
  destruct (score_profile_inv _ _ _ _ Hs)
    as (last & _ & _ & Hphs & _ & _ & _ & _ & _ & Hcat).
  unfold build_profile. rewrite Hs. cbn [bind].
  eexists. split; [reflexivity|].
  cbn [CustomerProfile.customer_id]. split; [exact Hc|].
  assert (Hn : (0 < Z.of_nat (List.length (ProfileAcc.orders p)))%Z).
  { destruct (ProfileAcc.orders p); [congruence | simpl; lia]. }
  pose proof (inject_Z_pos _ Hn) as Hnq.
  assert (Hr0 : 0 <= Scores.overdue_ratio s).
  { rewrite Hr. unfold Qdiv. apply Qmult_le_0_compat.
    - change 0 with (inject_Z 0). now rewrite <- Zle_Qle.
    - apply Qlt_le_weak, Qinv_lt_0_compat, Hnq. }
  assert (Hr1 : Scores.overdue_ratio s <= 1).
  { rewrite Hr. apply Qle_shift_div_r; [exact Hnq|].
    rewrite Qmult_1_l. now rewrite <- Zle_Qle. }
  assert (Hp : Scores.payment_history_score s
               == 100 - Scores.overdue_ratio s * 100).
  { rewrite Hphs. apply py_max_of_nonneg. lra. }
  split.
  - unfold profile_doc_ok.
    cbn [CustomerProfile.payment_history_score CustomerProfile.risk_category
         CustomerProfile.last_order_date].
    destruct (py_round_within (Scores.payment_history_score s) 0 100
                0 100 1) as [H0 H100]; try reflexivity; try lra.
    split; [exact H0|]. split; [exact H100|].
    split; [rewrite Hcat; apply categorize_values | discriminate].
  - intros Hv. cbn [CustomerProfile.risk_score].
    pose proof (risk_score_le_100 _ _ _ _ Hv Hs) as Hle.
    assert (E : py_round 100 1 == 100) by reflexivity.
    rewrite <- E. now apply py_round_mono.
Qed.

Lemma profile_loop_spec (now_at : nat -> DT.datetime) (volatility : nat -> Q)
    (uuid : nat -> string) (items : list (string * ProfileAcc.t)) (i : nat) :
  Forall (fun kv => profile_entry_ok (fst kv) (snd kv)) items ->
  exists docs,
    profile_loop now_at volatility uuid i items = Ok docs
    /\ map CustomerProfile.customer_id docs = map fst items
    /\ Forall profile_doc_ok docs
    /\ ((forall j, volatility j <= 30) ->
        Forall (fun c => CustomerProfile.risk_score c <= 100) docs).
Proof.
  intros Hok. revert i.
  induction Hok as [|[k p] items Hkp _ IH]; intros i; cbn [profile_loop].
  - exists []. repeat split; constructor.
  - destruct (build_profile_ok (now_at i) (volatility i) (uuid i) k p Hkp)
      as (c & Hc & Hid & Hdoc & Hrisk).
    destruct (IH (S i)) as (docs & Hdocs & Hids & Hall & Hrisks).
    rewrite Hc. cbn [bind]. rewrite Hdocs. cbn [bind].
    exists (c :: docs). split; [reflexivity|].
    cbn [map fst]. split; [now rewrite Hid, Hids|].
    split; [now constructor|].
    intros Hv. constructor; [apply Hrisk, Hv | now apply Hrisks].
Qed.

(** The stored revenue of a record emitted from valid draws is at least
    5600. *)
Lemma emitted_revenue_at_least_5600 (start_date now : DT.datetime) (d : Draw.t) :
  valid_draw d ->
  exists (rec : SalesRecord.t) (revenue : Q),
    emit_record start_date now d = Ok (rec, revenue)
    /\ 5600 <= SalesRecord.revenue rec.
Proof.
  intros (H1 & H2 & H3 & H4 & [Hj0 Hj1] & _).
  destruct (emit_record_spec start_date now d)
    as (rec & revenue & info & base & mult & Hemit & _ & _ & _ & _ & _ & _
        & _ & _ & _ & Hrev & _ & _ & Hraw & Hm1 & Hm2 & Hbase).
  destruct (Hbase H1 H2 H3 H4) as [Hb1 Hb2].
  assert (Hjit : 0.7 <= uniform 0.7 1.3 (Draw.jitter_u d)
                 /\ uniform 0.7 1.3 (Draw.jitter_u d) <= 1.3).
  { unfold uniform. split; lra. }
  destruct Hjit as [Hjit1 Hjit2].
  destruct (product_bounds base 10000 500000 mult 0.8 1.2) as [Hbm1 Hbm2];
    try lra.
  destruct (product_bounds (base * mult) (10000 * 0.8) (500000 * 1.2)
              (uniform 0.7 1.3 (Draw.jitter_u d)) 0.7 1.3) as [Hr1 Hr2];
    try lra.
  exists rec, revenue. split; [exact Hemit|].
  rewrite Hrev.
  rewrite <- (py_round_of_cents 5600 560000) by reflexivity.
  apply py_round_mono. rewrite Hraw. lra.
Qed.

Lemma emitted_props (start_date : DT.datetime) (now_at : nat -> DT.datetime)
    (draws : nat -> Draw.t) (i : nat) :
  let rec := fst (emitted start_date now_at draws i) in
  In (SalesRecord.region rec) regions
  /\ is_cents (SalesRecord.revenue rec)
  /\ (valid_draw (draws i) -> 0 <= SalesRecord.revenue rec).
Proof.
  cbn zeta.
  destruct (emit_record_spec start_date (now_at i) (draws i))
    as (rec & revenue & info & base & mult & Hemit & Hreg & _ & _ & _ & _
        & _ & _ & _ & _ & Hrev & _).
  pose proof (emit_record_emitted start_date now_at draws i) as He.
  rewrite Hemit in He. inversion He as [He']. cbn [fst].
  split; [exact Hreg|]. split; [rewrite Hrev; apply py_round_is_cents|].
  intros Hvalid.
  destruct (emitted_revenue_at_least_5600 start_date (now_at i) (draws i) Hvalid)
    as (rec' & revenue' & Hemit' & Hlo).
  rewrite Hemit in Hemit'. inversion Hemit'; subst rec' revenue'. lra.
Qed.

(** The result of a run, with the two loops exposed. *)
Lemma generate_mock_data_n_spec (count : nat) (run : Run.t) :
  let start_date := DT.sub (Run.start_now run) (DT.td_days 730) in
  let f := emitted start_date (Run.emit_now run) (Run.draws run) in
  let records := map (fun i => fst (f i)) (seq 0 count) in
  exists docs,
    generate_mock_data_n count run
    = Ok ({| sales_records := records; customer_profiles := docs |},
          ("Generated " ++ str_of_Z (Z.of_nat (List.length records))
           ++ " sales records and "
           ++ str_of_Z (Z.of_nat (List.length docs))
           ++ " customer profiles")%string)
    /\ map CustomerProfile.customer_id docs
       = distinct (map SalesRecord.customer_id records)
    /\ Forall profile_doc_ok docs
    /\ ((forall j, Run.volatility run j <= 30) ->
        Forall (fun c => CustomerProfile.risk_score c <= 100) docs).
Proof.
  cbn zeta. unfold generate_mock_data_n.
  rewrite emit_loop_spec. cbn [bind fst snd app].
  set (start := DT.sub (Run.start_now run) (DT.td_days 730)).
  set (f := emitted start (Run.emit_now run) (Run.draws run)).
  destruct (profiles_after_loop f
              (fun i => choice "" industries
                          (Draw.industry_r (Run.draws run i)))
              (fun i => choice "" company_sizes
                          (Draw.company_size_r (Run.draws run i)))
              (seq 0 count)) as [Hok Hkeys].
  cbn zeta in Hok, Hkeys.
  destruct (profile_loop_spec (Run.score_now run) (Run.volatility run)
              (Run.profile_uuid run) _ 0%nat Hok)
    as (docs & Hdocs & Hids & Hall & Hrisk).
  unfold Dict.items. rewrite Hdocs. cbn [bind].
  exists docs. split; [reflexivity|].
  split; [|split; assumption].
  rewrite Hids. unfold Dict.keys in Hkeys. rewrite Hkeys.
  now rewrite map_map.
Qed.

(** X17: a run of the synthesizer never raises and fully determines the new
    database: it holds exactly as many sales records as passes were made
    (5000 for [generate_mock_data]) and exactly one customer profile per
    distinct customer id of those records, in order of first appearance, so
    every record's customer id resolves to one profile; the returned message
    reports the two counts. *)
Theorem X17_synthesis_counts_and_profiles :
  forall (count : nat) (run : Run.t),
    exists (db : Database) (message : string),
      generate_mock_data_n count run = Ok (db, message)
      /\ List.length (sales_records db) = count
      /\ map CustomerProfile.customer_id (customer_profiles db)
         = distinct (map SalesRecord.customer_id (sales_records db))
      /\ NoDup (map CustomerProfile.customer_id (customer_profiles db))
      /\ (forall r, In r (sales_records db) ->
            In (SalesRecord.customer_id r)
              (map CustomerProfile.customer_id (customer_profiles db)))
      /\ message
         = ("Generated " ++ str_of_Z (Z.of_nat count)
            ++ " sales records and "
            ++ str_of_Z (Z.of_nat (List.length (customer_profiles db)))
            ++ " customer profiles")%string
      /\ (count = Z.to_nat 5000 ->
          generate_mock_data run = Ok (db, message)).
Proof.
  intros count run.
  destruct (generate_mock_data_n_spec count run)
    as (docs & Hgen & Hids & _ & _). cbn zeta in Hgen, Hids.
  eexists. eexists. split; [exact Hgen|].
  cbn [sales_records customer_profiles].
  assert (Hlen : List.length
                   (map (fun i =>
                           fst (emitted
                                  (DT.sub (Run.start_now run)
                                     (DT.td_days 730))
                                  (Run.emit_now run) (Run.draws run) i))
                      (seq 0 count)) = count)
    by now rewrite length_map, length_seq.
  split; [exact Hlen|]. split; [exact Hids|].
  split; [rewrite Hids; apply NoDup_distinct|].
  split.
  - intros r Hr. rewrite Hids. apply In_distinct. now apply in_map.
  - split; [now rewrite Hlen|].
    intros ->. unfold generate_mock_data. rewrite Hlen in Hgen. exact Hgen.
Qed.

(** X18: every customer profile written by the synthesizer has a
    payment_history_score between 0 and 100, a risk category among Low,
    Medium and High and a last order date; when every volatility draw is at
    most 30, every stored risk_score is at most 100. *)
Theorem X18_synthesized_profiles_in_range :
  forall (count : nat) (run : Run.t),
    exists (db : Database) (message : string),
      generate_mock_data_n count run = Ok (db, message)
      /\ Forall profile_doc_ok (customer_profiles db)
      /\ ((forall j, Run.volatility run j <= 30) ->
          Forall (fun c => CustomerProfile.risk_score c <= 100)
            (customer_profiles db)).
Proof.
  intros count run.
  destruct (generate_mock_data_n_spec count run)
    as (docs & Hgen & _ & Hall & Hrisk). cbn zeta in Hgen.
  eexists. eexists. split; [exact Hgen|].
  cbn [customer_profiles]. split; assumption.
Qed.

(** X19: a synthesized ledger meets what the analytics assume: every record
    carries one of the three regions and a revenue in whole cents, so the
    regional summaries of the new database add up exactly to its revenue;
    with uniform draws in [0,1] no revenue is negative. *)
Theorem X19_synthesized_ledger_well_formed :
  forall (count : nat) (run : Run.t),
    exists (db : Database) (message : string)
           (summaries : list RegionalSummary.t),
      generate_mock_data_n count run = Ok (db, message)
      /\ known_regions (sales_records db)
      /\ cents_revenues (sales_records db)
      /\ get_regional_summary db = Ok summaries
      /\ summary_total summaries == revenue_sum (sales_records db)
      /\ ((forall i, valid_draw (Run.draws run i)) ->
          nonneg_revenues (sales_records db)).
Proof.
  intros count run.
  destruct (generate_mock_data_n_spec count run)
    as (docs & Hgen & _ & _ & _). cbn zeta in Hgen.
  set (start := DT.sub (Run.start_now run) (DT.td_days 730)) in *.
  set (records := map (fun i => fst (emitted start (Run.emit_now run)
                                      (Run.draws run) i)) (seq 0 count))
    in *.
  assert (Hk : known_regions records).
  { unfold known_regions, records. apply Forall_map, Forall_forall.
    intros i _. apply (emitted_props start (Run.emit_now run)
                         (Run.draws run) i). }
  assert (Hc : cents_revenues records).
  { unfold cents_revenues, records. apply Forall_map, Forall_forall.
    intros i _. apply (emitted_props start (Run.emit_now run)
                         (Run.draws run) i). }
  exists {| sales_records := records; customer_profiles := docs |}.
  eexists. exists (summaries_of_regions
                     {| sales_records := records; customer_profiles := docs |}
                     regions).
  split; [exact Hgen|]. cbn [sales_records].
  split; [exact Hk|]. split; [exact Hc|].
  split; [apply get_regional_summary_spec|].
  split; [now apply regional_totals_exact|].
  intros Hvalid. unfold nonneg_revenues, records.
  apply Forall_map, Forall_forall. intros i _.
  apply (emitted_props start (Run.emit_now run) (Run.draws run) i).
  apply Hvalid.
Qed.

(** Three passes with the same draws: three records, one customer. *)
Example generate_three_passes :
  match generate_mock_data_n 3 sample_run with
  | Ok (db, message) =>
      List.length (sales_records db) = 3%nat
      /\ map CustomerProfile.customer_id (customer_profiles db)
         = ["CUST_EMEA_1234"]
      /\ map CustomerProfile.risk_category (customer_profiles db) = ["High"]
      /\ message = "Generated 3 sales records and 1 customer profiles"
  | Raise _ => False
  end.
Proof. vm_compute. repeat split. Qed.

(** ** KPIs: the two ledger-wide metrics *)

Lemma get_kpis_global_fields (db : Database) (current_date : DT.datetime) :
  exists k,
    get_kpis db current_date = Ok k
    /\ KPIMetrics.high_risk_customers k
       = Z.of_nat
           (List.length
              (filter
                 (fun c => String.eqb (CustomerProfile.risk_category c) "High")
                 (customer_profiles db)))
    /\ KPIMetrics.overdue_payments k
       = py_round
           (revenue_sum
              (filter
                 (fun r => String.eqb (SalesRecord.payment_status r) "Overdue")
                 (sales_records db))) 2
    /\ KPIMetrics.total_orders k
       = Z.of_nat (List.length (current_sales db current_date))
    /\ KPIMetrics.total_revenue k
       = py_round (revenue_sum (current_sales db current_date)) 2.
Proof.
  unfold get_kpis.
  destruct (revenue_growth_of_total
              (revenue_sum (current_sales db current_date))
              (revenue_sum (previous_sales db current_date))) as [g Hg].
  rewrite Hg. cbn [bind].
  destruct (0 <? Z.of_nat (List.length (current_sales db current_date)))%Z
    eqn:E.
  - apply Z.ltb_lt in E. rewrite py_div_count by assumption. cbn [bind].
    eexists. repeat split; reflexivity.
  - cbn [bind]. eexists. repeat split; reflexivity.
Qed.

Lemma filter_comm {A : Type} (f g : A -> bool) (l : list A) :
  filter f (filter g l) = filter g (filter f l).
Proof.
  induction l as [|a l IH]; [reflexivity|].
  cbn [filter]. destruct (g a) eqn:Eg, (f a) eqn:Ef; cbn [filter];
    rewrite ?Eg, ?Ef, IH; reflexivity.
Qed.

(** X20: the two ledger-wide KPI metrics are bounded by the ledger, whatever
    the clock reads.  With non-negative revenues, overdue_payments lies
    between the (rounded) Overdue revenue of the current window and the
    (rounded) revenue of the whole ledger, so it is never negative and can
    exceed the window's total_revenue; high_risk_customers lies between 0
    and the number of stored profiles; and neither value changes with the
    clock. *)
Theorem X20_kpi_ledger_wide_bounds :
  forall (db : Database) (date1 date2 : DT.datetime),
    nonneg_revenues (sales_records db) ->
    exists k1 k2,
      get_kpis db date1 = Ok k1
      /\ get_kpis db date2 = Ok k2
      /\ KPIMetrics.high_risk_customers k1
         = KPIMetrics.high_risk_customers k2
      /\ KPIMetrics.overdue_payments k1 = KPIMetrics.overdue_payments k2
      /\ (0 <= KPIMetrics.high_risk_customers k1
          <= Z.of_nat (List.length (customer_profiles db)))%Z
      /\ 0 <= KPIMetrics.overdue_payments k1
      /\ KPIMetrics.overdue_payments k1
         <= py_round (revenue_sum (sales_records db)) 2
      /\ py_round
           (revenue_sum
              (filter
                 (fun r => String.eqb (SalesRecord.payment_status r) "Overdue")
                 (current_sales db date1))) 2
         <= KPIMetrics.overdue_payments k1.
Proof.
  intros db date1 date2 Hnn.
  destruct (get_kpis_global_fields db date1) as (k1 & Hk1 & Hh1 & Ho1 & _).
  destruct (get_kpis_global_fields db date2) as (k2 & Hk2 & Hh2 & Ho2 & _).
  exists k1, k2.
  split; [exact Hk1|]. split; [exact Hk2|].
  split; [congruence|]. split; [congruence|].
  split; [|split; [|split]].
  - rewrite Hh1. split; [lia|].
    apply Nat2Z.inj_le, filter_length_le.
  - rewrite Ho1. apply py_round_nonneg, revenue_sum_nonneg.
    now apply nonneg_revenues_filter.
  - rewrite Ho1. apply py_round_mono.
    now apply revenue_sum_filter_le.
  - rewrite Ho1. apply py_round_mono.
    unfold current_sales. cbv zeta. rewrite filter_comm.
    apply revenue_sum_filter_le. now apply nonneg_revenues_filter.
Qed.

Lemma X20_kpi_ledger_wide_bounds_witness :
  exists k1 k2,
    get_kpis sample_db sample_now = Ok k1
    /\ get_kpis sample_db (DT.make 2020 1 1 0 0 0 0) = Ok k2
    /\ KPIMetrics.high_risk_customers k1
       = KPIMetrics.high_risk_customers k2
    /\ KPIMetrics.overdue_payments k1 = KPIMetrics.overdue_payments k2
    /\ (0 <= KPIMetrics.high_risk_customers k1
        <= Z.of_nat (List.length (customer_profiles sample_db)))%Z
    /\ 0 <= KPIMetrics.overdue_payments k1
    /\ KPIMetrics.overdue_payments k1
       <= py_round (revenue_sum (sales_records sample_db)) 2
    /\ py_round
         (revenue_sum
            (filter
               (fun r => String.eqb (SalesRecord.payment_status r) "Overdue")
               (current_sales sample_db sample_now))) 2
       <= KPIMetrics.overdue_payments k1.
Proof.
  apply (X20_kpi_ledger_wide_bounds sample_db sample_now
           (DT.make 2020 1 1 0 0 0 0)).
  exact sample_db_nonneg.
Defined.

(** On the sample ledger the only Overdue record lies outside the current
    window: overdue_payments is 500.25 although no Overdue revenue is in the
    window. *)
Example overdue_payments_sample :
  match get_kpis sample_db sample_now with
  | Ok k =>
      KPIMetrics.overdue_payments k == 500.25
      /\ revenue_sum
           (filter
              (fun r => String.eqb (SalesRecord.payment_status r) "Overdue")
              (current_sales sample_db sample_now)) == 0
  | Raise _ => False
  end.
Proof. vm_compute. split; reflexivity. Qed.

(** The sample ledger with profiles, by country: four countries, the largest
    revenue first. *)
Example country_performance_sample :
  match get_country_performance None sample_db_profiles with
  | Ok rows =>
      map CountryRow.country rows = ["Japan"; "France"; "Germany"; "USA"]
      /\ map CountryRow.orders rows = [1; 1; 1; 1]%Z
      /\ map CountryRow.high_risk_customers rows = [0; 1; 1; 0]%Z
  | Raise _ => False
  end.
Proof. vm_compute. repeat split. Qed.

(** ** Calendar: months and quarters *)

Lemma month_pick_check :
  forallb
    (fun k =>
       forallb
         (fun leap =>
            (1 <=? month_pick (Z.of_nat k) leap)%Z
            && (month_pick (Z.of_nat k) leap <=? 12)%Z)
         [true; false])
    (seq 0 365) = true.
Proof. vm_compute. reflexivity. Qed.

Lemma month_pick_range (n : Z) (leapyear : bool) :
  (0 <= n < 365)%Z -> (1 <= month_pick n leapyear <= 12)%Z.
Proof.
  intros Hn. pose proof month_pick_check as H.
  rewrite forallb_forall in H.
  specialize (H (Z.to_nat n)). rewrite forallb_forall in H.
  assert (Hin : In (Z.to_nat n) (seq 0 365)) by (apply in_seq; lia).
  specialize (H Hin leapyear).
  rewrite Z2Nat.id in H by lia.
  assert (Hl : In leapyear [true; false])
    by (destruct leapyear; [now left | right; now left]).
  apply H in Hl. apply andb_true_iff in Hl as [H1 H2].
  apply Z.leb_le in H1. apply Z.leb_le in H2. lia.
Qed.

(** The month of a datetime is a month number. *)
Lemma month_range (d : DT.datetime) : (1 <= DT.month d <= 12)%Z.
Proof.
  unfold DT.month, DT.ord2ymd. cbv zeta.
  set (n3 := ((((DT.toordinal d - 1) mod 146097) mod 36524) mod 1461)%Z).
  set (n100 := (((DT.toordinal d - 1) mod 146097) / 36524)%Z).
  set (n4 := ((((DT.toordinal d - 1) mod 146097) mod 36524) / 1461)%Z).
  destruct ((n3 / 365 =? 4) || (n100 =? 4))%Z; [lia|].
  set (leap := ((n3 / 365 =? 3) && (negb (n4 =? 24) || (n100 =? 3)))%Z%bool).
  assert (Hn : (0 <= n3 mod 365 < 365)%Z) by (apply Z.mod_pos_bound; lia).
  pose proof (month_pick_range (n3 mod 365) leap Hn) as Hpick.
  unfold month_pick in Hpick. cbv zeta in Hpick.
  destruct (n3 mod 365 <? _)%Z; exact Hpick.
Qed.

(** X21: under period=quarterly the key of a record is its year followed by
    "-Q" and a quarter number between 1 and 4, computed as
    (month - 1) // 3 + 1 from a month between 1 and 12. *)
Theorem X21_quarterly_key :
  forall d : DT.datetime,
    exists quarter : Z,
      (1 <= quarter <= 4)%Z
      /\ quarter = ((DT.month d - 1) / 3 + 1)%Z
      /\ (3 * (quarter - 1) < DT.month d <= 3 * quarter)%Z
      /\ period_key "quarterly" d
         = (str_of_Z (DT.year d) ++ "-Q" ++ str_of_Z quarter)%string
      /\ In (str_of_Z quarter) ["1"; "2"; "3"; "4"].
Proof.
  intros d. pose proof (month_range d) as Hm.
  exists ((DT.month d - 1) / 3 + 1)%Z.
  assert (Hq : (0 <= (DT.month d - 1) / 3 <= 3)%Z).
  { split; [apply Z.div_pos; lia|].
    apply Z.lt_succ_r, Z.div_lt_upper_bound; lia. }
  assert (Hdm : (3 * ((DT.month d - 1) / 3) <= DT.month d - 1
                 < 3 * ((DT.month d - 1) / 3) + 3)%Z).
  { pose proof (Z.div_mod (DT.month d - 1) 3) as Hdiv.
    pose proof (Z.mod_pos_bound (DT.month d - 1) 3). lia. }
  split; [lia|]. split; [reflexivity|]. split; [lia|].
  split; [reflexivity|].
  assert (Hcases : ((DT.month d - 1) / 3 = 0 \/ (DT.month d - 1) / 3 = 1
                    \/ (DT.month d - 1) / 3 = 2
                    \/ (DT.month d - 1) / 3 = 3)%Z) by lia.
  destruct Hcases as [E|[E|[E|E]]]; rewrite E; cbn; tauto.
Qed.
